(** * Arm backend: lowering to TOSA and packaging of the Vela output

    Shallow embedding of [backends/arm/arm_backend.py]: the artifact
    packager [vela_compile], the helpers [promote_shape] and
    [transpose_helper], the diagnostic path [dbg_fail], the node loop
    of [ArmBackend.preprocess] and the tagging loop of
    [ArmPartitioner.partition], followed by the properties that the
    design document states about them and by further properties of the
    code. *)

From Stdlib Require Import ZArith List String Lia Bool.
From Stdlib.Strings Require Import Byte.
From Corelib Require Import SpecFloat.
From stdpp Require Import base option list strings gmap pretty.

Local Open Scope string_scope.
Local Open Scope list_scope.
Local Open Scope Z_scope.

(** ** Python values and exceptions *)

(** The exceptions the module can raise, by Python class. *)
Inductive PyError : Type :=
  | AssertionError (msg : string)
  | RuntimeError (msg : string)
  | IndexError
  | KeyError
  | TypeError
  | AttributeError
  | ValueError
  | OverflowError
  | CalledProcessError
  | FileNotFoundError
  | UnicodeDecodeError
  | OSError (cls : string).

(** Result of a computation that may raise. *)
Inductive Res (A : Type) : Type :=
  | Ok (a : A)
  | Raise (e : PyError).
Arguments Ok {A} a.
Arguments Raise {A} e.

#[global] Instance Res_ret : MRet Res := fun A a => Ok a.
#[global] Instance Res_bind : MBind Res := fun A B f m =>
  match m with
  | Ok a => f a
  | Raise e => Raise e
  end.

Definition from_option {A} (e : PyError) (o : option A) : Res A :=
  match o with Some a => Ok a | None => Raise e end.

(** [l[i]] on a Python sequence: negative indices count from the end,
    anything outside [-len, len) raises IndexError. *)
Definition py_index {A} (l : list A) (i : Z) : Res A :=
  let n := Z.of_nat (length l) in
  if (0 <=? i) && (i <? n) then from_option IndexError (l !! Z.to_nat i)
  else if (- n <=? i) && (i <? 0) then from_option IndexError (l !! Z.to_nat (n + i))
  else Raise IndexError.

(** [l[i] = x] on a Python list, same index rule. *)
Definition py_setitem {A} (l : list A) (i : Z) (x : A) : Res (list A) :=
  let n := Z.of_nat (length l) in
  if (0 <=? i) && (i <? n) then Ok (<[Z.to_nat i := x]> l)
  else if (- n <=? i) && (i <? 0) then Ok (<[Z.to_nat (n + i) := x]> l)
  else Raise IndexError.

(** ** Bytes *)

Definition byte_of_Z (z : Z) : byte :=
  match Byte.of_N (Z.to_N (z mod 256)) with
  | Some b => b
  | None => x00
  end.

(** The bytes of [b'\x00' * k] when the product is built; a count that
    is not positive gives the empty string. *)
Definition zero_bytes (k : Z) : list byte := repeat x00 (Z.to_nat k).

(** [sys.maxsize] of 64-bit CPython, the largest length of a sequence. *)
Definition sys_maxsize : Z := 2 ^ 63 - 1.

(** [b'\x00' * k] for a count computed at run time: above [sys.maxsize]
    the product raises OverflowError.  (The counts of the name field
    and of the padding are between 0 and 16 and need no check.  Memory
    is taken to suffice for a sequence of any length that fits.) *)
Definition zero_bytes_times (k : Z) : Res (list byte) :=
  if sys_maxsize <? k then Raise OverflowError else Ok (zero_bytes k).

(** [n.to_bytes(len, 'little')]: unsigned, raises OverflowError when [n]
    is negative or does not fit. *)
Definition to_bytes_little (n : Z) (len : nat) : Res (list byte) :=
  if (n <? 0) || (2 ^ (8 * Z.of_nat len) <=? n) then Raise OverflowError
  else Ok (map (fun i => byte_of_Z (n / 256 ^ Z.of_nat i)) (seq 0 len)).

(** [bytes(s, "utf8")]: a [string] holds the UTF-8 encoding itself. *)
Definition utf8 (s : string) : list byte := list_byte_of_string s.

(** [b.decode()]: strict UTF-8.  The well-formed byte sequences are
    those of the Unicode standard (no overlong form, no surrogate,
    nothing above U+10FFFF); any other input raises
    UnicodeDecodeError. *)
Definition byte_in (lo hi : Z) (b : byte) : bool :=
  let n := Z.of_N (Byte.to_N b) in (lo <=? n) && (n <=? hi).

Definition continuation_byte : byte -> bool := byte_in 128 191.

Fixpoint well_formed_utf8 (bs : list byte) : bool :=
  match bs with
  | [] => true
  | b0 :: rest =>
      if byte_in 0 127 b0 then well_formed_utf8 rest
      else if byte_in 194 223 b0 then
        match rest with
        | b1 :: rest => continuation_byte b1 && well_formed_utf8 rest
        | _ => false
        end
      else if byte_in 224 239 b0 then
        match rest with
        | b1 :: b2 :: rest =>
            (if byte_in 224 224 b0 then byte_in 160 191 b1
             else if byte_in 237 237 b0 then byte_in 128 159 b1
             else continuation_byte b1)
            && continuation_byte b2 && well_formed_utf8 rest
        | _ => false
        end
      else if byte_in 240 244 b0 then
        match rest with
        | b1 :: b2 :: b3 :: rest =>
            (if byte_in 240 240 b0 then byte_in 144 191 b1
             else if byte_in 244 244 b0 then byte_in 128 143 b1
             else continuation_byte b1)
            && continuation_byte b2 && continuation_byte b3
            && well_formed_utf8 rest
        | _ => false
        end
      else false
  end.

Definition bytes_decode (bs : list byte) : Res string :=
  if well_formed_utf8 bs then Ok (string_of_list_byte bs)
  else Raise UnicodeDecodeError.

(** ** The archive written by the external compiler

    An entry of the [.npz] archive is an integer array: its element
    width in bytes and its elements. *)
Record ndarray : Type := { itemsize : nat; items : list Z }.

(** [a.tobytes()]: the elements in order, each little-endian in two's
    complement on [itemsize] bytes. *)
Definition tobytes (a : ndarray) : list byte :=
  flat_map (fun x => map (fun i => byte_of_Z (x / 256 ^ Z.of_nat i))
                         (seq 0 (itemsize a)))
           (items a).

(** [a[0].item()] *)
Definition item0 (a : ndarray) : Res Z := from_option IndexError (items a !! 0%nat).

(** The opened archive, in the order of its entries. *)
Definition npz : Type := list (string * ndarray).

Definition npz_keys (data : npz) : list string := map fst data.

Fixpoint npz_get (data : npz) (key : string) : Res ndarray :=
  match data with
  | [] => Raise KeyError
  | (k, a) :: rest => if String.eqb k key then Ok a else npz_get rest key
  end.

(** ** Artifact packager: [vela_compile] *)

Module Packager.

(** Lines 170-171 and 183-184: the name field. *)
Definition name_field (key : string) : list byte :=
  let block_name := take 15 (utf8 key) in
  block_name ++ zero_bytes (16 - Z.of_nat (length block_name)).

(** Line 176: the padding appended to the data of an archive block. *)
Definition pad_block_data (block_data : list byte) : list byte :=
  block_data ++ zero_bytes (16 - Z.of_nat (length block_data) mod 16).

(** Lines 170-178: the block of one archive entry. *)
Definition npz_block (data : npz) (key : string) : Res (list byte) :=
  let block_name := name_field key in
  arr ← npz_get data key;
  let block_data := tobytes arr in
  block_length ← to_bytes_little (Z.of_nat (length block_data)) 16;
  let block_data := pad_block_data block_data in
  mret (block_name ++ block_length ++ block_data).

(** Lines 169-179: the loop over the keys of the archive. *)
Fixpoint npz_blocks (data : npz) (keys : list string) (blocks : list byte)
  : Res (list byte) :=
  match keys with
  | [] => mret blocks
  | key :: keys' =>
      block ← npz_block data key;
      npz_blocks data keys' (blocks ++ block)
  end.

(** Line 187: the scratch size rounded up to a multiple of 16. *)
Definition round_scratch (block_length : Z) : Z :=
  block_length + (15 - (block_length - 1) mod 16).

(** Lines 183-191: the synthesized scratch block. *)
Definition scratch_block (data : npz) : Res (list byte) :=
  let block_name := name_field "scratch_data" in
  arr ← npz_get data "scratch_shape";
  block_length ← item0 arr;
  let block_length := round_scratch block_length in
  block_data ← zero_bytes_times block_length;
  block_length ← to_bytes_little block_length 16;
  mret (block_name ++ block_length ++ block_data).

Definition header : list byte := utf8 "vela_bin_stream" ++ [x00].
Definition footer : list byte := utf8 "vela_end_stream" ++ [x00].

(** Lines 162-201: the archive re-encoded as the flat stream. *)
Definition package (data : npz) : Res (list byte) :=
  blocks ← npz_blocks data (npz_keys data) [];
  block ← scratch_block data;
  let blocks := blocks ++ block in
  mret (header ++ blocks ++ footer).

End Packager.

(** An array of bytes (element width 1). *)
Definition byte_array (bs : list byte) : ndarray :=
  {| itemsize := 1; items := map (fun b => Z.of_N (Byte.to_N b)) bs |}.

(** ** Numbers carried by the graph *)

(** A Python number: an [int] (a [bool] is the int 0 or 1) or a
    [float], the latter as its binary64 value in canonical form. *)
Inductive PyNum : Type :=
  | PyInt (z : Z)
  | PyFloat (f : spec_float).

(** The literal [0.1]: 0x1.999999999999ap-4. *)
Definition float_0_1 : spec_float := S754_finite false 7205759403792794 (-56).
(** The float [1.0]. *)
Definition float_1 : spec_float := S754_finite false 4503599627370496 (-52).

(** [0.1 == x]; no int equals 0.1, and [None] equals no number. *)
Definition eq_0_1 (x : option PyNum) : bool :=
  match x with
  | Some (PyFloat f) => SFeqb float_0_1 f
  | Some (PyInt _) => false
  | None => false
  end.

(** [x > 1] *)
Definition gt_1 (x : option PyNum) : Res bool :=
  match x with
  | Some (PyInt z) => Ok (1 <? z)
  | Some (PyFloat f) => Ok (SFltb float_1 f)
  | None => Raise TypeError
  end.

(** [int(x)]: truncation toward zero. *)
Definition py_int (x : option PyNum) : Res Z :=
  match x with
  | Some (PyInt z) => Ok z
  | Some (PyFloat (S754_zero _)) => Ok 0
  | Some (PyFloat (S754_infinity _)) => Raise OverflowError
  | Some (PyFloat S754_nan) => Raise ValueError
  | Some (PyFloat (S754_finite s m e)) =>
      let a := if 0 <=? e then Z.pos m * 2 ^ e else Z.pos m / 2 ^ (- e) in
      Ok (if s then - a else a)
  | None => Raise TypeError
  end.

(** [np.prod] of a tuple of ints: the product in 64-bit two's complement. *)
Definition wrap_int64 (z : Z) : Z := (z + 2 ^ 63) mod 2 ^ 64 - 2 ^ 63.
Definition np_prod (l : list Z) : Z := wrap_int64 (fold_right Z.mul 1 l).

(** ** The TOSA serializer, at its interface

    [serializer.tosa_serializer] is an external library.  The model
    keeps what the backend hands to it: the declared tensors, the
    operators in the order of the backend's [addOperator] calls, the
    input and output lists and the two counters that name intermediates
    and constants.  Those names are kept symbolic.  What the library
    does on its own when a constant is declared is outside the model:
    a constant is a declared tensor that carries data. *)

(** Element types of [ts.DType]. *)
Inductive DType : Type := BOOL | INT8 | INT16 | INT32 | FP16 | FP32.
#[global] Instance DType_eq_dec : EqDecision DType.
Proof. solve_decision. Defined.

(** Opcodes of [TosaOp.Op()]: the ones the backend names, and INTDIV,
    the integer divide of the instruction set. *)
Inductive TosaOp : Type :=
  | ADD | AVG_POOL2D | CLAMP | CONV2D | DEPTHWISE_CONV2D | EXP | IDENTITY
  | INTDIV | MATMUL | MUL | RECIPROCAL | REDUCE_MAX | REDUCE_SUM | RESHAPE
  | RSQRT | SUB | TRANSPOSE.
#[global] Instance TosaOp_eq_dec : EqDecision TosaOp.
Proof. solve_decision. Defined.

(** The name of a tensor: the name of a graph node, a name handed out
    by the serializer, or Python's [None] (the [name] of a literal). *)
Inductive TensorName : Type :=
  | NoName
  | NodeName (s : string)
  | LayerName (idx : nat)
  | ConstName (idx : nat).
#[global] Instance TensorName_eq_dec : EqDecision TensorName.
Proof. solve_decision. Defined.

(** [ts.TosaSerializerAttribute] after one of its setters was called. *)
Inductive Attr : Type :=
  | MatMulAttribute (A_zp B_zp : Z)
  | MulAttribute (shift : Z)
  | ReshapeAttribute (new_shape : option (list Z))
  | TransposeAttribute (perms : option (list Z))
  | ClampAttribute (minint maxint : Z) (minfp maxfp : option PyNum)
  | ConvAttribute (pad : list Z) (stride dilation : option (list Z))
                  (input_zp weight_zp : Z)
  | PoolAttribute (kernel stride pad : option (list Z))
                  (input_zp output_zp accum_dtype : Z)
  | AxisAttribute (axis : option PyNum).

Record Tensor : Type := {
  t_name : TensorName;
  t_shape : option (list Z);
  t_dtype : option DType;
  t_data : option (list (option PyNum));
  t_placeholderFilename : option string }.

Record Operator : Type := {
  o_op : TosaOp;
  o_inputs : list TensorName;
  o_outputs : list TensorName;
  o_attr : option Attr }.

Record TosaSerializer : Type := {
  pathPrefix : option string;
  tensors : list Tensor;
  operators : list Operator;
  fb_inputs : list TensorName;
  fb_outputs : list TensorName;
  currResultIdx : nat;
  currInputIdx : nat }.

(** [ts.TosaSerializer(path)] *)
Definition TosaSerializer_new (path : option string) : TosaSerializer :=
  {| pathPrefix := path; tensors := []; operators := []; fb_inputs := [];
     fb_outputs := []; currResultIdx := 0; currInputIdx := 0 |}.

(** ** Graph nodes

    What the backend reads of a [torch.fx] node. *)

(** Targets of call_function nodes ([exir_ops.edge.aten.*] and
    [operator.getitem]); the target of a placeholder is a string. *)
Inductive Callable : Type :=
  | aten_add_Tensor
  | aten_addmm_default
  | aten_permute_copy_default
  | aten_hardtanh_default
  | aten_convolution_default
  | aten_div_Tensor
  | aten__native_batch_norm_legit_no_training_default
  | aten_avg_pool2d_default
  | aten__softmax_default
  | operator_getitem
  | other_callable (qualname : string).
#[global] Instance Callable_eq_dec : EqDecision Callable.
Proof. solve_decision. Defined.

Inductive Target : Type :=
  | TargetStr (s : string)
  | TargetFn (f : Callable).
#[global] Instance Target_eq_dec : EqDecision Target.
Proof. solve_decision. Defined.

(** A node seen as an operand: its name and the tensor metadata. *)
Record NodeRef : Type := {
  ref_name : string;
  ref_dtype : DType;
  ref_shape : list Z }.

(** An element of [node.args]: a node, a list of integers, a number (a
    [bool] is the int 0 or 1), [None], a list of nodes, or any other
    object. *)
Inductive Argument : Type :=
  | ArgNode (n : NodeRef)
  | ArgList (l : list Z)
  | ArgInt (z : Z)
  | ArgFloat (f : spec_float)
  | ArgNone
  | ArgNodes (l : list NodeRef)
  | ArgOther.

(** A value of [node.meta] as the debug report prints it: the tensor
    metadata (the entry "val"), a list with the text of its items, or
    any other value with its text. *)
Inductive MetaValue : Type :=
  | MetaTensor (d : DType) (s : list Z)
  | MetaList (items : list string)
  | MetaOther (text : string).

(** [node_dtype] and [node_shape] are what the operand view reads off
    [node.meta["val"]]; [node_meta] is [node.meta.items()], in the order
    of the dictionary. *)
Record Node : Type := {
  node_op : string;
  node_name : string;
  node_target : Target;
  node_args : list Argument;
  node_dtype : DType;
  node_shape : list Z;
  node_meta : list (string * MetaValue) }.

(** The operand view of a node itself. *)
Definition node_ref (node : Node) : NodeRef :=
  {| ref_name := node_name node; ref_dtype := node_dtype node;
     ref_shape := node_shape node |}.

(** ** [tosa_mapping] *)

(** Modelled from the spec: [tosa_mapping.TosaArg] is missing from the
    sources.  A tensor operand resolves to name, shape and element
    type; a literal operand (a number, a list of integers) resolves to
    a literal view; the fields that a view does not carry are [None]. *)
Record TosaArg : Type := {
  name : TensorName;
  dtype : option DType;
  shape : option (list Z);
  special : option (list Z);
  number : option PyNum }.

Definition TosaArg_none : TosaArg :=
  {| name := NoName; dtype := None; shape := None; special := None;
     number := None |}.

Definition TosaArg_of_ref (n : NodeRef) : TosaArg :=
  {| name := NodeName (ref_name n); dtype := Some (ref_dtype n);
     shape := Some (ref_shape n); special := None; number := None |}.

(** Modelled from the spec: the constructor [tosa_mapping.TosaArg(arg)];
    an operand that is neither a tensor nor a literal is fatal. *)
Definition TosaArg_new (arg : Argument) : Res TosaArg :=
  match arg with
  | ArgNode n => Ok (TosaArg_of_ref n)
  | ArgList l =>
      Ok {| name := NoName; dtype := None; shape := None; special := Some l;
            number := None |}
  | ArgInt z =>
      Ok {| name := NoName; dtype := None; shape := None; special := None;
            number := Some (PyInt z) |}
  | ArgFloat f =>
      Ok {| name := NoName; dtype := None; shape := None; special := None;
            number := Some (PyFloat f) |}
  | ArgNone => Ok TosaArg_none
  | ArgNodes _ | ArgOther => Raise (RuntimeError "No mapping for argument")
  end.

(** Modelled from the spec: the table [tosa_mapping.op] is missing from
    the sources.  Elementwise add is the one operator with a direct 1:1
    instruction; every other target has no entry. *)
Definition tosa_mapping_op (target : Target) : option TosaOp :=
  match target with
  | TargetFn aten_add_Tensor => Some ADD
  | _ => None
  end.

(** Duck typing: [promote_shape] reads [.shape] and [.name] of an
    operand view and of a serializer tensor alike. *)
Class TensorLike (A : Type) : Type := {
  shape_of : A -> option (list Z);
  name_of : A -> TensorName }.
#[global] Instance TosaArg_TensorLike : TensorLike TosaArg :=
  {| shape_of := shape; name_of := name |}.
#[global] Instance Tensor_TensorLike : TensorLike Tensor :=
  {| shape_of := t_shape; name_of := t_name |}.

(** ** State of a run: the module under construction and what the run
    did to the outside (log lines, directories and files). *)

Inductive LogLevel : Type := INFO | WARNING.

Inductive LogMsg : Type :=
  | Text (s : string)
  | NodeOpIs (s : string)
  | NodeNameIs (s : string)
  | NodeTargetIs (t : Target)
  | NodeArgsIs (a : list Argument)
  | NodeKwargsIs
  | NodeMetaItem (key : string) (v : MetaValue)
  | NodeMetaListItem (text : string)
  | EmittingDebugOutputTo (path : option string)
  | DebugOutputCapturedIn (path : option string).

(** Contents of a dump file: [tosa_fb.serialize()] and
    [tosa_fb.writeJson(filename)] of the module as it is then. *)
Inductive FileContent : Type :=
  | Serialized (fb : TosaSerializer)
  | DescJson (fb : TosaSerializer).

Inductive Event : Type :=
  | Logged (level : LogLevel) (msg : LogMsg)
  | Makedirs (path : string)
  | FileWritten (path : string) (content : FileContent).

(** The file system as the run meets it: for a path, the exception
    that making the directory, or opening the file for writing, raises
    there, if any. *)
Record FileSystem : Type := {
  makedirs_error : string -> option PyError;
  open_error : string -> option PyError }.

Record State : Type := {
  tosa_fb : TosaSerializer;
  TOSA_DBG_VERBOSE : bool;
  trace : list Event;
  fs : FileSystem }.

Definition M (A : Type) : Type := State -> Res A * State.

#[global] Instance M_ret : MRet M := fun A a st => (Ok a, st).
#[global] Instance M_bind : MBind M := fun A B f m st =>
  match m st with
  | (Ok a, st') => f a st'
  | (Raise e, st') => (Raise e, st')
  end.

Definition lift {A} (r : Res A) : M A := fun st => (r, st).
Definition raise {A} (e : PyError) : M A := fun st => (Raise e, st).

(** [assert c, msg] *)
Definition assert_ (c : bool) (msg : string) : M unit :=
  if c then mret tt else raise (AssertionError msg).

Definition get_fb : M TosaSerializer := fun st => (Ok (tosa_fb st), st).

Definition modify_fb (f : TosaSerializer -> TosaSerializer) : M unit :=
  fun st => (Ok tt, {| tosa_fb := f (tosa_fb st);
                       TOSA_DBG_VERBOSE := TOSA_DBG_VERBOSE st;
                       trace := trace st; fs := fs st |}).

Definition emit (e : Event) : M unit :=
  fun st => (Ok tt, {| tosa_fb := tosa_fb st;
                       TOSA_DBG_VERBOSE := TOSA_DBG_VERBOSE st;
                       trace := trace st ++ [e]; fs := fs st |}).

(** The logger is at level WARNING unless TOSA_DBG_VERBOSE is set. *)
Definition logger_info (msg : LogMsg) : M unit :=
  fun st => if TOSA_DBG_VERBOSE st then emit (Logged INFO msg) st else (Ok tt, st).
Definition logger_warn (msg : LogMsg) : M unit := emit (Logged WARNING msg).

(** A [for] loop with effects. *)
Fixpoint for_each {A} (l : list A) (body : A -> M unit) : M unit :=
  match l with
  | [] => mret tt
  | x :: l' => _ ← body x; for_each l' body
  end.

(** *** Serializer calls *)

Definition addTensor (nm : TensorName) (shp : option (list Z))
    (dt : option DType) : M Tensor :=
  let tens := {| t_name := nm; t_shape := shp; t_dtype := dt; t_data := None;
                 t_placeholderFilename := None |} in
  _ ← modify_fb (fun fb =>
        {| pathPrefix := pathPrefix fb; tensors := tensors fb ++ [tens];
           operators := operators fb; fb_inputs := fb_inputs fb;
           fb_outputs := fb_outputs fb; currResultIdx := currResultIdx fb;
           currInputIdx := currInputIdx fb |});
  mret tens.

Definition addIntermediate (shp : option (list Z)) (dt : option DType)
  : M Tensor :=
  fb ← get_fb;
  let nm := LayerName (currResultIdx fb) in
  _ ← modify_fb (fun fb =>
        {| pathPrefix := pathPrefix fb; tensors := tensors fb;
           operators := operators fb; fb_inputs := fb_inputs fb;
           fb_outputs := fb_outputs fb; currResultIdx := S (currResultIdx fb);
           currInputIdx := currInputIdx fb |});
  addTensor nm shp dt.

Definition addConst (shp : option (list Z)) (dt : option DType)
    (vals : list (option PyNum)) (nm : option TensorName) : M Tensor :=
  fb ← get_fb;
  let nm' := match nm with Some n => n | None => ConstName (currInputIdx fb) end in
  let tens := {| t_name := nm'; t_shape := shp; t_dtype := dt;
                 t_data := Some vals; t_placeholderFilename := None |} in
  _ ← modify_fb (fun fb =>
        {| pathPrefix := pathPrefix fb; tensors := tensors fb ++ [tens];
           operators := operators fb; fb_inputs := fb_inputs fb;
           fb_outputs := fb_outputs fb; currResultIdx := currResultIdx fb;
           currInputIdx := match nm with
                           | Some _ => currInputIdx fb
                           | None => S (currInputIdx fb)
                           end |});
  mret tens.

Definition addOperator (op : TosaOp) (ins outs : list TensorName)
    (attr : option Attr) : M unit :=
  modify_fb (fun fb =>
    {| pathPrefix := pathPrefix fb; tensors := tensors fb;
       operators := operators fb ++
         [{| o_op := op; o_inputs := ins; o_outputs := outs; o_attr := attr |}];
       fb_inputs := fb_inputs fb; fb_outputs := fb_outputs fb;
       currResultIdx := currResultIdx fb; currInputIdx := currInputIdx fb |}).

Definition addInputTensor (tens : Tensor) : M unit :=
  modify_fb (fun fb =>
    {| pathPrefix := pathPrefix fb; tensors := tensors fb ++ [tens];
       operators := operators fb; fb_inputs := fb_inputs fb ++ [t_name tens];
       fb_outputs := fb_outputs fb; currResultIdx := currResultIdx fb;
       currInputIdx := currInputIdx fb |}).

Definition addOutputTensor (tens : Tensor) : M unit :=
  modify_fb (fun fb =>
    {| pathPrefix := pathPrefix fb; tensors := tensors fb;
       operators := operators fb; fb_inputs := fb_inputs fb;
       fb_outputs := fb_outputs fb ++ [t_name tens];
       currResultIdx := currResultIdx fb; currInputIdx := currInputIdx fb |}).

(** [currBasicBlock.tensors[nm]]: the latest declaration under that name. *)
Fixpoint find_tensor (l : list Tensor) (nm : TensorName) : option Tensor :=
  match l with
  | [] => None
  | t :: l' =>
      match find_tensor l' nm with
      | Some t' => Some t'
      | None => if decide (t_name t = nm) then Some t else None
      end
  end.

Definition tensor_by_name (nm : TensorName) : M Tensor :=
  fb ← get_fb; lift (from_option KeyError (find_tensor (tensors fb) nm)).

(** ** Debug output: [dbg_node], [dbg_tosa_dump], [dbg_fail] *)

(** Lines 59-63: one line per entry of [node.meta], followed by one
    line per item when the value is a list. *)
Definition dbg_meta_item (item : string * MetaValue) : M unit :=
  _ ← logger_info (NodeMetaItem item.1 item.2);
  match item.2 with
  | MetaList items => for_each items (fun i => logger_info (NodeMetaListItem i))
  | _ => mret tt
  end.

(** Lines 50-63. *)
Definition dbg_node (node : Node) : M unit :=
  _ ← logger_info (Text "OP");
  _ ← logger_info (NodeOpIs (node_op node));
  _ ← logger_info (NodeNameIs (node_name node));
  _ ← logger_info (NodeTargetIs (node_target node));
  _ ← logger_info (NodeArgsIs (node_args node));
  _ ← logger_info NodeKwargsIs;
  _ ← logger_info (Text "  node.meta = ");
  for_each (node_meta node) dbg_meta_item.

(** [os.makedirs(p, exist_ok=True)]: the empty path names no directory
    (FileNotFoundError); elsewhere the file system decides. *)
Definition os_makedirs (p : string) : M unit :=
  fun st =>
    if String.eqb p "" then (Raise FileNotFoundError, st)
    else match makedirs_error (fs st) p with
         | Some e => (Raise e, st)
         | None => emit (Makedirs p) st
         end.

(** [f = open(p, mode); f.write(content); f.close()]: the file system
    decides whether the file can be opened; a file that is open is
    written. *)
Definition write_file (p : string) (content : FileContent) : M unit :=
  fun st =>
    match open_error (fs st) p with
    | Some e => (Raise e, st)
    | None => emit (FileWritten p content) st
    end.

(** Lines 126-142; [os.makedirs(None)] raises TypeError. *)
Definition dbg_tosa_dump (path : option string) : M unit :=
  let filename := "output.tosa" in
  _ ← logger_info (EmittingDebugOutputTo path);
  p ← lift (from_option TypeError path);
  _ ← os_makedirs p;
  fb ← get_fb;
  _ ← write_file (String.append p filename) (Serialized fb);
  write_file (String.append p "desc.json") (DescJson fb).

(** Lines 203-208. *)
Definition dbg_fail {A} (node : Node) (path : option string) : M A :=
  _ ← dbg_tosa_dump path;
  _ ← logger_warn (Text "Internal error due to poorly handled node:");
  _ ← dbg_node node;
  _ ← logger_warn (DebugOutputCapturedIn path);
  raise (RuntimeError "TOSA Internal Error on node, enable logging for further info").

(** ** Operator support: [TOSASupportedOperators.is_node_supported] *)

Definition is_node_supported (node : Node) : bool :=
  String.eqb (node_op node) "call_function" &&
  bool_decide (node_target node ∈
    map TargetFn
      [aten_add_Tensor; aten_addmm_default; aten_permute_copy_default;
       aten_hardtanh_default; aten_convolution_default; aten_div_Tensor;
       aten__native_batch_norm_legit_no_training_default;
       aten_avg_pool2d_default; aten__softmax_default; operator_getitem]).

(** Lines 83-92. *)
Definition attr_torch_to_tosa (op : option TosaOp) (node : Node) : option Attr :=
  match op with
  | Some MATMUL => Some (MatMulAttribute 0 0)
  | Some MUL => Some (MulAttribute 0)
  | _ => None
  end.

(** ** Helpers of the lowering: [promote_shape], [transpose_helper] *)

(** A shape used as a tuple; [None] is not one. *)
Definition as_tuple (s : option (list Z)) : Res (list Z) := from_option TypeError s.

(** Lines 214-220. *)
Definition promote_shape {A} `{TensorLike A} (arg : A) (promoted_shape : list Z)
    (out_dtype : option DType) : M Tensor :=
  arg_shape ← lift (as_tuple (shape_of arg));
  _ ← assert_ (np_prod arg_shape =? np_prod promoted_shape)
        "Incompatible promoted shape";
  reshape_res ← addIntermediate (Some promoted_shape) out_dtype;
  let attr := ReshapeAttribute (Some promoted_shape) in
  _ ← addOperator RESHAPE [name_of arg] [t_name reshape_res] (Some attr);
  mret reshape_res.

(** Lines 234-238: both branches of the loop assert [True]. *)
Definition check_dims (input_shape : list Z) (new_order : list Z) : M unit :=
  for_each new_order (fun idx =>
    if idx <? 0 then assert_ true "Negative dim number"
    else if Z.of_nat (length input_shape) <=? idx
         then assert_ true "Dim is greater than input rank"
         else mret tt).

(** Lines 226-247. *)
Definition transpose_helper (input : TosaArg) (new_order : list Z)
    (out_dtype : option DType) : M Tensor :=
  input_shape ← lift (as_tuple (shape input));
  _ ← assert_ (length input_shape =? length new_order)%nat
        "Wrong shape order length";
  _ ← assert_ (length (remove_dups new_order) =? length new_order)%nat
        "Contain duplicated dim numbers";
  _ ← check_dims input_shape new_order;
  input_shape_transpoed ← lift (mapM (py_index input_shape) new_order);
  let attr := TransposeAttribute (Some new_order) in
  input_transposed ← addIntermediate (Some input_shape_transpoed) out_dtype;
  _ ← addOperator TRANSPOSE [name input] [t_name input_transposed] (Some attr);
  mret input_transposed.

(** ** The lowering rules of [ArmBackend.preprocess]

    One definition per branch of the loop body, in the order of the
    source. *)

(** Tuple unpacking of [inputs]. *)
Definition unpack3 {A} (l : list A) : Res (A * A * A) :=
  match l with
  | [a; b; c] => Ok (a, b, c)
  | _ => Raise ValueError
  end.

Definition unpack7 {A} (l : list A) : Res (A * A * A * A * A * A * A) :=
  match l with
  | [a; b; c; d; e; f; g] => Ok (a, b, c, d, e, f, g)
  | _ => Raise ValueError
  end.

Definition unpack9 {A} (l : list A)
  : Res (A * A * A * A * A * A * A * A * A) :=
  match l with
  | [a; b; c; d; e; f; g; h; i] => Ok (a, b, c, d, e, f, g, h, i)
  | _ => Raise ValueError
  end.

(** Lines 289-296: an operator with a 1:1 mapping. *)
Definition lower_mapped (op : TosaOp) (attr : option Attr)
    (inputs : list TosaArg) (outp : TosaArg) : M unit :=
  _ ← assert_ (length inputs =? 2)%nat "";
  in0 ← lift (py_index inputs 0);
  _ ← assert_ (bool_decide (dtype in0 = dtype outp)) "";
  in1 ← lift (py_index inputs 1);
  _ ← assert_ (bool_decide (dtype in1 = dtype outp)) "";
  addOperator op [name in0; name in1] [name outp] attr.

(** Lines 299-347: addmm. *)
Definition lower_addmm (node : Node) (inputs : list TosaArg) (outp : TosaArg)
  : M unit :=
  '(bias, input, weight) ← lift (unpack3 inputs);
  input_shape ← lift (as_tuple (shape input));
  input_reshape_res ← promote_shape input (1 :: input_shape) (dtype outp);
  weight_shape ← lift (as_tuple (shape weight));
  weight_reshape_res ← promote_shape weight (1 :: weight_shape) (dtype outp);
  bias_shape ← lift (as_tuple (shape bias));
  bias_reshape_res ← promote_shape bias (1 :: 1 :: bias_shape) (dtype outp);
  d0 ← lift (py_index input_shape 0);
  d1 ← lift (py_index weight_shape 1);
  let mm_shape := [1; d0; d1] in
  mm_res ← addIntermediate (Some mm_shape) (dtype outp);
  _ ← addOperator MATMUL
        [t_name input_reshape_res; t_name weight_reshape_res] [t_name mm_res]
        (attr_torch_to_tosa (Some MATMUL) node);
  add_res ← addIntermediate (Some mm_shape) (dtype outp);
  _ ← addOperator ADD [t_name bias_reshape_res; t_name mm_res]
        [t_name add_res] None;
  let attr_out := ReshapeAttribute (shape outp) in
  addOperator RESHAPE [t_name add_res] [name outp] (Some attr_out).

(** Lines 348-353: permute_copy. *)
Definition lower_permute_copy (inputs : list TosaArg) (outp : TosaArg) : M unit :=
  in1 ← lift (py_index inputs 1);
  let attr := TransposeAttribute (special in1) in
  in0 ← lift (py_index inputs 0);
  addOperator TRANSPOSE [name in0] [name outp] (Some attr).

(** Lines 354-365: hardtanh. *)
Definition lower_hardtanh (inputs : list TosaArg) (outp : TosaArg) : M unit :=
  in1 ← lift (py_index inputs 1);
  minint ← lift (py_int (number in1));
  in2 ← lift (py_index inputs 2);
  maxint ← lift (py_int (number in2));
  let attr := ClampAttribute minint maxint (number in1) (number in2) in
  in0 ← lift (py_index inputs 0);
  addOperator CLAMP [name in0] [name outp] (Some attr).

(** [[outp.shape[i] for i in order]] *)
Definition gather (shp : option (list Z)) (order : list Z) : Res (list Z) :=
  s ← as_tuple shp; mapM (py_index s) order.

(** Lines 366-445: convolution. *)
Definition lower_convolution (inputs : list TosaArg) (outp : TosaArg) : M unit :=
  '(input, weight, bias, stride, pad, dilation, _, _, group) ←
    lift (unpack9 inputs);
  let NHWC_Order := [0; 2; 3; 1] in
  input_transposed ← transpose_helper input NHWC_Order (dtype outp);
  pad_special ← lift (as_tuple (special pad));
  let pad_attr := flat_map (fun val => [val; val]) pad_special in
  let stride_attr := special stride in
  let dilation_attr := special dilation in
  let attr := ConvAttribute pad_attr stride_attr dilation_attr 0 0 in
  depthwise ← lift (gt_1 (number group));
  conv2d_res ←
    (if depthwise : bool then
       let weight_HWCM_Order := [2; 3; 0; 1] in
       weight_transposed ← transpose_helper weight weight_HWCM_Order (dtype outp);
       let NHWO_Order := [0; 2; 3; 1] in
       out_shape_TOSA_Depthwise_CONV2D ← lift (gather (shape outp) NHWO_Order);
       conv2d_res ←
         addIntermediate (Some out_shape_TOSA_Depthwise_CONV2D) (dtype outp);
       _ ← addOperator DEPTHWISE_CONV2D
             [t_name input_transposed; t_name weight_transposed; name bias]
             [t_name conv2d_res] (Some attr);
       mret conv2d_res
     else
       let weight_CHWC_Order := [0; 2; 3; 1] in
       weight_transposed ← transpose_helper weight weight_CHWC_Order (dtype outp);
       let NHWO_Order := [0; 2; 3; 1] in
       out_shape_TOSA_CONV2D ← lift (gather (shape outp) NHWO_Order);
       conv2d_res ← addIntermediate (Some out_shape_TOSA_CONV2D) (dtype outp);
       _ ← addOperator CONV2D
             [t_name input_transposed; t_name weight_transposed; name bias]
             [t_name conv2d_res] (Some attr);
       mret conv2d_res);
  let NOHW_Order := [0; 3; 1; 2] in
  let attr_output_transpose := TransposeAttribute (Some NOHW_Order) in
  addOperator TRANSPOSE [t_name conv2d_res] [name outp]
    (Some attr_output_transpose).

(** Lines 446-462: div. *)
Definition lower_div (inputs : list TosaArg) (outp : TosaArg) : M unit :=
  in1 ← lift (py_index inputs 1);
  recip ← addIntermediate (shape in1) (dtype in1);
  _ ← addOperator RECIPROCAL [name in1] [t_name recip] None;
  let attr := MulAttribute 0 in
  in0 ← lift (py_index inputs 0);
  addOperator MUL [name in0; t_name recip] [name outp] (Some attr).

(** Lines 463-546: batch normalization without training. *)
Definition lower_batch_norm (node : Node) (inputs : list TosaArg)
    (outp : TosaArg) : M unit :=
  '(activations, _, _, running_mean, running_var, momentum, epsilon) ←
    lift (unpack7 inputs);
  let input_dtype := dtype activations in
  let input_shape := shape activations in
  _ ← assert_ (eq_0_1 (number momentum))
        "Expected 0.1 momentum, not currently encoded into TOSA";
  mean_shape ← lift (as_tuple (shape running_mean));
  mean_reshaped_res ←
    promote_shape running_mean (1 :: mean_shape ++ [1; 1]) input_dtype;
  int1 ← addIntermediate input_shape input_dtype;
  _ ← addOperator SUB [name activations; t_name mean_reshaped_res]
        [t_name int1] None;
  epsilon_const ← addConst (Some [1]) input_dtype [number epsilon] None;
  int2 ← addIntermediate (shape running_var) input_dtype;
  _ ← addOperator ADD [name running_var; t_name epsilon_const]
        [t_name int2] None;
  int3 ← addIntermediate (shape running_var) input_dtype;
  _ ← addOperator RSQRT [t_name int2] [t_name int3] None;
  var_shape ← lift (as_tuple (shape running_var));
  var_reshaped_res ← promote_shape int3 (1 :: var_shape ++ [1; 1]) input_dtype;
  addOperator MUL [t_name int1; t_name var_reshaped_res] [name outp]
    (attr_torch_to_tosa (Some MUL) node).

(** Lines 547-593: avg_pool2d. *)
Definition lower_avg_pool2d (inputs : list TosaArg) (outp : TosaArg) : M unit :=
  input_tensor ← lift (py_index inputs 0);
  in1 ← lift (py_index inputs 1);
  let kernel_size_list := special in1 in
  in2 ← lift (py_index inputs 2);
  let stride_size_list := special in2 in
  let pad_size_list :=
    match py_index inputs 3 with
    | Ok in3 => special in3
    | Raise _ => Some [0; 0; 0; 0]
    end in
  let attr := PoolAttribute kernel_size_list stride_size_list pad_size_list 0 0 8 in
  let NHWC_Order := [0; 2; 3; 1] in
  input_transposed ← transpose_helper input_tensor NHWC_Order (dtype outp);
  avg_pool2d_res_shape ← lift (gather (shape outp) NHWC_Order);
  avg_pool2d_res ← addIntermediate (Some avg_pool2d_res_shape) (dtype outp);
  _ ← addOperator AVG_POOL2D [t_name input_transposed] [t_name avg_pool2d_res]
        (Some attr);
  let NCHW_Order := [0; 3; 1; 2] in
  let attr_output_transpose := TransposeAttribute (Some NCHW_Order) in
  addOperator TRANSPOSE [t_name avg_pool2d_res] [name outp]
    (Some attr_output_transpose).

(** [reduced_shape[dim_value] = 1]: the index must be an int. *)
Definition set_dim_to_1 (l : list Z) (dim_value : option PyNum) : Res (list Z) :=
  match dim_value with
  | Some (PyInt i) => py_setitem l i 1
  | _ => Raise TypeError
  end.

(** Lines 594-666: softmax. *)
Definition lower_softmax (inputs : list TosaArg) (outp : TosaArg) : M unit :=
  in0 ← lift (py_index inputs 0);
  let input_name := name in0 in
  let input_shape := shape in0 in
  in1 ← lift (py_index inputs 1);
  let dim_value := number in1 in
  let attr_axis := AxisAttribute dim_value in
  reduced_shape ← lift (as_tuple input_shape);
  reduced_shape ← lift (set_dim_to_1 reduced_shape dim_value);
  reduce_max_res ← addIntermediate (Some reduced_shape) (dtype outp);
  _ ← addOperator REDUCE_MAX [input_name] [t_name reduce_max_res]
        (Some attr_axis);
  sub_res ← addIntermediate input_shape (dtype outp);
  _ ← addOperator SUB [input_name; t_name reduce_max_res] [t_name sub_res] None;
  exp_res ← addIntermediate input_shape (dtype outp);
  _ ← addOperator EXP [t_name sub_res] [t_name exp_res] None;
  reduce_sum_res ← addIntermediate (Some reduced_shape) (dtype outp);
  _ ← addOperator REDUCE_SUM [t_name exp_res] [t_name reduce_sum_res]
        (Some attr_axis);
  inverted_reduce_sum ← addIntermediate (Some reduced_shape) (dtype outp);
  _ ← addOperator RECIPROCAL [t_name reduce_sum_res]
        [t_name inverted_reduce_sum] None;
  let attr_mul := MulAttribute 0 in
  addOperator MUL [t_name exp_res; t_name inverted_reduce_sum] [name outp]
    (Some attr_mul).

(** Lines 667-672: getitem. *)
Definition lower_getitem (inputs : list TosaArg) (outp : TosaArg) : M unit :=
  in0 ← lift (py_index inputs 0);
  let item_name := name in0 in
  addOperator IDENTITY [item_name] [name outp] None.

(** Lines 272-676: a call_function node. *)
Definition lower_call_function (node : Node) : M unit :=
  inputs ← lift (mapM TosaArg_new (node_args node));
  let outp := TosaArg_of_ref (node_ref node) in
  _ ← addTensor (name outp) (shape outp) (dtype outp);
  let op := tosa_mapping_op (node_target node) in
  let attr := attr_torch_to_tosa op node in
  match op with
  | Some op => lower_mapped op attr inputs outp
  | None =>
      match node_target node with
      | TargetFn aten_addmm_default => lower_addmm node inputs outp
      | TargetFn aten_permute_copy_default => lower_permute_copy inputs outp
      | TargetFn aten_hardtanh_default => lower_hardtanh inputs outp
      | TargetFn aten_convolution_default => lower_convolution inputs outp
      | TargetFn aten_div_Tensor => lower_div inputs outp
      | TargetFn aten__native_batch_norm_legit_no_training_default =>
          lower_batch_norm node inputs outp
      | TargetFn aten_avg_pool2d_default => lower_avg_pool2d inputs outp
      | TargetFn aten__softmax_default => lower_softmax inputs outp
      | TargetFn operator_getitem => lower_getitem inputs outp
      | _ => raise (RuntimeError "Unknown operator")
      end
  end.

(** *** Placeholder and output nodes *)

(** A value of [edge_program.state_dict]. *)
Inductive StateValue : Type :=
  | TorchTensor (values : list PyNum)
  | NotATensor.

Record ExportedProgram : Type := {
  graph_nodes : list Node;
  inputs_to_parameters : gmap string string;
  inputs_to_buffers : gmap string string;
  state_dict : gmap string StateValue }.

(** Lines 689-698 and 700-709: a placeholder backed by stored data. *)
Definition add_stored_const (edge_program : ExportedProgram)
    (parameter_name : string) (in0 : TosaArg) (out : string) : M unit :=
  p_data ← lift (from_option KeyError (state_dict edge_program !! parameter_name));
  match p_data with
  | TorchTensor weight_values =>
      _ ← addConst (shape in0) (dtype in0) (map Some weight_values)
            (Some (NodeName out));
      mret tt
  | NotATensor => raise (AssertionError "Expect Attr to be tensor")
  end.

(** Lines 678-720: a placeholder node. *)
Definition lower_placeholder (edge_program : ExportedProgram) (node : Node)
  : M unit :=
  _ ← assert_ (bool_decide (TargetStr (node_name node) = node_target node))
        "Expect placeholder name and target to match";
  _ ← assert_ (0 =? length (node_args node))%nat
        "Can't handle default input values";
  let in0 := TosaArg_of_ref (node_ref node) in
  let out := node_name node in
  match inputs_to_parameters edge_program !! out with
  | Some parameter_name => add_stored_const edge_program parameter_name in0 out
  | None =>
      match inputs_to_buffers edge_program !! out with
      | Some parameter_name => add_stored_const edge_program parameter_name in0 out
      | None =>
          let tensor :=
            {| t_name := name in0; t_shape := shape in0; t_dtype := dtype in0;
               t_data := None;
               t_placeholderFilename :=
                 Some (String.append (node_name node) ".npy") |} in
          addInputTensor tensor
      end
  end.

(** Lines 722-727: an output node; [node.args[0]] is iterated and the
    [name] of each element read. *)
Definition lower_output (node : Node) : M unit :=
  arg0 ← lift (py_index (node_args node) 0);
  match arg0 with
  | ArgNodes outs =>
      for_each outs (fun output =>
        tens ← tensor_by_name (NodeName (ref_name output));
        addOutputTensor tens)
  | ArgList [] => mret tt
  | ArgList (_ :: _) => raise AttributeError
  | _ => raise TypeError
  end.

(** Lines 271-732: the body of the loop over the nodes. *)
Definition lower_node (edge_program : ExportedProgram) (path : option string)
    (node : Node) : M unit :=
  if String.eqb (node_op node) "call_function" then lower_call_function node
  else if String.eqb (node_op node) "placeholder" then
    lower_placeholder edge_program node
  else if String.eqb (node_op node) "output" then lower_output node
  else dbg_fail node path.

(** ** [ArmBackend.preprocess] *)

(** [CompileSpec(key: str, value: bytes)] *)
Record CompileSpec : Type := { key : string; value : list byte }.

(** Lines 259-265: the debug path is the decoded value of the last
    "debug_tosa_path" entry; the value of every such entry is decoded
    where it stands. *)
Fixpoint debug_tosa_path (compile_spec : list CompileSpec) (path : option string)
  : Res (option string) :=
  match compile_spec with
  | [] => Ok path
  | spec :: rest =>
      if String.eqb (key spec) "debug_tosa_path"
      then p ← bytes_decode (value spec); debug_tosa_path rest (Some p)
      else debug_tosa_path rest path
  end.

Section Preprocess.

(** The external compiler: from the serialized module to the archive it
    leaves behind, or a failed process. *)
Variable vela : TosaSerializer -> Res npz.

(** The file system of the run. *)
Variable files : FileSystem.

(** Lines 146-201. *)
Definition vela_compile : M (list byte) :=
  fb ← get_fb;
  data ← lift (vela fb);
  lift (Packager.package data).

(** Lines 253-741. *)
Definition preprocess_body (edge_program : ExportedProgram)
    (compile_spec : list CompileSpec) : M (list byte) :=
  _ ← logger_info (Text "ArmBackend::preprocess");
  path ← lift (debug_tosa_path compile_spec None);
  let debug_output := bool_decide (path <> None) in
  _ ← modify_fb (fun _ => TosaSerializer_new path);
  _ ← for_each (graph_nodes edge_program) (lower_node edge_program path);
  _ ← (if debug_output then dbg_tosa_dump path else mret tt);
  vela_compile.

Definition initial_state (verbose : bool) : State :=
  {| tosa_fb := TosaSerializer_new None; TOSA_DBG_VERBOSE := verbose;
     trace := []; fs := files |}.

Definition preprocess (verbose : bool) (edge_program : ExportedProgram)
    (compile_spec : list CompileSpec) : Res (list byte) * State :=
  preprocess_body edge_program compile_spec (initial_state verbose).

End Preprocess.

(** A file system on which every directory can be made and every file
    opened. *)
Definition writable_fs : FileSystem :=
  {| makedirs_error := fun _ => None; open_error := fun _ => None |}.

(** A state around a given module, with nothing traced yet, on such a
    file system. *)
Definition state_with (fb : TosaSerializer) (verbose : bool) : State :=
  {| tosa_fb := fb; TOSA_DBG_VERBOSE := verbose; trace := [];
     fs := writable_fs |}.

(** The module right after [ts.TosaSerializer(path)]. *)
Definition fresh_state (path : option string) (verbose : bool) : State :=
  state_with (TosaSerializer_new path) verbose.

(** ** Vocabulary of the statements *)

(** The length the design document gives for a data field:
    ceil(length/16)*16. *)
Definition spec_data_field_length (len : Z) : Z := (len + 15) / 16 * 16.

(** The layout the design document states for the example archive. *)
Definition expected_a_b_scratch (a b : list byte) : list byte :=
  (utf8 "vela_bin_stream" ++ [x00])
  ++ (utf8 "a" ++ zero_bytes 15) ++ ([x03] ++ zero_bytes 15)
  ++ (a ++ zero_bytes 13)
  ++ (utf8 "b" ++ zero_bytes 15) ++ ([x14] ++ zero_bytes 15)
  ++ (b ++ zero_bytes 12)
  ++ (utf8 "scratch_data" ++ zero_bytes 4) ++ ([x10] ++ zero_bytes 15)
  ++ zero_bytes 16
  ++ (utf8 "vela_end_stream" ++ [x00]).

(** What the packager writes for it: the entry that holds the scratch
    size is itself an entry of the archive and gets a block; [w] is the
    width in bytes of the stored integer. *)
Definition packaged_a_b_scratch (a b : list byte) (w : nat) : list byte :=
  (utf8 "vela_bin_stream" ++ [x00])
  ++ (utf8 "a" ++ zero_bytes 15) ++ ([x03] ++ zero_bytes 15)
  ++ (a ++ zero_bytes 13)
  ++ (utf8 "b" ++ zero_bytes 15) ++ ([x14] ++ zero_bytes 15)
  ++ (b ++ zero_bytes 12)
  ++ (utf8 "scratch_shape" ++ zero_bytes 3)
  ++ ([byte_of_Z (Z.of_nat w)] ++ zero_bytes 15)
  ++ ([x0a] ++ zero_bytes 15)
  ++ (utf8 "scratch_data" ++ zero_bytes 4) ++ ([x10] ++ zero_bytes 15)
  ++ zero_bytes 16
  ++ (utf8 "vela_end_stream" ++ [x00]).

Definition bytes_a : list byte := [x01; x02; x03].
Definition bytes_b : list byte := repeat xff 20.

(** Shorthands for the records of the module. *)
Definition mk_op (op : TosaOp) (ins outs : list TensorName)
    (attr : option Attr) : Operator :=
  {| o_op := op; o_inputs := ins; o_outputs := outs; o_attr := attr |}.

Definition mk_tensor (nm : TensorName) (shp : option (list Z))
    (dt : option DType) : Tensor :=
  {| t_name := nm; t_shape := shp; t_dtype := dt; t_data := None;
     t_placeholderFilename := None |}.

(** The name of the [k]-th intermediate declared from state [st] on. *)
Definition layer (st : State) (k : nat) : TensorName :=
  LayerName (k + currResultIdx (tosa_fb st)).

(** A step keeps a relation between the state before and after,
    whether it returns or raises. *)
Definition preserves (R : relation State) {A} (m : M A) : Prop :=
  forall st, R st (m st).2.

(** The operators of the later state are those of the earlier one
    followed by operators that all satisfy [P]. *)
Definition ops_extended (P : Operator -> Prop) : relation State :=
  fun st st' =>
    exists new, operators (tosa_fb st') = operators (tosa_fb st) ++ new
                /\ Forall P new.

(** Nothing was logged, created or written in between. *)
Definition quiet : relation State := fun st st' => trace st' = trace st.

Definition not_a_divide (o : Operator) : Prop := o_op o <> INTDIV.

(** Every declared intermediate has an index below the counter that
    names the next one. *)
Definition layers_below_counter (fb : TosaSerializer) : Prop :=
  forall t k, t ∈ tensors fb -> t_name t = LayerName k ->
              (k < currResultIdx fb)%nat.

(** A step keeps that. *)
Definition keeps_layers_below : relation State :=
  fun st st' =>
    layers_below_counter (tosa_fb st) -> layers_below_counter (tosa_fb st').

(** The three node kinds that the loop of [preprocess] handles. *)
Definition handled_kind (node : Node) : Prop :=
  node_op node = "call_function" \/ node_op node = "placeholder"
  \/ node_op node = "output".

(** The lines of the report for the entries of [node.meta]. *)
Definition meta_lines (meta : list (string * MetaValue)) : list Event :=
  flat_map (fun item : string * MetaValue =>
              Logged INFO (NodeMetaItem item.1 item.2)
              :: match item.2 with
                 | MetaList items =>
                     map (fun i => Logged INFO (NodeMetaListItem i)) items
                 | _ => []
                 end) meta.

(** The file system lets the dump be written under the path: the
    directory can be made and both files be opened. *)
Definition dump_allowed (files : FileSystem) (p : string) : Prop :=
  p <> ""
  /\ makedirs_error files p = None
  /\ open_error files (String.append p "output.tosa") = None
  /\ open_error files (String.append p "desc.json") = None.

(** What [dbg_fail] leaves in the trace for a node, with a debug path
    under which the dump can be written. *)
Definition dbg_fail_trace (verbose : bool) (p : string) (fb : TosaSerializer)
    (node : Node) : list Event :=
  (if verbose then [Logged INFO (EmittingDebugOutputTo (Some p))] else [])
  ++ [Makedirs p;
      FileWritten (String.append p "output.tosa") (Serialized fb);
      FileWritten (String.append p "desc.json") (DescJson fb);
      Logged WARNING (Text "Internal error due to poorly handled node:")]
  ++ (if verbose then
        [Logged INFO (Text "OP");
         Logged INFO (NodeOpIs (node_op node));
         Logged INFO (NodeNameIs (node_name node));
         Logged INFO (NodeTargetIs (node_target node));
         Logged INFO (NodeArgsIs (node_args node));
         Logged INFO NodeKwargsIs;
         Logged INFO (Text "  node.meta = ")]
        ++ meta_lines (node_meta node)
      else [])
  ++ [Logged WARNING (DebugOutputCapturedIn (Some p))].

(** *** Sample graphs *)

Definition empty_program : ExportedProgram :=
  {| graph_nodes := []; inputs_to_parameters := ∅; inputs_to_buffers := ∅;
     state_dict := ∅ |}.

Definition ref (nm : string) (dt : DType) (shp : list Z) : NodeRef :=
  {| ref_name := nm; ref_dtype := dt; ref_shape := shp |}.

Definition call (nm : string) (f : Callable) (args : list Argument)
    (dt : DType) (shp : list Z) : Node :=
  {| node_op := "call_function"; node_name := nm; node_target := TargetFn f;
     node_args := args; node_dtype := dt; node_shape := shp;
     node_meta := [("val", MetaTensor dt shp)] |}.

(** A 2x3 operand for [transpose_helper]. *)
Definition x_2x3 : TosaArg := TosaArg_of_ref (ref "x" FP32 [2; 3]).

(** permute_copy of an INT8 tensor declared to give FP32. *)
Definition permute_int8_to_fp32 : Node :=
  call "permute" aten_permute_copy_default
       [ArgNode (ref "x" INT8 [2; 3]); ArgList [1; 0]] FP32 [3; 2].

(** add of an INT8 and an FP32 tensor. *)
Definition add_int8_fp32 : Node :=
  call "add" aten_add_Tensor
       [ArgNode (ref "x" INT8 [2; 3]); ArgNode (ref "y" FP32 [2; 3])] FP32 [2; 3].

Definition softmax_last_axis : Node :=
  call "sm" aten__softmax_default
       [ArgNode (ref "x" FP32 [2; 3]); ArgInt (-1); ArgInt 0] FP32 [2; 3].

Definition addmm_2x3_3x4 : Node :=
  call "mm" aten_addmm_default
       [ArgNode (ref "bias" FP32 [4]); ArgNode (ref "x" FP32 [2; 3]);
        ArgNode (ref "w" FP32 [3; 4])] FP32 [2; 4].

Definition div_2x3 : Node :=
  call "q" aten_div_Tensor
       [ArgNode (ref "x" FP32 [2; 3]); ArgNode (ref "y" FP32 [2; 3])] FP32 [2; 3].

(** The float 0.2: 0x1.999999999999ap-3. *)
Definition float_0_2 : spec_float := S754_finite false 7205759403792794 (-55).
(** The float 1e-5: 0x1.4f8b588e368f1p-17. *)
Definition float_1e_5 : spec_float := S754_finite false 5902958103587057 (-69).

Definition batch_norm_args (momentum : spec_float) : list Argument :=
  [ArgNode (ref "x" FP32 [1; 8; 4; 4]); ArgNode (ref "weight" FP32 [8]);
   ArgNode (ref "bias" FP32 [8]); ArgNode (ref "mean" FP32 [8]);
   ArgNode (ref "var" FP32 [8]); ArgFloat momentum; ArgFloat float_1e_5].

Definition batch_norm (momentum : spec_float) : Node :=
  call "bn" aten__native_batch_norm_legit_no_training_default
       (batch_norm_args momentum) FP32 [1; 8; 4; 4].

(** One supported node per operator family without a 1:1 mapping, each
    over INT8 operands and declared to give FP32. *)
Definition float_6 : spec_float := S754_finite false 6755399441055744 (-50).

Definition int8_to_fp32_samples : list Node :=
  [call "mm" aten_addmm_default
        [ArgNode (ref "bias" INT8 [4]); ArgNode (ref "x" INT8 [2; 3]);
         ArgNode (ref "w" INT8 [3; 4])] FP32 [2; 4];
   permute_int8_to_fp32;
   call "relu6" aten_hardtanh_default
        [ArgNode (ref "x" INT8 [2; 3]); ArgFloat (S754_zero false);
         ArgFloat float_6] FP32 [2; 3];
   call "conv" aten_convolution_default
        [ArgNode (ref "x" INT8 [1; 3; 8; 8]); ArgNode (ref "w" INT8 [4; 3; 3; 3]);
         ArgNode (ref "b" INT8 [4]); ArgList [1; 1]; ArgList [0; 0];
         ArgList [1; 1]; ArgInt 0; ArgList [0; 0]; ArgInt 1] FP32 [1; 4; 6; 6];
   call "q" aten_div_Tensor
        [ArgNode (ref "x" INT8 [2; 3]); ArgNode (ref "y" INT8 [2; 3])] FP32 [2; 3];
   call "bn" aten__native_batch_norm_legit_no_training_default
        [ArgNode (ref "x" INT8 [1; 8; 4; 4]); ArgNode (ref "weight" INT8 [8]);
         ArgNode (ref "bias" INT8 [8]); ArgNode (ref "mean" INT8 [8]);
         ArgNode (ref "var" INT8 [8]); ArgFloat float_0_1; ArgFloat float_1e_5]
        FP32 [1; 8; 4; 4];
   call "pool" aten_avg_pool2d_default
        [ArgNode (ref "x" INT8 [1; 3; 8; 8]); ArgList [2; 2]; ArgList [2; 2]]
        FP32 [1; 3; 4; 4];
   call "sm" aten__softmax_default
        [ArgNode (ref "x" INT8 [2; 3]); ArgInt (-1); ArgInt 0] FP32 [2; 3];
   call "item" operator_getitem
        [ArgNode (ref "x" INT8 [2; 3]); ArgInt 0] FP32 [2; 3]].

(** A node of a kind the loop does not handle. *)
Definition get_attr_node : Node :=
  {| node_op := "get_attr"; node_name := "c"; node_target := TargetStr "c";
     node_args := []; node_dtype := FP32; node_shape := [1];
     node_meta := [("stack_trace", MetaOther "File model.py, line 12");
                   ("source_fn_stack", MetaList ["c"; "Linear"]);
                   ("val", MetaTensor FP32 [1])] |}.

(** A placeholder whose name and target differ. *)
Definition placeholder_renamed : Node :=
  {| node_op := "placeholder"; node_name := "arg0_1"; node_target := TargetStr "x";
     node_args := []; node_dtype := FP32; node_shape := [2; 3];
     node_meta := [("val", MetaTensor FP32 [2; 3])] |}.

(** ** Vocabulary of the further properties *)

(** The 16 little-endian bytes of a length. *)
Definition le16 (n : Z) : list byte :=
  map (fun i => byte_of_Z (n / 256 ^ Z.of_nat i)) (seq 0 16).

(** The block of one archive entry: name field, unpadded length, padded
    data. *)
Definition block_of (entry : string * ndarray) : list byte :=
  Packager.name_field entry.1
  ++ le16 (Z.of_nat (length (tobytes entry.2)))
  ++ Packager.pad_block_data (tobytes entry.2).

(** An archive whose scratch size, an unsigned 64-bit value, is above
    [sys.maxsize]. *)
Definition huge_scratch_archive : npz :=
  [("scratch_shape", {| itemsize := 8; items := [2 ^ 63] |})].

(** The archive of the example, with its scratch entry. *)
Definition example_archive : npz :=
  [("a", byte_array bytes_a); ("b", byte_array bytes_b);
   ("scratch_shape", {| itemsize := 8; items := [10] |})].

(** Sample nodes for the other rules. *)
Definition conv_3x8x8 (groups : Z) : Node :=
  call "conv" aten_convolution_default
       [ArgNode (ref "x" FP32 [1; 3; 8; 8]); ArgNode (ref "w" FP32 [4; 3; 3; 3]);
        ArgNode (ref "b" FP32 [4]); ArgList [1; 1]; ArgList [1; 2];
        ArgList [1; 1]; ArgInt 0; ArgList [0; 0]; ArgInt groups]
       FP32 [1; 4; 8; 10].

Definition conv1d_node : Node :=
  call "conv" aten_convolution_default
       [ArgNode (ref "x" FP32 [1; 3; 8]); ArgNode (ref "w" FP32 [4; 3; 3]);
        ArgNode (ref "b" FP32 [4]); ArgList [1]; ArgList [0];
        ArgList [1]; ArgInt 0; ArgList [0]; ArgInt 1]
       FP32 [1; 4; 6].

Definition avg_pool_2x2 (more : list Argument) : Node :=
  call "pool" aten_avg_pool2d_default
       ([ArgNode (ref "x" FP32 [1; 3; 8; 8]); ArgList [2; 2]; ArgList [2; 2]]
          ++ more)
       FP32 [1; 3; 4; 4].

(** The float 0.5 and its negation. *)
Definition float_half (negative : bool) : spec_float :=
  S754_finite negative 4503599627370496 (-53).

Definition hardtanh_half : Node :=
  call "clamp" aten_hardtanh_default
       [ArgNode (ref "x" FP32 [2; 3]); ArgFloat (float_half true);
        ArgFloat (float_half false)] FP32 [2; 3].

(** A hardtanh node without its bounds. *)
Definition hardtanh_unbounded : Node :=
  call "clamp" aten_hardtanh_default [ArgNode (ref "x" FP32 [2; 3])] FP32 [2; 3].

Definition getitem_node (index : Z) : Node :=
  call "item" operator_getitem
       [ArgNode (ref "bn" FP32 [1; 8; 4; 4]); ArgInt index] FP32 [1; 8; 4; 4].

Definition permute_node (perm : list Z) : Node :=
  call "permute" aten_permute_copy_default
       [ArgNode (ref "x" FP32 [2; 3]); ArgList perm] FP32 [3; 2].

(** The state after [addIntermediate shp dt] and [addOperator op ins
    [that intermediate] attr]. *)
Definition after_intermediate_op (st : State) (shp : option (list Z))
    (dt : option DType) (op : TosaOp) (ins : list TensorName)
    (attr : option Attr) : State :=
  {| tosa_fb :=
       {| pathPrefix := pathPrefix (tosa_fb st);
          tensors := tensors (tosa_fb st) ++ [mk_tensor (layer st 0) shp dt];
          operators := operators (tosa_fb st)
                       ++ [mk_op op ins [layer st 0] attr];
          fb_inputs := fb_inputs (tosa_fb st);
          fb_outputs := fb_outputs (tosa_fb st);
          currResultIdx := S (currResultIdx (tosa_fb st));
          currInputIdx := currInputIdx (tosa_fb st) |};
     TOSA_DBG_VERBOSE := TOSA_DBG_VERBOSE st;
     trace := trace st; fs := fs st |}.

(** [l[i]] for an index within [-len, len). *)
Definition py_get (l : list Z) (i : Z) : Z :=
  default 0 (l !! Z.to_nat (i mod Z.of_nat (length l))).

(** A tensor of that name has been declared in the module. *)
Definition declared (fb : TosaSerializer) (nm : TensorName) : Prop :=
  exists t, t ∈ tensors fb /\ t_name t = nm.

(** The state with more names on the list of outputs. *)
Definition with_outputs (st : State) (names : list TensorName) : State :=
  {| tosa_fb :=
       {| pathPrefix := pathPrefix (tosa_fb st);
          tensors := tensors (tosa_fb st);
          operators := operators (tosa_fb st);
          fb_inputs := fb_inputs (tosa_fb st);
          fb_outputs := fb_outputs (tosa_fb st) ++ names;
          currResultIdx := currResultIdx (tosa_fb st);
          currInputIdx := currInputIdx (tosa_fb st) |};
     TOSA_DBG_VERBOSE := TOSA_DBG_VERBOSE st;
     trace := trace st; fs := fs st |}.

(** The state with one more declared tensor, which may be an input. *)
Definition with_tensor (st : State) (t : Tensor) (is_input : bool) : State :=
  {| tosa_fb :=
       {| pathPrefix := pathPrefix (tosa_fb st);
          tensors := tensors (tosa_fb st) ++ [t];
          operators := operators (tosa_fb st);
          fb_inputs := fb_inputs (tosa_fb st)
                       ++ (if is_input then [t_name t] else []);
          fb_outputs := fb_outputs (tosa_fb st);
          currResultIdx := currResultIdx (tosa_fb st);
          currInputIdx := currInputIdx (tosa_fb st) |};
     TOSA_DBG_VERBOSE := TOSA_DBG_VERBOSE st;
     trace := trace st; fs := fs st |}.

(** The stored name that backs a placeholder: parameters first. *)
Definition stored_name (ep : ExportedProgram) (nm : string) : option string :=
  match inputs_to_parameters ep !! nm with
  | Some p => Some p
  | None => inputs_to_buffers ep !! nm
  end.

Definition output_node (outs : list NodeRef) : Node :=
  {| node_op := "output"; node_name := "output"; node_target := TargetStr "output";
     node_args := [ArgNodes outs]; node_dtype := FP32; node_shape := [];
     node_meta := [] |}.

Definition placeholder_node (nm : string) (args : list Argument) : Node :=
  {| node_op := "placeholder"; node_name := nm; node_target := TargetStr nm;
     node_args := args; node_dtype := FP32; node_shape := [4];
     node_meta := [("val", MetaTensor FP32 [4])] |}.

(** A program with a parameter "w" stored as "fc.weight", a buffer "m"
    stored as "bn.mean", a parameter "lost" without stored value and a
    parameter "odd" whose stored value is not a tensor. *)
Definition program_with_state : ExportedProgram :=
  {| graph_nodes := [];
     inputs_to_parameters :=
       {["w" := "fc.weight"; "lost" := "fc.lost"; "odd" := "fc.odd"]};
     inputs_to_buffers := {["m" := "bn.mean"; "w" := "shadowed"]};
     state_dict :=
       {["fc.weight" := TorchTensor [PyInt 1; PyInt 2; PyInt 3; PyInt 4];
         "bn.mean" := TorchTensor [PyInt 0; PyInt 0; PyInt 0; PyInt 0];
         "shadowed" := TorchTensor [];
         "fc.odd" := NotATensor]} |}.

(** Lines 725-727: the body of the loop over the outputs. *)
Definition mark_output (output : NodeRef) : M unit :=
  tens ← tensor_by_name (NodeName (ref_name output)); addOutputTensor tens.

(** A module in which only the tensor "y" is declared. *)
Definition state_declaring_y : State :=
  with_tensor (fresh_state None false)
    (mk_tensor (NodeName "y") (Some [2]) (Some FP32)) false.

(** The tensor declared for a placeholder that is an input of the
    program: its data comes from the file named after the node. *)
Definition input_tensor_of (node : Node) : Tensor :=
  {| t_name := NodeName (node_name node); t_shape := Some (node_shape node);
     t_dtype := Some (node_dtype node); t_data := None;
     t_placeholderFilename := Some (String.append (node_name node) ".npy") |}.

(** The tensor declared for a placeholder backed by stored values. *)
Definition const_tensor_of (node : Node) (vals : list PyNum) : Tensor :=
  {| t_name := NodeName (node_name node); t_shape := Some (node_shape node);
     t_dtype := Some (node_dtype node); t_data := Some (map Some vals);
     t_placeholderFilename := None |}.

(** Between two states the module and the trace have only grown: every
    list is extended at its end, the counters have not decreased, the
    path prefix, the logging level and the file system are the same. *)
Definition only_appends : relation State := fun st st' =>
  tensors (tosa_fb st) `prefix_of` tensors (tosa_fb st')
  /\ operators (tosa_fb st) `prefix_of` operators (tosa_fb st')
  /\ fb_inputs (tosa_fb st) `prefix_of` fb_inputs (tosa_fb st')
  /\ fb_outputs (tosa_fb st) `prefix_of` fb_outputs (tosa_fb st')
  /\ trace st `prefix_of` trace st'
  /\ (currResultIdx (tosa_fb st) <= currResultIdx (tosa_fb st'))%nat
  /\ (currInputIdx (tosa_fb st) <= currInputIdx (tosa_fb st'))%nat
  /\ pathPrefix (tosa_fb st') = pathPrefix (tosa_fb st)
  /\ TOSA_DBG_VERBOSE st' = TOSA_DBG_VERBOSE st
  /\ fs st' = fs st.

(** No two declared tensors carry the name of the same intermediate. *)
Definition layers_distinct (fb : TosaSerializer) : Prop :=
  forall i j t1 t2 k,
    tensors fb !! i = Some t1 -> tensors fb !! j = Some t2 ->
    t_name t1 = LayerName k -> t_name t2 = LayerName k -> i = j.

(** A step keeps the intermediates distinct and below the counter. *)
Definition keeps_layers_distinct : relation State := fun st st' =>
  layers_below_counter (tosa_fb st) /\ layers_distinct (tosa_fb st) ->
  layers_below_counter (tosa_fb st') /\ layers_distinct (tosa_fb st').

(** A step raises only exceptions of a given class. *)
Definition raises_in (P : PyError -> Prop) {A} (m : M A) : Prop :=
  forall st e, (m st).1 = Raise e -> P e.

Definition res_raises_in (P : PyError -> Prop) {A} (r : Res A) : Prop :=
  forall e, r = Raise e -> P e.

(** The exceptions of the lowering rules: of indexing, of unpacking, of
    number conversion, of a missing field, and the assertions. *)
Definition rule_error (e : PyError) : Prop :=
  match e with
  | IndexError | TypeError | ValueError | OverflowError | AssertionError _ => True
  | _ => False
  end.

(** A call_function node of a target outside the supported list. *)
Definition unsupported_call : Node :=
  call "relu" (other_callable "aten.relu.default") [ArgNode (ref "x" FP32 [4])]
       FP32 [4].

(** The state in which the loop of [preprocess] starts: a new
    serializer for the debug path, and the first log line when verbose. *)
Definition loop_start (files : FileSystem) (path : option string)
    (verbose : bool) : State :=
  {| tosa_fb := TosaSerializer_new path; TOSA_DBG_VERBOSE := verbose;
     trace := if verbose then [Logged INFO (Text "ArmBackend::preprocess")]
              else [];
     fs := files |}.

(** What [dbg_tosa_dump] leaves in the trace, with a debug path. *)
Definition dump_trace (verbose : bool) (p : string) (fb : TosaSerializer)
  : list Event :=
  (if verbose then [Logged INFO (EmittingDebugOutputTo (Some p))] else [])
  ++ [Makedirs p;
      FileWritten (String.append p "output.tosa") (Serialized fb);
      FileWritten (String.append p "desc.json") (DescJson fb)].

Definition with_trace (st : State) (events : list Event) : State :=
  {| tosa_fb := tosa_fb st; TOSA_DBG_VERBOSE := TOSA_DBG_VERBOSE st;
     trace := trace st ++ events; fs := fs st |}.

Definition is_info_log (e : Event) : Prop :=
  match e with Logged INFO _ => True | _ => False end.

Definition debug_entry (v : list byte) : CompileSpec :=
  {| key := "debug_tosa_path"; value := v |}.

(** An entry whose value, if it is read as a debug path, decodes. *)
Definition decodable (s : CompileSpec) : Prop :=
  key s = "debug_tosa_path" -> well_formed_utf8 (value s) = true.

(** A file system without write access: no directory can be made. *)
Definition read_only_fs : FileSystem :=
  {| makedirs_error := fun _ => Some (OSError "PermissionError");
     open_error := fun _ => Some (OSError "PermissionError") |}.

(** A compiler stub that leaves an archive with no weights and 10 bytes
    of scratch, and one that fails. *)
Definition vela_stub (fb : TosaSerializer) : Res npz :=
  Ok [("scratch_shape", {| itemsize := 8; items := [10] |})].

Definition vela_failing (fb : TosaSerializer) : Res npz := Raise CalledProcessError.

(** A graph of a placeholder, a div and the output. *)
Definition div_program : ExportedProgram :=
  {| graph_nodes :=
       [placeholder_node "x" [];
        call "q" aten_div_Tensor
             [ArgNode (ref "x" FP32 [4]); ArgNode (ref "x" FP32 [4])] FP32 [4];
        output_node [ref "q" FP32 [4]]];
     inputs_to_parameters := ∅; inputs_to_buffers := ∅; state_dict := ∅ |}.

(** The same graph with a get_attr node before the output. *)
Definition program_with_get_attr : ExportedProgram :=
  {| graph_nodes :=
       [placeholder_node "x" []; get_attr_node; output_node [ref "x" FP32 [4]]];
     inputs_to_parameters := ∅; inputs_to_buffers := ∅; state_dict := ∅ |}.

(** The module that the loop builds for [div_program], with the debug
    path "dbg/" and verbose logging. *)
Definition div_program_lowered : State :=
  (for_each (graph_nodes div_program) (lower_node div_program (Some "dbg/"))
     (loop_start writable_fs (Some "dbg/") true)).2.

(** Only INFO lines in the trace, and none unless logging is verbose. *)
Definition info_logs_only (st : State) : Prop :=
  Forall is_info_log (trace st) /\ (TOSA_DBG_VERBOSE st = false -> trace st = []).

(** A softmax over a 2x3 input along a given axis operand. *)
Definition softmax_along (dim : Argument) : Node :=
  call "sm" aten__softmax_default
       [ArgNode (ref "x" FP32 [2; 3]); dim; ArgInt 0] FP32 [2; 3].

(** ** [ArmPartitioner]

    The partitions come from [CapabilityBasedPartitioner], which is
    outside the module: [partition] is given the list it proposes, each
    partition with its id and the names of its nodes in the order of
    iteration.  The metadata entry "delegation_tag" of the nodes is a
    map from the node's name. *)

Record DelegationSpec : Type := {
  backend_id : string;
  delegation_compile_specs : list CompileSpec }.

(** Lines 97-98: [DelegationSpec(ArmBackend.__name__, self.compile_spec)]. *)
Definition ArmPartitioner_delegation_spec (compile_spec : list CompileSpec)
  : DelegationSpec :=
  {| backend_id := "ArmBackend"; delegation_compile_specs := compile_spec |}.

Record Partition : Type := {
  partition_id : Z;
  partition_nodes : list string }.

Record PartitionResult : Type := {
  delegation_tag : gmap string string;
  partition_tags : gmap string DelegationSpec }.

(** [f"tag{partition.id}"] *)
Definition tag_of (p : Partition) : string :=
  String.append "tag" (pretty (partition_id p)).

(** Lines 113-115: the body of the inner loop. *)
Definition tag_node (delegation_spec : DelegationSpec) (tag : string)
    (acc : PartitionResult) (node : string) : PartitionResult :=
  {| delegation_tag := <[node := tag]> (delegation_tag acc);
     partition_tags := <[tag := delegation_spec]> (partition_tags acc) |}.

Definition tag_partition (delegation_spec : DelegationSpec)
    (acc : PartitionResult) (p : Partition) : PartitionResult :=
  fold_left (tag_node delegation_spec (tag_of p)) (partition_nodes p) acc.

(** Lines 100-122, from the proposed partitions on; the log line is
    emitted at level INFO. *)
Definition partition (delegation_spec : DelegationSpec) (verbose : bool)
    (meta : gmap string string) (partition_list : list Partition)
  : list Event * PartitionResult :=
  ((if verbose then [Logged INFO (Text "ArmPartitioner::partition")] else []),
   fold_left (tag_partition delegation_spec) partition_list
     {| delegation_tag := meta; partition_tags := ∅ |}).

(** Two partitions that share the node "add". *)
Definition sample_partitions : list Partition :=
  [{| partition_id := 0; partition_nodes := ["add"; "div"] |};
   {| partition_id := 1; partition_nodes := [] |};
   {| partition_id := 12; partition_nodes := ["softmax"; "add"] |}].

(** * Properties *)

(** ** The artifact packager *)

Section PackagerFacts.

Import Packager.

Lemma byte_of_Z_to_N (b : byte) : byte_of_Z (Z.of_N (Byte.to_N b)) = b.
Proof. destruct b; reflexivity. Qed.

Lemma tobytes_byte_array (bs : list byte) : tobytes (byte_array bs) = bs.
Proof.
  unfold tobytes, byte_array; simpl.
  induction bs as [|b bs IH]; simpl; [reflexivity|].
  rewrite Z.div_1_r, byte_of_Z_to_N. f_equal. exact IH.
Qed.

Lemma length_zero_bytes (k : Z) : length (zero_bytes k) = Z.to_nat k.
Proof. unfold zero_bytes. apply repeat_length. Qed.

(** Line 176 always appends between 1 and 16 zero bytes: the data field
    ends at the next multiple of 16 strictly above the unpadded length. *)
Lemma pad_block_data_length (block_data : list byte) :
  Z.of_nat (length (pad_block_data block_data))
  = 16 * (Z.of_nat (length block_data) / 16) + 16.
Proof.
  unfold pad_block_data. rewrite length_app, length_zero_bytes.
  set (n := Z.of_nat (length block_data)).
  pose proof (Z.mod_pos_bound n 16 ltac:(lia)) as Hm.
  pose proof (Z.div_mod n 16 ltac:(lia)) as Hd.
  rewrite Nat2Z.inj_add, Z2Nat.id by lia. fold n. lia.
Qed.

(** Code and document agree exactly when the unpadded length is not a
    multiple of 16. *)
Lemma pad_block_data_length_unaligned (block_data : list byte) :
  Z.of_nat (length block_data) mod 16 <> 0 ->
  Z.of_nat (length (pad_block_data block_data))
  = spec_data_field_length (Z.of_nat (length block_data)).
Proof.
  intros Hne. rewrite pad_block_data_length. unfold spec_data_field_length.
  set (n := Z.of_nat (length block_data)) in *.
  pose proof (Z.mod_pos_bound n 16 ltac:(lia)) as Hm.
  pose proof (Z.div_mod n 16 ltac:(lia)) as Hd.
  assert (Hq : (n + 15) / 16 = n / 16 + 1).
  { symmetry. apply (Z.div_unique (n + 15) 16 (n / 16 + 1) (n mod 16 - 1)); lia. }
  rewrite Hq. lia.
Qed.

Lemma pad_block_data_length_aligned (block_data : list byte) :
  Z.of_nat (length block_data) mod 16 = 0 ->
  Z.of_nat (length (pad_block_data block_data))
  = spec_data_field_length (Z.of_nat (length block_data)) + 16.
Proof.
  intros He. rewrite pad_block_data_length. unfold spec_data_field_length.
  set (n := Z.of_nat (length block_data)) in *.
  pose proof (Z.div_mod n 16 ltac:(lia)) as Hd.
  assert (Hq : (n + 15) / 16 = n / 16).
  { symmetry. apply (Z.div_unique (n + 15) 16 (n / 16) 15); lia. }
  rewrite Hq. lia.
Qed.

(** Line 187, the sibling computation for the scratch block, rounds up
    exactly. *)
Lemma round_scratch_ceil (n : Z) : round_scratch n = spec_data_field_length n.
Proof.
  unfold round_scratch, spec_data_field_length.
  pose proof (Z.mod_pos_bound (n - 1) 16 ltac:(lia)) as Hm.
  pose proof (Z.div_mod (n - 1) 16 ltac:(lia)) as Hd.
  assert (Hq : (n + 15) / 16 = (n - 1) / 16 + 1).
  { symmetry.
    apply (Z.div_unique (n + 15) 16 ((n - 1) / 16 + 1) ((n - 1) mod 16)); lia. }
  rewrite Hq. lia.
Qed.

(** C1, evaluated at the failing input.  The data field of an archive
    block is 16 * (length / 16) + 16 bytes long, whatever the data; for
    a block of 16 bytes the packager writes the 16 bytes and 16 more
    zero bytes, 32 in all, where ceil(16/16)*16 is 16. *)
Theorem aligned_block_gets_sixteen_zero_bytes :
  (forall block_data : list byte,
      Z.of_nat (length (pad_block_data block_data))
      = 16 * (Z.of_nat (length block_data) / 16) + 16)
  /\ npz_block [("w", byte_array (repeat x01 16))] "w"
     = Ok ((utf8 "w" ++ zero_bytes 15) ++ ([x10] ++ zero_bytes 15)
           ++ (repeat x01 16 ++ zero_bytes 16))
  /\ Z.of_nat (length (pad_block_data (repeat x01 16))) = 32
  /\ spec_data_field_length 16 = 16.
Proof.
  split; [exact pad_block_data_length|].
  split; [vm_compute; reflexivity|].
  split; reflexivity.
Qed.

(** C4, counterexample.  Without a "scratch_shape" entry the packager
    raises KeyError; with it, that entry is packaged as a block of its
    own, so the artifact is not the five-part sequence of the claim. *)
Lemma package_a_b_not_as_stated :
  package [("a", byte_array bytes_a); ("b", byte_array bytes_b)] = Raise KeyError
  /\ package [("a", byte_array bytes_a); ("b", byte_array bytes_b);
              ("scratch_shape", {| itemsize := 8; items := [10] |})]
     <> Ok (expected_a_b_scratch bytes_a bytes_b).
Proof.
  split; [vm_compute; reflexivity|].
  vm_compute. intros H. discriminate H.
Qed.

(** C4, amended.  For an archive with "a" (3 bytes), "b" (20 bytes) and
    "scratch_shape" holding the single integer 10, the artifact is: the
    header; the block of "a" with length field 3 and 16 bytes of data;
    the block of "b" with length field 20 and 32 bytes of data; the
    block of "scratch_shape" itself, its length field the width of the
    integer and 16 bytes of data; the "scratch_data" block with length
    field 16 and 16 zero bytes; the footer.  The bytes are a function
    of the archive contents alone. *)
Theorem package_a_b_scratch (a b : list byte) (shp : ndarray) :
  length a = 3%nat -> length b = 20%nat ->
  items shp = [10] -> (1 <= itemsize shp <= 8)%nat ->
  package [("a", byte_array a); ("b", byte_array b); ("scratch_shape", shp)]
  = Ok (packaged_a_b_scratch a b (itemsize shp)).
Proof.
  intros Ha Hb Hitems Hw.
  pose proof (tobytes_byte_array a) as HA.
  pose proof (tobytes_byte_array b) as HB.
  set (A := byte_array a) in *. set (B := byte_array b) in *.
  clearbody A B.
  destruct shp as [w its]; simpl in Hitems, Hw |- *; subst its.
  do 3 (destruct a as [|? a]; [discriminate Ha|]).
  destruct a; [clear Ha|discriminate Ha].
  do 20 (destruct b as [|? b]; [discriminate Hb|]).
  destruct b; [clear Hb|discriminate Hb].
  assert (Hcases : (w = 1 \/ w = 2 \/ w = 3 \/ w = 4 \/ w = 5 \/ w = 6
                    \/ w = 7 \/ w = 8)%nat) by lia.
  unfold package, npz_keys, npz_blocks, npz_block;
    cbn [map fst npz_get String.eqb Ascii.eqb Bool.eqb].
  cbn [mbind Res_bind]. rewrite HA, HB.
  repeat destruct Hcases as [-> | Hcases]; try subst w; vm_compute; reflexivity.
Qed.

Lemma package_a_b_scratch_witness :
  package [("a", byte_array bytes_a); ("b", byte_array bytes_b);
           ("scratch_shape", {| itemsize := 8; items := [10] |})]
  = Ok (packaged_a_b_scratch bytes_a bytes_b 8).
Proof.
  apply (package_a_b_scratch bytes_a bytes_b {| itemsize := 8; items := [10] |});
    [reflexivity | reflexivity | reflexivity | simpl; lia].
Defined.

End PackagerFacts.

(** ** Running the state monad *)

(** Unfolds the monad, the serializer calls and the projections of the
    state, leaving the Python helpers folded. *)
Ltac run_m :=
  cbv [mbind M_bind mret M_ret lift raise assert_ get_fb
       modify_fb emit logger_info logger_warn addTensor addIntermediate
       addOperator addConst addInputTensor addOutputTensor tensor_by_name
       promote_shape as_tuple from_option shape_of name_of
       TosaArg_TensorLike Tensor_TensorLike
       tosa_fb TOSA_DBG_VERBOSE trace fs pathPrefix tensors operators fb_inputs
       fb_outputs currResultIdx currInputIdx t_name t_shape t_dtype fst snd].

(** The same for the computations that only raise. *)
Ltac run_res := cbv [Res_bind Res_ret].

(** Names the components of a symbolic state. *)
Ltac open_state st :=
  let pp := fresh "pp" in let ts := fresh "ts" in let ops := fresh "ops" in
  let ins := fresh "ins" in let outs := fresh "outs" in
  let ri := fresh "ri" in let ci := fresh "ci" in
  let v := fresh "v" in let tr := fresh "tr" in let fsys := fresh "fsys" in
  destruct st as [[pp ts ops ins outs ri ci] v tr fsys].

Lemma py_setitem_in_range {A} (l : list A) (i : Z) (x : A) :
  - Z.of_nat (length l) <= i < Z.of_nat (length l) ->
  py_setitem l i x = Ok (<[Z.to_nat (i mod Z.of_nat (length l)) := x]> l).
Proof.
  intros Hr. unfold py_setitem.
  destruct (Z.leb_spec 0 i); destruct (Z.ltb_spec i (Z.of_nat (length l)));
    cbn [andb]; try lia.
  - rewrite Z.mod_small by lia. reflexivity.
  - destruct (Z.leb_spec (- Z.of_nat (length l)) i); destruct (Z.ltb_spec i 0);
      cbn [andb]; try lia.
    f_equal. f_equal. f_equal.
    apply (Z.mod_unique_pos i _ (-1)); lia.
Qed.

Lemma py_index_out_of_range {A} (l : list A) (i : Z) :
  i < - Z.of_nat (length l) \/ Z.of_nat (length l) <= i ->
  py_index l i = Raise IndexError.
Proof.
  intros Hr. unfold py_index.
  destruct (Z.leb_spec 0 i); destruct (Z.ltb_spec i (Z.of_nat (length l)));
    cbn [andb]; try lia; try reflexivity;
    destruct (Z.leb_spec (- Z.of_nat (length l)) i); destruct (Z.ltb_spec i 0);
    cbn [andb]; try lia; reflexivity.
Qed.

Lemma fold_mul_promoted (s : list Z) :
  fold_right Z.mul 1 (s ++ [1; 1]) = fold_right Z.mul 1 s.
Proof.
  induction s as [|d s IH]; cbn [fold_right app]; [reflexivity|].
  change ((d :: s) ++ [1; 1]) with (d :: (s ++ [1; 1])).
  cbn [fold_right]. rewrite IH. reflexivity.
Qed.

(** Prepending and appending singleton dimensions keeps the element
    count. *)
Lemma np_prod_cons_1 (s : list Z) : np_prod (1 :: s) = np_prod s.
Proof. unfold np_prod. cbn [fold_right]. rewrite Z.mul_1_l. reflexivity. Qed.

Lemma np_prod_broadcast (s : list Z) : np_prod (1 :: s ++ [1; 1]) = np_prod s.
Proof. rewrite np_prod_cons_1. unfold np_prod. rewrite fold_mul_promoted. reflexivity. Qed.

(** ** Relations kept by every step of the lowering *)

#[global] Instance quiet_preorder : PreOrder quiet.
Proof.
  split; [intros st; reflexivity|].
  intros a b c Hab Hbc. unfold quiet in *. congruence.
Qed.

#[global] Instance ops_extended_preorder (P : Operator -> Prop) :
  PreOrder (ops_extended P).
Proof.
  split.
  - intros st. exists []. split; [symmetry; apply app_nil_r | constructor].
  - intros a b c [n1 [E1 F1]] [n2 [E2 F2]]. exists (n1 ++ n2). split.
    + rewrite E2, E1, app_assoc. reflexivity.
    + apply Forall_app; split; assumption.
Qed.

Section Preserves.

Context (R : relation State) `{!PreOrder R}.

Lemma preserves_ret {A} (a : A) : preserves R (mret a).
Proof. intros st. reflexivity. Qed.

Lemma preserves_raise {A} (e : PyError) : preserves R (@raise A e).
Proof. intros st. reflexivity. Qed.

Lemma preserves_lift {A} (r : Res A) : preserves R (lift r).
Proof. intros st. reflexivity. Qed.

Lemma preserves_get_fb : preserves R get_fb.
Proof. intros st. reflexivity. Qed.

Lemma preserves_assert (c : bool) (msg : string) : preserves R (assert_ c msg).
Proof. destruct c; [apply preserves_ret | apply preserves_raise]. Qed.

Lemma preserves_bind {A B} (m : M A) (k : A -> M B) :
  preserves R m -> (forall a, preserves R (k a)) -> preserves R (m ≫= k).
Proof.
  intros Hm Hk st. specialize (Hm st). unfold mbind, M_bind.
  destruct (m st) as [[a|e] st1]; cbn [snd] in *.
  - etransitivity; [exact Hm | apply Hk].
  - exact Hm.
Qed.

Lemma preserves_for_each {A} (l : list A) (body : A -> M unit) :
  (forall x, preserves R (body x)) -> preserves R (for_each l body).
Proof.
  intros Hb. induction l as [|x l IH]; cbn [for_each].
  - apply preserves_ret.
  - apply preserves_bind; [apply Hb | intros _; exact IH].
Qed.

(** What is asked of the relation: it holds across each call of the
    serializer, where a tensor declared under a given name is not
    given the name of an intermediate, and an appended operator is not
    INTDIV. *)
Hypothesis R_addTensor : forall nm shp dt,
  (forall k, nm <> LayerName k) -> preserves R (addTensor nm shp dt).
Hypothesis R_addIntermediate : forall shp dt,
  preserves R (addIntermediate shp dt).
Hypothesis R_addConst : forall shp dt vals nm,
  (forall k, nm <> Some (LayerName k)) -> preserves R (addConst shp dt vals nm).
Hypothesis R_addInputTensor : forall tens,
  (forall k, t_name tens <> LayerName k) -> preserves R (addInputTensor tens).
Hypothesis R_addOutputTensor : forall tens,
  preserves R (addOutputTensor tens).
Hypothesis R_addOperator : forall op ins outs attr,
  op <> INTDIV -> preserves R (addOperator op ins outs attr).

Ltac pres_prim :=
  lazymatch goal with
  | |- preserves _ (mret _) => apply preserves_ret
  | |- preserves _ (raise _) => apply preserves_raise
  | |- preserves _ (lift _) => apply preserves_lift
  | |- preserves _ get_fb => apply preserves_get_fb
  | |- preserves _ (assert_ _ _) => apply preserves_assert
  | |- preserves _ (addOperator _ _ _ _) =>
      apply R_addOperator; first [discriminate | assumption]
  | |- preserves _ (addTensor _ _ _) =>
      apply R_addTensor; intros ?; cbn; discriminate
  | |- preserves _ (addIntermediate _ _) => apply R_addIntermediate
  | |- preserves _ (addConst _ _ _ _) =>
      apply R_addConst; intros ?; discriminate
  | |- preserves _ (addInputTensor _) =>
      apply R_addInputTensor; intros ?; cbn; discriminate
  | |- preserves _ (addOutputTensor _) => apply R_addOutputTensor
  | |- preserves _ (mbind _ _) => apply preserves_bind; [|intros ?]
  | |- preserves _ (for_each _ _) => apply preserves_for_each; intros ?
  | |- preserves _ (match ?x with _ => _ end) => destruct x
  | |- preserves _ (let _ := _ in _) => cbv zeta
  | |- preserves _ ((fun _ => _) _) => cbv beta
  end.

Ltac pres := repeat pres_prim.

Lemma preserves_tensor_by_name nm : preserves R (tensor_by_name nm).
Proof. unfold tensor_by_name. pres. Qed.

Lemma preserves_promote_shape {A} `{TensorLike A} (arg : A) p dt :
  preserves R (promote_shape arg p dt).
Proof. unfold promote_shape. pres. Qed.

Lemma preserves_check_dims s order : preserves R (check_dims s order).
Proof. unfold check_dims. pres. Qed.

Lemma preserves_transpose_helper input order dt :
  preserves R (transpose_helper input order dt).
Proof. unfold transpose_helper. pres. apply preserves_check_dims. Qed.

Ltac pres_call :=
  lazymatch goal with
  | |- preserves _ (tensor_by_name _) => apply preserves_tensor_by_name
  | |- preserves _ (promote_shape _ _ _) => apply preserves_promote_shape
  | |- preserves _ (check_dims _ _) => apply preserves_check_dims
  | |- preserves _ (transpose_helper _ _ _) => apply preserves_transpose_helper
  | |- _ => pres_prim
  end.

Ltac pres_lower := repeat pres_call.

Lemma preserves_lower_mapped op attr inputs outp :
  op <> INTDIV -> preserves R (lower_mapped op attr inputs outp).
Proof.
  intros Hop. unfold lower_mapped. pres_lower.
Qed.

Lemma preserves_lower_addmm node inputs outp :
  preserves R (lower_addmm node inputs outp).
Proof. unfold lower_addmm. pres_lower. Qed.

Lemma preserves_lower_permute_copy inputs outp :
  preserves R (lower_permute_copy inputs outp).
Proof. unfold lower_permute_copy. pres_lower. Qed.

Lemma preserves_lower_hardtanh inputs outp :
  preserves R (lower_hardtanh inputs outp).
Proof. unfold lower_hardtanh. pres_lower. Qed.

Lemma preserves_lower_convolution inputs outp :
  preserves R (lower_convolution inputs outp).
Proof. unfold lower_convolution. pres_lower. Qed.

Lemma preserves_lower_div inputs outp : preserves R (lower_div inputs outp).
Proof. unfold lower_div. pres_lower. Qed.

Lemma preserves_lower_batch_norm node inputs outp :
  preserves R (lower_batch_norm node inputs outp).
Proof. unfold lower_batch_norm. pres_lower. Qed.

Lemma preserves_lower_avg_pool2d inputs outp :
  preserves R (lower_avg_pool2d inputs outp).
Proof. unfold lower_avg_pool2d. pres_lower. Qed.

Lemma preserves_lower_softmax inputs outp :
  preserves R (lower_softmax inputs outp).
Proof. unfold lower_softmax. pres_lower. Qed.

Lemma preserves_lower_getitem inputs outp :
  preserves R (lower_getitem inputs outp).
Proof. unfold lower_getitem. pres_lower. Qed.

Lemma tosa_mapping_op_is_add target op :
  tosa_mapping_op target = Some op -> op = ADD.
Proof.
  destruct target as [s|f]; [discriminate|].
  destruct f; cbn; intros E; try discriminate E. congruence.
Qed.

Lemma preserves_lower_call_function node :
  preserves R (lower_call_function node).
Proof.
  unfold lower_call_function.
  apply preserves_bind; [apply preserves_lift | intros inputs].
  apply preserves_bind;
    [apply R_addTensor; intros k; cbn; discriminate | intros _].
  cbv zeta.
  destruct (tosa_mapping_op (node_target node)) as [op|] eqn:E.
  - apply preserves_lower_mapped.
    rewrite (tosa_mapping_op_is_add _ _ E). discriminate.
  - destruct (node_target node) as [s|f]; [apply preserves_raise|].
    destruct f;
      first [ apply preserves_raise | apply preserves_lower_addmm
            | apply preserves_lower_permute_copy | apply preserves_lower_hardtanh
            | apply preserves_lower_convolution | apply preserves_lower_div
            | apply preserves_lower_batch_norm | apply preserves_lower_avg_pool2d
            | apply preserves_lower_softmax | apply preserves_lower_getitem
            | discriminate E ].
Qed.

Lemma preserves_lower_placeholder ep node :
  preserves R (lower_placeholder ep node).
Proof.
  unfold lower_placeholder, add_stored_const. pres_lower.
Qed.

Lemma preserves_lower_output node : preserves R (lower_output node).
Proof. unfold lower_output. pres_lower. Qed.

(** With the trace included: the diagnostic path and the whole loop. *)
Hypothesis R_emit : forall e, preserves R (emit e).

Lemma preserves_logger_info msg : preserves R (logger_info msg).
Proof.
  intros st. unfold logger_info.
  destruct (TOSA_DBG_VERBOSE st); [apply R_emit | reflexivity].
Qed.

Lemma preserves_logger_warn msg : preserves R (logger_warn msg).
Proof. apply R_emit. Qed.

Ltac pres_dbg_step :=
  lazymatch goal with
  | |- preserves _ (logger_info _) => apply preserves_logger_info
  | |- preserves _ (logger_warn _) => apply preserves_logger_warn
  | |- preserves _ (emit _) => apply R_emit
  | |- _ => pres_prim
  end.

Ltac pres_dbg := repeat pres_dbg_step.

Lemma preserves_dbg_meta_item item : preserves R (dbg_meta_item item).
Proof. unfold dbg_meta_item. pres_dbg. Qed.

Lemma preserves_dbg_node node : preserves R (dbg_node node).
Proof. unfold dbg_node. pres_dbg. apply preserves_dbg_meta_item. Qed.

Lemma preserves_os_makedirs p : preserves R (os_makedirs p).
Proof.
  intros st. unfold os_makedirs.
  destruct (String.eqb p ""); [reflexivity|].
  destruct (makedirs_error (fs st) p); [reflexivity | apply R_emit].
Qed.

Lemma preserves_write_file p content : preserves R (write_file p content).
Proof.
  intros st. unfold write_file.
  destruct (open_error (fs st) p); [reflexivity | apply R_emit].
Qed.

Lemma preserves_dbg_tosa_dump path : preserves R (dbg_tosa_dump path).
Proof.
  unfold dbg_tosa_dump.
  repeat lazymatch goal with
  | |- preserves _ (os_makedirs _) => apply preserves_os_makedirs
  | |- preserves _ (write_file _ _) => apply preserves_write_file
  | |- _ => pres_dbg_step
  end.
Qed.

Lemma preserves_dbg_fail {A} node path : preserves R (@dbg_fail A node path).
Proof.
  unfold dbg_fail. pres_dbg;
    first [apply preserves_dbg_tosa_dump | apply preserves_dbg_node].
Qed.

Lemma preserves_lower_node ep path node : preserves R (lower_node ep path node).
Proof.
  unfold lower_node.
  destruct (String.eqb (node_op node) "call_function");
    [apply preserves_lower_call_function|].
  destruct (String.eqb (node_op node) "placeholder");
    [apply preserves_lower_placeholder|].
  destruct (String.eqb (node_op node) "output");
    [apply preserves_lower_output | apply preserves_dbg_fail].
Qed.

Lemma preserves_node_loop ep path nodes :
  preserves R (for_each nodes (lower_node ep path)).
Proof. apply preserves_for_each. intros node. apply preserves_lower_node. Qed.

End Preserves.

(** *** The instances *)

Lemma quiet_fb_step {A} (m : M A) :
  (forall st, trace (m st).2 = trace st) -> preserves quiet m.
Proof. intros H st. exact (H st). Qed.

Lemma ops_extended_same_operators (P : Operator -> Prop) {A} (m : M A) :
  (forall st, operators (tosa_fb (m st).2) = operators (tosa_fb st)) ->
  preserves (ops_extended P) m.
Proof.
  intros H st. exists []. split; [|constructor].
  rewrite H, app_nil_r. reflexivity.
Qed.

Lemma ops_extended_addOperator (P : Operator -> Prop) op ins outs attr :
  P (mk_op op ins outs attr) ->
  preserves (ops_extended P) (addOperator op ins outs attr).
Proof.
  intros HP st. exists [mk_op op ins outs attr]. cbn. split; [reflexivity|].
  constructor; [exact HP | constructor].
Qed.

Lemma layers_below_extend (fb fb' : TosaSerializer) (new : list Tensor) :
  tensors fb' = tensors fb ++ new ->
  (currResultIdx fb <= currResultIdx fb')%nat ->
  Forall (fun t => forall k, t_name t = LayerName k ->
                             (k < currResultIdx fb')%nat) new ->
  layers_below_counter fb -> layers_below_counter fb'.
Proof.
  intros Et Hle Hnew Hinv t k Hin Hname. rewrite Et in Hin.
  apply elem_of_app in Hin. destruct Hin as [Hin | Hin].
  - specialize (Hinv t k Hin Hname). lia.
  - rewrite Forall_forall in Hnew. exact (Hnew t Hin k Hname).
Qed.

Lemma keeps_layers_addTensor nm shp dt :
  (forall k, nm <> LayerName k) ->
  preserves keeps_layers_below (addTensor nm shp dt).
Proof.
  intros Hnm st. unfold keeps_layers_below.
  refine (layers_below_extend _ _ [mk_tensor nm shp dt] _ _ _);
    [reflexivity | reflexivity |].
  constructor; [|constructor]. intros k E. cbn in E. destruct (Hnm k E).
Qed.

Lemma keeps_layers_addIntermediate shp dt :
  preserves keeps_layers_below (addIntermediate shp dt).
Proof.
  intros st. open_state st. unfold keeps_layers_below.
  refine (layers_below_extend _ _ [mk_tensor (LayerName ri) shp dt] _ _ _);
    [reflexivity | run_m; lia |].
  constructor; [|constructor]. intros k E. cbn in E.
  injection E as <-. run_m. lia.
Qed.

Lemma keeps_layers_addConst shp dt vals nm :
  (forall k, nm <> Some (LayerName k)) ->
  preserves keeps_layers_below (addConst shp dt vals nm).
Proof.
  intros Hnm st. unfold keeps_layers_below.
  refine (layers_below_extend _ _ [_] _ _ _); [reflexivity | reflexivity |].
  constructor; [|constructor]. intros k E. cbn in E.
  destruct nm as [n|]; [subst n; destruct (Hnm k eq_refl) | discriminate E].
Qed.

Lemma keeps_layers_addInputTensor tens :
  (forall k, t_name tens <> LayerName k) ->
  preserves keeps_layers_below (addInputTensor tens).
Proof.
  intros Hnm st. unfold keeps_layers_below.
  refine (layers_below_extend _ _ [tens] _ _ _);
    [reflexivity | reflexivity |].
  constructor; [|constructor]. intros k E. destruct (Hnm k E).
Qed.

Lemma keeps_layers_same_tensors {A} (m : M A) :
  (forall st, tensors (tosa_fb (m st).2) = tensors (tosa_fb st)
              /\ currResultIdx (tosa_fb (m st).2) = currResultIdx (tosa_fb st)) ->
  preserves keeps_layers_below m.
Proof.
  intros H st. destruct (H st) as [Et Ec]. unfold keeps_layers_below.
  refine (layers_below_extend _ _ [] _ _ _);
    [rewrite Et, app_nil_r; reflexivity | rewrite Ec; reflexivity | constructor].
Qed.

#[global] Instance keeps_layers_below_preorder : PreOrder keeps_layers_below.
Proof.
  split; [intros st H; exact H|].
  intros a b c Hab Hbc H. exact (Hbc (Hab H)).
Qed.

(** A call_function, placeholder or output node is processed without
    a log line, a directory or a file, whether it succeeds or raises. *)
Lemma handled_node_is_quiet ep path node st :
  handled_kind node -> trace (lower_node ep path node st).2 = trace st.
Proof.
  intros Hk.
  assert (Hq : forall m : M unit,
             preserves quiet m -> trace (m st).2 = trace st)
    by (intros m Hm; exact (Hm st)).
  unfold lower_node. destruct Hk as [E | [E | E]]; rewrite E; apply Hq.
  - apply (preserves_lower_call_function quiet);
      intros; apply quiet_fb_step; reflexivity.
  - apply (preserves_lower_placeholder quiet);
      intros; apply quiet_fb_step; reflexivity.
  - apply (preserves_lower_output quiet);
      intros; apply quiet_fb_step; reflexivity.
Qed.

(** No step of the loop appends an INTDIV operator. *)
Lemma lower_node_no_divide ep path node :
  preserves (ops_extended not_a_divide) (lower_node ep path node).
Proof.
  apply (preserves_lower_node (ops_extended not_a_divide));
    try (intros; apply ops_extended_same_operators; reflexivity).
  intros op ins outs attr Hop. apply ops_extended_addOperator. exact Hop.
Qed.

Lemma ops_extended_emit P e : preserves (ops_extended P) (emit e).
Proof. apply ops_extended_same_operators. reflexivity. Qed.

(** Every intermediate of the module is named below the counter of the
    serializer, at every step of the loop. *)
Lemma lower_node_keeps_layers_below ep path node :
  preserves keeps_layers_below (lower_node ep path node).
Proof.
  apply (preserves_lower_node keeps_layers_below).
  - apply keeps_layers_addTensor.
  - apply keeps_layers_addIntermediate.
  - apply keeps_layers_addConst.
  - apply keeps_layers_addInputTensor.
  - intros tens. apply keeps_layers_same_tensors. intros st. split; reflexivity.
  - intros op ins outs attr _. apply keeps_layers_same_tensors.
    intros st. split; reflexivity.
  - intros e. apply keeps_layers_same_tensors. intros st. split; reflexivity.
Qed.

Lemma fresh_module_layers_below path :
  layers_below_counter (TosaSerializer_new path).
Proof. intros t k Hin. inversion Hin. Qed.

(** So it holds of every module that the loop builds from a new
    serializer. *)
Lemma node_loop_layers_below ep path verbose nodes :
  layers_below_counter
    (tosa_fb (for_each nodes (lower_node ep path) (fresh_state path verbose)).2).
Proof.
  apply (preserves_for_each keeps_layers_below nodes (lower_node ep path)).
  - intros node. apply lower_node_keeps_layers_below.
  - apply fresh_module_layers_below.
Qed.

(** Under it, the next intermediate is a name that no declared tensor
    has. *)
Lemma next_layer_is_fresh st t :
  layers_below_counter (tosa_fb st) -> t ∈ tensors (tosa_fb st) ->
  t_name t <> layer st 0.
Proof.
  intros Hinv Hin E. specialize (Hinv t _ Hin E). cbn in Hinv. lia.
Qed.

(** ** The helpers: [transpose_helper] and [promote_shape] *)

Lemma length_remove_dups_le (l : list Z) :
  (length (remove_dups l) <= length l)%nat.
Proof.
  induction l as [|x l IH]; cbn [remove_dups length]; [lia|].
  destruct (decide_rel elem_of x l); cbn [length]; lia.
Qed.

Lemma remove_dups_shorter (l : list Z) :
  ~ NoDup l -> (length (remove_dups l) < length l)%nat.
Proof.
  induction l as [|x l IH]; intros Hnd.
  - exfalso. apply Hnd. constructor.
  - cbn [remove_dups length]. destruct (decide_rel elem_of x l) as [Hin|Hnin].
    + pose proof (length_remove_dups_le l). lia.
    + cbn [length]. apply -> Nat.succ_lt_mono. apply IH.
      intros Hl. apply Hnd. apply NoDup_cons. split; assumption.
Qed.

(** A permutation whose length is not the rank of the input is fatal. *)
Lemma transpose_helper_wrong_length input s new_order dt st :
  shape input = Some s -> length s <> length new_order ->
  transpose_helper input new_order dt st
  = (Raise (AssertionError "Wrong shape order length"), st).
Proof.
  intros Hs Hlen. unfold transpose_helper. rewrite Hs. run_m.
  apply Nat.eqb_neq in Hlen. rewrite Hlen. reflexivity.
Qed.

(** A permutation with a repeated axis is fatal. *)
Lemma transpose_helper_duplicate input s new_order dt st :
  shape input = Some s -> length s = length new_order -> ~ NoDup new_order ->
  transpose_helper input new_order dt st
  = (Raise (AssertionError "Contain duplicated dim numbers"), st).
Proof.
  intros Hs Hlen Hdup. unfold transpose_helper. rewrite Hs. run_m.
  apply Nat.eqb_eq in Hlen. rewrite Hlen.
  pose proof (remove_dups_shorter _ Hdup) as Hlt.
  assert (Hne : (length (remove_dups new_order) =? length new_order)%nat = false)
    by (apply Nat.eqb_neq; lia).
  rewrite Hne. reflexivity.
Qed.

Lemma check_dims_nop s new_order st : check_dims s new_order st = (Ok tt, st).
Proof.
  unfold check_dims. induction new_order as [|idx l IH]; [reflexivity|].
  cbn [for_each]. run_m.
  destruct (idx <? 0); [exact IH|].
  destruct (Z.of_nat (length s) <=? idx); exact IH.
Qed.

Lemma mapM_py_index_out_of_range (s : list Z) (new_order : list Z) (idx : Z) :
  idx ∈ new_order ->
  idx < - Z.of_nat (length s) \/ Z.of_nat (length s) <= idx ->
  exists e, mapM (py_index s) new_order = Raise e.
Proof.
  intros Hin Hr. induction new_order as [|i l IH]; [inversion Hin|].
  cbn [mapM]. apply elem_of_cons in Hin. destruct Hin as [<- | Hin].
  - rewrite (py_index_out_of_range s idx Hr). eexists; reflexivity.
  - destruct (IH Hin) as [e He]. rewrite He.
    destruct (py_index s i); eexists; reflexivity.
Qed.

(** An axis at or above the rank, or below minus the rank, is fatal
    too: not by the loop of lines 234-238, whose assertions cannot
    fail, but by the indexing of line 240. *)
Lemma transpose_helper_axis_beyond_rank input s new_order dt st idx :
  shape input = Some s -> idx ∈ new_order ->
  idx < - Z.of_nat (length s) \/ Z.of_nat (length s) <= idx ->
  exists e, transpose_helper input new_order dt st = (Raise e, st).
Proof.
  intros Hs Hin Hr. unfold transpose_helper. rewrite Hs. run_m.
  destruct (length s =? length new_order)%nat; [|eexists; reflexivity].
  destruct (length (remove_dups new_order) =? length new_order)%nat;
    [|eexists; reflexivity].
  rewrite check_dims_nop.
  destruct (mapM_py_index_out_of_range s new_order idx Hin Hr) as [e He].
  rewrite He. eexists; reflexivity.
Qed.

(** C2, evaluated at the failing input.  For a 2x3 input and the order
    [0, -1] (right length, no repeated entry, one negative axis) the
    helper does not fail: it declares the intermediate and appends the
    TRANSPOSE operator with that order. *)
Theorem transpose_helper_accepts_negative_axis :
  transpose_helper x_2x3 [0; -1] (Some FP32) (fresh_state None false)
  = (Ok (mk_tensor (LayerName 0) (Some [2; 3]) (Some FP32)),
     state_with
       {| pathPrefix := None;
          tensors := [mk_tensor (LayerName 0) (Some [2; 3]) (Some FP32)];
          operators :=
            [mk_op TRANSPOSE [NodeName "x"] [LayerName 0]
                   (Some (TransposeAttribute (Some [0; -1])))];
          fb_inputs := []; fb_outputs := [];
          currResultIdx := 1; currInputIdx := 0 |} false).
Proof. vm_compute. reflexivity. Qed.

(** A shape promotion that changes the element count is fatal. *)
Lemma promote_shape_mismatch (arg : TosaArg) s p dt st :
  shape arg = Some s -> np_prod s <> np_prod p ->
  promote_shape arg p dt st
  = (Raise (AssertionError "Incompatible promoted shape"), st).
Proof.
  intros Hs Hne. unfold promote_shape. run_m. rewrite Hs.
  apply Z.eqb_neq in Hne. rewrite Hne. reflexivity.
Qed.

(** ** The loop body *)

Lemma lower_node_call_function ep path node :
  node_op node = "call_function" ->
  lower_node ep path node = lower_call_function node.
Proof. intros E. unfold lower_node. rewrite E. reflexivity. Qed.

Lemma lower_node_placeholder ep path node :
  node_op node = "placeholder" ->
  lower_node ep path node = lower_placeholder ep node.
Proof. intros E. unfold lower_node. rewrite E. reflexivity. Qed.

Lemma py_index_head {A} (a : A) (l : list A) : py_index (a :: l) 0 = Ok a.
Proof.
  unfold py_index. cbn [length].
  destruct (Z.leb_spec 0 0); [|lia].
  destruct (Z.ltb_spec 0 (Z.of_nat (S (length l)))); [|lia].
  reflexivity.
Qed.

Lemma py_index_second {A} (a b : A) (l : list A) :
  py_index (a :: b :: l) 1 = Ok b.
Proof.
  unfold py_index. cbn [length].
  destruct (Z.leb_spec 0 1); [|lia].
  destruct (Z.ltb_spec 1 (Z.of_nat (S (S (length l))))); [|lia].
  reflexivity.
Qed.

(** C9.  A placeholder node whose target is not its name makes the
    lowering fail with the assertion of line 679, and the module is as
    it was: nothing has been declared for the node. *)
Theorem placeholder_name_must_equal_target ep path node st :
  node_op node = "placeholder" ->
  node_target node <> TargetStr (node_name node) ->
  lower_node ep path node st
  = (Raise (AssertionError "Expect placeholder name and target to match"), st).
Proof.
  intros Hop Hne. rewrite (lower_node_placeholder _ _ _ Hop).
  unfold lower_placeholder.
  rewrite bool_decide_eq_false_2 by congruence. reflexivity.
Qed.

Lemma placeholder_name_must_equal_target_witness :
  lower_node empty_program None placeholder_renamed (fresh_state None false)
  = (Raise (AssertionError "Expect placeholder name and target to match"),
     fresh_state None false).
Proof.
  apply (placeholder_name_must_equal_target empty_program None
           placeholder_renamed (fresh_state None false));
    [reflexivity | discriminate].
Defined.

(** With name and target equal and no argument, the placeholder is
    declared: here as an input tensor. *)
Lemma placeholder_declared_as_input ep path node st :
  node_op node = "placeholder" ->
  node_target node = TargetStr (node_name node) ->
  node_args node = [] ->
  inputs_to_parameters ep !! node_name node = None ->
  inputs_to_buffers ep !! node_name node = None ->
  exists st',
    lower_node ep path node st = (Ok tt, st')
    /\ fb_inputs (tosa_fb st') = fb_inputs (tosa_fb st) ++ [NodeName (node_name node)].
Proof.
  intros Hop Ht Ha Hp Hb. rewrite (lower_node_placeholder _ _ _ Hop).
  unfold lower_placeholder. rewrite Ht, Ha, Hp, Hb.
  rewrite bool_decide_eq_true_2 by reflexivity.
  eexists. split; reflexivity.
Qed.

(** ** Element types: the rule of the 1:1 mapping and the others *)

(** C3, counterexample.  A supported permute_copy node whose operand is
    INT8 and whose declared output is FP32 is lowered without any
    complaint: the TRANSPOSE operator is appended. *)
Lemma permute_copy_dtype_not_validated :
  is_node_supported permute_int8_to_fp32 = true
  /\ lower_node empty_program None permute_int8_to_fp32 (fresh_state None false)
     = (Ok tt,
        state_with
          {| pathPrefix := None;
             tensors := [mk_tensor (NodeName "permute") (Some [3; 2]) (Some FP32)];
             operators :=
               [mk_op TRANSPOSE [NodeName "x"] [NodeName "permute"]
                      (Some (TransposeAttribute (Some [1; 0])))];
             fb_inputs := []; fb_outputs := [];
             currResultIdx := 0; currInputIdx := 0 |} false).
Proof. split; vm_compute; reflexivity. Qed.

(** The same for every family without a 1:1 mapping: each sample node
    is supported, has INT8 operands and an FP32 output, and is lowered
    without error. *)
Lemma other_rules_do_not_validate_dtypes :
  Forall (fun node =>
            is_node_supported node = true
            /\ node_dtype node = FP32
            /\ tosa_mapping_op (node_target node) = None
            /\ (lower_node empty_program None node (fresh_state None false)).1
               = Ok tt)
         int8_to_fp32_samples.
Proof. repeat constructor. Qed.

(** C3, amended.  For a node whose target has a 1:1 mapping and whose
    two operands resolve to [a] and [b]: when both element types are
    the declared output's, exactly the mapped operator is appended;
    when one differs, the lowering fails with an assertion error and
    no operator is appended. *)
Theorem mapped_rule_validates_dtypes node op a b st :
  tosa_mapping_op (node_target node) = Some op ->
  mapM TosaArg_new (node_args node) = Ok [a; b] ->
  (dtype a = Some (node_dtype node) /\ dtype b = Some (node_dtype node) ->
   exists st',
     lower_call_function node st = (Ok tt, st')
     /\ operators (tosa_fb st')
        = operators (tosa_fb st)
          ++ [mk_op op [name a; name b] [NodeName (node_name node)]
                    (attr_torch_to_tosa (Some op) node)])
  /\ (dtype a <> Some (node_dtype node) \/ dtype b <> Some (node_dtype node) ->
      exists st',
        lower_call_function node st = (Raise (AssertionError ""), st')
        /\ operators (tosa_fb st') = operators (tosa_fb st)).
Proof.
  intros Hop Hargs. unfold lower_call_function. rewrite Hargs, Hop.
  open_state st. unfold lower_mapped. run_m.
  rewrite py_index_head, py_index_second. cbn -[bool_decide].
  split.
  - intros [Ea Eb]. rewrite !bool_decide_eq_true_2 by assumption.
    eexists. split; reflexivity.
  - intros Hne. case_bool_decide as Ea.
    + case_bool_decide as Eb.
      * exfalso. destruct Hne; contradiction.
      * eexists. split; reflexivity.
    + eexists. split; reflexivity.
Qed.

Lemma mapped_rule_validates_dtypes_witness :
  exists st',
    lower_call_function add_int8_fp32 (fresh_state None false)
    = (Raise (AssertionError ""), st')
    /\ operators (tosa_fb st') = [].
Proof.
  apply (proj2 (mapped_rule_validates_dtypes add_int8_fp32 ADD
                  (TosaArg_of_ref (ref "x" INT8 [2; 3]))
                  (TosaArg_of_ref (ref "y" FP32 [2; 3]))
                  (fresh_state None false) eq_refl eq_refl)).
  left. discriminate.
Defined.

(** ** Softmax *)

(** C5, counterexample.  The lowering of a softmax node appends six
    operators, not five. *)
Lemma softmax_emits_six_operators :
  is_node_supported softmax_last_axis = true
  /\ exists st',
       lower_node empty_program None softmax_last_axis (fresh_state None false)
       = (Ok tt, st')
       /\ map o_op (operators (tosa_fb st'))
          = [REDUCE_MAX; SUB; EXP; REDUCE_SUM; RECIPROCAL; MUL]
       /\ length (operators (tosa_fb st')) <> 5%nat.
Proof.
  split; [reflexivity|]. eexists. split; [vm_compute; reflexivity|].
  split; [reflexivity | discriminate].
Qed.

(** C5, amended.  A softmax node over a tensor [x] along an axis [k]
    that indexes the shape of [x] is lowered to six operators, in this
    order and no other: REDUCE_MAX of the input along the axis, SUB of
    that maximum from the input, EXP, REDUCE_SUM along the axis,
    RECIPROCAL of the sum, MUL of the exponentials by the reciprocal
    into the output. *)
Theorem softmax_lowering ep path node x k h st :
  node_op node = "call_function" ->
  node_target node = TargetFn aten__softmax_default ->
  node_args node = [ArgNode x; ArgInt k; ArgInt h] ->
  - Z.of_nat (length (ref_shape x)) <= k < Z.of_nat (length (ref_shape x)) ->
  let out := NodeName (node_name node) in
  let inp := NodeName (ref_name x) in
  let axis := Some (AxisAttribute (Some (PyInt k))) in
  exists st',
    lower_node ep path node st = (Ok tt, st')
    /\ operators (tosa_fb st')
       = operators (tosa_fb st)
         ++ [mk_op REDUCE_MAX [inp] [layer st 0] axis;
             mk_op SUB [inp; layer st 0] [layer st 1] None;
             mk_op EXP [layer st 1] [layer st 2] None;
             mk_op REDUCE_SUM [layer st 2] [layer st 3] axis;
             mk_op RECIPROCAL [layer st 3] [layer st 4] None;
             mk_op MUL [layer st 2; layer st 4] [out] (Some (MulAttribute 0))].
Proof.
  intros Hop Ht Hargs Hr out inp axis.
  rewrite (lower_node_call_function _ _ _ Hop).
  unfold lower_call_function. rewrite Hargs, Ht. open_state st.
  cbn [mapM TosaArg_new tosa_mapping_op mbind Res_bind mret Res_ret].
  unfold lower_softmax. run_m. run_res.
  rewrite py_index_head, py_index_second. cbn -[py_setitem].
  rewrite (py_setitem_in_range _ _ _ Hr).
  eexists. split; [reflexivity|].
  cbn. rewrite <- !app_assoc. reflexivity.
Qed.

Lemma softmax_lowering_witness :
  exists st',
    lower_node empty_program None softmax_last_axis (fresh_state None false)
    = (Ok tt, st')
    /\ operators (tosa_fb st')
       = [mk_op REDUCE_MAX [NodeName "x"] [LayerName 0]
                (Some (AxisAttribute (Some (PyInt (-1)))));
          mk_op SUB [NodeName "x"; LayerName 0] [LayerName 1] None;
          mk_op EXP [LayerName 1] [LayerName 2] None;
          mk_op REDUCE_SUM [LayerName 2] [LayerName 3]
                (Some (AxisAttribute (Some (PyInt (-1)))));
          mk_op RECIPROCAL [LayerName 3] [LayerName 4] None;
          mk_op MUL [LayerName 2; LayerName 4] [NodeName "sm"]
                (Some (MulAttribute 0))].
Proof.
  apply (softmax_lowering empty_program None softmax_last_axis
           (ref "x" FP32 [2; 3]) (-1) 0 (fresh_state None false));
    [reflexivity | reflexivity | reflexivity | simpl; lia].
Defined.

(** ** addmm *)

(** C6.  An addmm node over a bias, an input of rank at least 1 and a
    weight of rank at least 2 is lowered to: RESHAPE of the input to
    (1,) + shape, RESHAPE of the weight to (1,) + shape, RESHAPE of the
    bias to (1, 1) + shape, MATMUL of the two promoted operands into a
    batched intermediate, ADD of the promoted bias and the MATMUL
    result, RESHAPE back to the shape of the output.  Each promotion
    keeps the element count, and a promotion that does not is fatal. *)
Theorem addmm_lowering ep path node bias x w n xs k m ws st :
  node_op node = "call_function" ->
  node_target node = TargetFn aten_addmm_default ->
  node_args node = [ArgNode bias; ArgNode x; ArgNode w] ->
  ref_shape x = n :: xs ->
  ref_shape w = k :: m :: ws ->
  let out := NodeName (node_name node) in
  let dt := Some (node_dtype node) in
  (exists st',
     lower_node ep path node st = (Ok tt, st')
     /\ tensors (tosa_fb st')
        = tensors (tosa_fb st)
          ++ [mk_tensor out (Some (node_shape node)) dt;
              mk_tensor (layer st 0) (Some (1 :: ref_shape x)) dt;
              mk_tensor (layer st 1) (Some (1 :: ref_shape w)) dt;
              mk_tensor (layer st 2) (Some (1 :: 1 :: ref_shape bias)) dt;
              mk_tensor (layer st 3) (Some [1; n; m]) dt;
              mk_tensor (layer st 4) (Some [1; n; m]) dt]
     /\ operators (tosa_fb st')
        = operators (tosa_fb st)
          ++ [mk_op RESHAPE [NodeName (ref_name x)] [layer st 0]
                    (Some (ReshapeAttribute (Some (1 :: ref_shape x))));
              mk_op RESHAPE [NodeName (ref_name w)] [layer st 1]
                    (Some (ReshapeAttribute (Some (1 :: ref_shape w))));
              mk_op RESHAPE [NodeName (ref_name bias)] [layer st 2]
                    (Some (ReshapeAttribute (Some (1 :: 1 :: ref_shape bias))));
              mk_op MATMUL [layer st 0; layer st 1] [layer st 3]
                    (Some (MatMulAttribute 0 0));
              mk_op ADD [layer st 2; layer st 3] [layer st 4] None;
              mk_op RESHAPE [layer st 4] [out]
                    (Some (ReshapeAttribute (Some (node_shape node))))])
  /\ (np_prod (1 :: ref_shape x) = np_prod (ref_shape x)
      /\ np_prod (1 :: ref_shape w) = np_prod (ref_shape w)
      /\ np_prod (1 :: 1 :: ref_shape bias) = np_prod (ref_shape bias))
  /\ (forall (arg : TosaArg) s p d st0,
         shape arg = Some s -> np_prod s <> np_prod p ->
         promote_shape arg p d st0
         = (Raise (AssertionError "Incompatible promoted shape"), st0)).
Proof.
  intros Hop Ht Hargs Hx Hw out dt.
  split; [|split; [|exact promote_shape_mismatch]].
  - rewrite (lower_node_call_function _ _ _ Hop).
    unfold lower_call_function. rewrite Hargs, Ht. open_state st.
    cbn [mapM TosaArg_new tosa_mapping_op mbind Res_bind mret Res_ret].
    unfold lower_addmm. run_m. run_res.
    cbn [unpack3 TosaArg_of_ref shape name dtype node_ref ref_name ref_shape
         ref_dtype].
    rewrite !np_prod_cons_1, !Z.eqb_refl.
    rewrite Hx, Hw, py_index_head, py_index_second.
    eexists. split; [reflexivity|].
    cbn. rewrite <- !app_assoc. split; reflexivity.
  - rewrite !np_prod_cons_1. repeat split.
Qed.

Lemma addmm_lowering_witness :
  exists st',
    lower_node empty_program None addmm_2x3_3x4 (fresh_state None false)
    = (Ok tt, st')
    /\ map o_op (operators (tosa_fb st'))
       = [RESHAPE; RESHAPE; RESHAPE; MATMUL; ADD; RESHAPE].
Proof.
  destruct (proj1 (addmm_lowering empty_program None addmm_2x3_3x4
                     (ref "bias" FP32 [4]) (ref "x" FP32 [2; 3])
                     (ref "w" FP32 [3; 4]) 2 [3] 3 4 []
                     (fresh_state None false)
                     eq_refl eq_refl eq_refl eq_refl eq_refl))
    as [st' [Hrun [_ Hops]]].
  exists st'. split; [exact Hrun|]. rewrite Hops. reflexivity.
Defined.

(** ** Division *)

(** C7.  A div node over a dividend [x] and a divisor [y] is lowered to
    two operators: RECIPROCAL of [y] into an intermediate declared by
    this step, then MUL of [x] and that intermediate into the output.
    The intermediate is fresh: in a module built by the loop, no tensor
    declared before has its name.  And no step of the loop, for any
    node, appends an INTDIV operator. *)
Theorem div_lowering ep path node x y st :
  node_op node = "call_function" ->
  node_target node = TargetFn aten_div_Tensor ->
  node_args node = [ArgNode x; ArgNode y] ->
  let out := NodeName (node_name node) in
  (exists st',
     lower_node ep path node st = (Ok tt, st')
     /\ tensors (tosa_fb st')
        = tensors (tosa_fb st)
          ++ [mk_tensor out (Some (node_shape node)) (Some (node_dtype node));
              mk_tensor (layer st 0) (Some (ref_shape y)) (Some (ref_dtype y))]
     /\ operators (tosa_fb st')
        = operators (tosa_fb st)
          ++ [mk_op RECIPROCAL [NodeName (ref_name y)] [layer st 0] None;
              mk_op MUL [NodeName (ref_name x); layer st 0] [out]
                    (Some (MulAttribute 0))])
  /\ (layers_below_counter (tosa_fb st) ->
      forall t, t ∈ tensors (tosa_fb st) -> t_name t <> layer st 0)
  /\ (forall ep' path' node' st0,
         ops_extended not_a_divide st0 (lower_node ep' path' node' st0).2).
Proof.
  intros Hop Ht Hargs out. split; [|split].
  - rewrite (lower_node_call_function _ _ _ Hop).
    unfold lower_call_function. rewrite Hargs, Ht. open_state st.
    cbn [mapM TosaArg_new tosa_mapping_op mbind Res_bind mret Res_ret].
    unfold lower_div. run_m. run_res.
    rewrite py_index_head, py_index_second.
    eexists. split; [reflexivity|].
    cbn. rewrite <- !app_assoc. split; reflexivity.
  - intros Hinv t Hin. exact (next_layer_is_fresh st t Hinv Hin).
  - intros ep' path' node' st0. apply lower_node_no_divide.
Qed.

Lemma div_lowering_witness :
  exists st',
    lower_node empty_program None div_2x3 (fresh_state None false) = (Ok tt, st')
    /\ operators (tosa_fb st')
       = [mk_op RECIPROCAL [NodeName "y"] [LayerName 0] None;
          mk_op MUL [NodeName "x"; LayerName 0] [NodeName "q"]
                (Some (MulAttribute 0))].
Proof.
  destruct (proj1 (div_lowering empty_program None div_2x3
                     (ref "x" FP32 [2; 3]) (ref "y" FP32 [2; 3])
                     (fresh_state None false) eq_refl eq_refl eq_refl))
    as [st' [Hrun [_ Hops]]].
  exists st'. split; [exact Hrun | exact Hops].
Defined.

(** ** Batch normalization *)

(** C10.  A batch-norm node with momentum 0.1 is lowered to six
    operators that read the activations, the running mean, the running
    variance and the epsilon constant only: RESHAPE of the mean, SUB of
    it from the activations, ADD of epsilon to the variance, RSQRT,
    RESHAPE of that, MUL into the output.  The tensors declared are the
    output, five intermediates and one constant of shape (1,) that
    holds the epsilon operand of the node and nothing else, and that
    constant is the second operand of the ADD.  Whatever the weight and
    bias operands are, they appear nowhere, neither in an operator nor
    in a tensor: no operator multiplies by the weight and none adds the
    bias. *)
Theorem batch_norm_lowering ep path node x weight bias mean var momentum
    epsilon weight' bias' st :
  node_op node = "call_function" ->
  node_target node
  = TargetFn aten__native_batch_norm_legit_no_training_default ->
  node_args node
  = [ArgNode x; weight; bias; ArgNode mean; ArgNode var; ArgFloat momentum;
     ArgFloat epsilon] ->
  TosaArg_new weight = Ok weight' ->
  TosaArg_new bias = Ok bias' ->
  SFeqb float_0_1 momentum = true ->
  let out := NodeName (node_name node) in
  let eps := ConstName (currInputIdx (tosa_fb st)) in
  let dt := Some (ref_dtype x) in
  exists st',
    lower_node ep path node st = (Ok tt, st')
    /\ operators (tosa_fb st')
       = operators (tosa_fb st)
         ++ [mk_op RESHAPE [NodeName (ref_name mean)] [layer st 0]
                   (Some (ReshapeAttribute
                            (Some (1 :: ref_shape mean ++ [1; 1]))));
             mk_op SUB [NodeName (ref_name x); layer st 0] [layer st 1] None;
             mk_op ADD [NodeName (ref_name var); eps] [layer st 2] None;
             mk_op RSQRT [layer st 2] [layer st 3] None;
             mk_op RESHAPE [layer st 3] [layer st 4]
                   (Some (ReshapeAttribute
                            (Some (1 :: ref_shape var ++ [1; 1]))));
             mk_op MUL [layer st 1; layer st 4] [out] (Some (MulAttribute 0))]
    /\ tensors (tosa_fb st')
       = tensors (tosa_fb st)
         ++ [mk_tensor out (Some (node_shape node)) (Some (node_dtype node));
             mk_tensor (layer st 0) (Some (1 :: ref_shape mean ++ [1; 1])) dt;
             mk_tensor (layer st 1) (Some (ref_shape x)) dt;
             {| t_name := eps; t_shape := Some [1]; t_dtype := dt;
                t_data := Some [Some (PyFloat epsilon)];
                t_placeholderFilename := None |};
             mk_tensor (layer st 2) (Some (ref_shape var)) dt;
             mk_tensor (layer st 3) (Some (ref_shape var)) dt;
             mk_tensor (layer st 4) (Some (1 :: ref_shape var ++ [1; 1])) dt]
    /\ fb_inputs (tosa_fb st') = fb_inputs (tosa_fb st)
    /\ fb_outputs (tosa_fb st') = fb_outputs (tosa_fb st)
    /\ currInputIdx (tosa_fb st') = S (currInputIdx (tosa_fb st)).
Proof.
  intros Hop Ht Hargs Hw Hb Hmom out eps dt.
  rewrite (lower_node_call_function _ _ _ Hop).
  unfold lower_call_function. rewrite Hargs, Ht. open_state st.
  cbn [mapM TosaArg_new tosa_mapping_op mbind Res_bind mret Res_ret].
  rewrite Hw, Hb.
  cbn [mapM TosaArg_new tosa_mapping_op mbind Res_bind mret Res_ret].
  unfold lower_batch_norm. run_m. run_res.
  cbn [unpack7 TosaArg_of_ref shape name dtype number node_ref ref_name
       ref_shape ref_dtype eq_0_1].
  rewrite Hmom, !np_prod_broadcast, !Z.eqb_refl.
  eexists. split; [reflexivity|].
  split; [cbn; rewrite <- !app_assoc; reflexivity|].
  split; [cbn; rewrite <- !app_assoc; reflexivity|].
  split; [reflexivity|]. split; reflexivity.
Qed.

Lemma batch_norm_lowering_witness :
  exists st',
    lower_node empty_program None (batch_norm float_0_1) (fresh_state None false)
    = (Ok tt, st')
    /\ map o_op (operators (tosa_fb st'))
       = [RESHAPE; SUB; ADD; RSQRT; RESHAPE; MUL]
    /\ map t_name (tensors (tosa_fb st'))
       = [NodeName "bn"; LayerName 0; LayerName 1; ConstName 0; LayerName 2;
          LayerName 3; LayerName 4]
    /\ omap t_data (tensors (tosa_fb st')) = [[Some (PyFloat float_1e_5)]].
Proof.
  destruct (batch_norm_lowering empty_program None (batch_norm float_0_1)
              (ref "x" FP32 [1; 8; 4; 4]) (ArgNode (ref "weight" FP32 [8]))
              (ArgNode (ref "bias" FP32 [8])) (ref "mean" FP32 [8])
              (ref "var" FP32 [8]) float_0_1 float_1e_5
              (TosaArg_of_ref (ref "weight" FP32 [8]))
              (TosaArg_of_ref (ref "bias" FP32 [8]))
              (fresh_state None false)
              eq_refl eq_refl eq_refl eq_refl eq_refl eq_refl)
    as [st' [Hrun [Hops [Htens _]]]].
  exists st'. split; [exact Hrun|]. rewrite Hops, Htens.
  split; [reflexivity|]. split; reflexivity.
Defined.

(** ** How violations are reported *)

Lemma momentum_other_than_0_1_is_fatal node x w b mean var momentum eps outp st :
  eq_0_1 (number momentum) = false ->
  lower_batch_norm node [x; w; b; mean; var; momentum; eps] outp st
  = (Raise (AssertionError
              "Expected 0.1 momentum, not currently encoded into TOSA"), st).
Proof.
  intros Hm. unfold lower_batch_norm. run_m. cbn [unpack7]. rewrite Hm.
  reflexivity.
Qed.

Lemma dtype_mismatch_is_fatal op attr a b outp st :
  dtype a <> dtype outp \/ dtype b <> dtype outp ->
  lower_mapped op attr [a; b] outp st = (Raise (AssertionError ""), st).
Proof.
  intros Hne. unfold lower_mapped. run_m.
  rewrite py_index_head, py_index_second. cbn -[bool_decide].
  case_bool_decide as Ea; [|reflexivity].
  case_bool_decide as Eb; [|reflexivity].
  exfalso. destruct Hne; contradiction.
Qed.

(** The permutation of a permute_copy node does not go through
    [transpose_helper]: whatever it is, the node is lowered. *)
Lemma permute_copy_is_not_validated ep path node x perm rest rest' st :
  node_op node = "call_function" ->
  node_target node = TargetFn aten_permute_copy_default ->
  node_args node = ArgNode x :: ArgList perm :: rest ->
  mapM TosaArg_new rest = Ok rest' ->
  exists st',
    lower_node ep path node st = (Ok tt, st')
    /\ operators (tosa_fb st')
       = operators (tosa_fb st)
         ++ [mk_op TRANSPOSE [NodeName (ref_name x)] [NodeName (node_name node)]
                   (Some (TransposeAttribute (Some perm)))].
Proof.
  intros Hop Ht Hargs Hrest.
  rewrite (lower_node_call_function _ _ _ Hop).
  unfold lower_call_function. rewrite Hargs, Ht. open_state st.
  cbn [mapM TosaArg_new tosa_mapping_op mbind Res_bind mret Res_ret].
  rewrite Hrest.
  cbn [mapM TosaArg_new tosa_mapping_op mbind Res_bind mret Res_ret].
  unfold lower_permute_copy. run_m. run_res.
  rewrite py_index_head, py_index_second. run_m.
  eexists. split; reflexivity.
Qed.

Lemma unhandled_kind_eqb node :
  ~ handled_kind node ->
  String.eqb (node_op node) "call_function" = false
  /\ String.eqb (node_op node) "placeholder" = false
  /\ String.eqb (node_op node) "output" = false.
Proof.
  unfold handled_kind. intros Hk.
  repeat split; apply String.eqb_neq; intros E; apply Hk; auto.
Qed.

Lemma lower_node_unhandled ep path node :
  ~ handled_kind node -> lower_node ep path node = dbg_fail node path.
Proof.
  intros Hk. destruct (unhandled_kind_eqb node Hk) as [E1 [E2 E3]].
  unfold lower_node. rewrite E1, E2, E3. reflexivity.
Qed.

(** The report of the entries of [node.meta]. *)
Lemma dbg_meta_list_items items fb v tr fsys :
  for_each items (fun i => logger_info (NodeMetaListItem i))
    {| tosa_fb := fb; TOSA_DBG_VERBOSE := v; trace := tr; fs := fsys |}
  = (Ok tt,
     {| tosa_fb := fb; TOSA_DBG_VERBOSE := v;
        trace := tr ++ (if v then map (fun i => Logged INFO (NodeMetaListItem i))
                                      items
                        else []);
        fs := fsys |}).
Proof.
  revert tr. induction items as [|i items IH]; intros tr.
  - cbn. destruct v; rewrite app_nil_r; reflexivity.
  - cbn [for_each]. unfold mbind, M_bind. unfold logger_info at 1.
    cbn [TOSA_DBG_VERBOSE]. destruct v.
    + unfold emit. cbn [tosa_fb TOSA_DBG_VERBOSE trace fs].
      rewrite IH. cbn [map]. rewrite <- app_assoc. reflexivity.
    + rewrite IH. reflexivity.
Qed.

Lemma dbg_meta_item_run k val fb v tr fsys :
  dbg_meta_item (k, val)
    {| tosa_fb := fb; TOSA_DBG_VERBOSE := v; trace := tr; fs := fsys |}
  = (Ok tt,
     {| tosa_fb := fb; TOSA_DBG_VERBOSE := v;
        trace := tr ++ (if v then meta_lines [(k, val)] else []);
        fs := fsys |}).
Proof.
  unfold dbg_meta_item, meta_lines. cbn [fst snd flat_map].
  unfold mbind, M_bind. unfold logger_info at 1. cbn [TOSA_DBG_VERBOSE].
  destruct v.
  - unfold emit. cbn [tosa_fb TOSA_DBG_VERBOSE trace fs].
    destruct val as [d s|items|text].
    + rewrite app_nil_r. reflexivity.
    + rewrite dbg_meta_list_items, app_nil_r, <- app_assoc. reflexivity.
    + rewrite app_nil_r. reflexivity.
  - destruct val as [d s|items|text]; try (rewrite app_nil_r; reflexivity).
    rewrite dbg_meta_list_items. reflexivity.
Qed.

Lemma dbg_meta_items meta fb v tr fsys :
  for_each meta dbg_meta_item
    {| tosa_fb := fb; TOSA_DBG_VERBOSE := v; trace := tr; fs := fsys |}
  = (Ok tt,
     {| tosa_fb := fb; TOSA_DBG_VERBOSE := v;
        trace := tr ++ (if v then meta_lines meta else []);
        fs := fsys |}).
Proof.
  revert tr. induction meta as [|[k val] meta IH]; intros tr.
  - cbn. destruct v; rewrite app_nil_r; reflexivity.
  - cbn [for_each]. unfold mbind, M_bind. rewrite dbg_meta_item_run, IH.
    destruct v; [|rewrite !app_nil_r; reflexivity].
    rewrite <- app_assoc. unfold meta_lines. cbn [flat_map].
    rewrite app_nil_r. reflexivity.
Qed.

(** A node of another kind, with a debug path under which the dump can
    be written: the dump, the report and RuntimeError. *)
Lemma unhandled_node_is_dumped ep p node st :
  ~ handled_kind node ->
  dump_allowed (fs st) p ->
  lower_node ep (Some p) node st
  = (Raise (RuntimeError
              "TOSA Internal Error on node, enable logging for further info"),
     with_trace st (dbg_fail_trace (TOSA_DBG_VERBOSE st) p (tosa_fb st) node)).
Proof.
  intros Hk (Hp & Hmk & Ho1 & Ho2). rewrite (lower_node_unhandled _ _ _ Hk).
  apply String.eqb_neq in Hp.
  destruct st as [fb v tr fsys]. cbn [fs] in Hmk, Ho1, Ho2.
  unfold dbg_fail, dbg_tosa_dump, dbg_node, os_makedirs, write_file, with_trace.
  destruct v; run_m; rewrite Hp, Hmk; run_m; rewrite Ho1; run_m; rewrite Ho2;
    run_m; rewrite dbg_meta_items; cbn [dbg_fail_trace app];
    rewrite <- ?app_assoc; cbn [app]; rewrite ?app_nil_r; reflexivity.
Qed.

(** When the directory cannot be made, or a file cannot be opened, the
    dump raises what the file system raises: the node is not reported
    and RuntimeError is not raised. *)
Lemma unhandled_node_dump_fails ep p node st :
  ~ handled_kind node ->
  let info := if TOSA_DBG_VERBOSE st
              then [Logged INFO (EmittingDebugOutputTo (Some p))] else [] in
  (p = "" ->
   lower_node ep (Some p) node st = (Raise FileNotFoundError, with_trace st info))
  /\ (forall e, p <> "" -> makedirs_error (fs st) p = Some e ->
                lower_node ep (Some p) node st = (Raise e, with_trace st info))
  /\ (forall e, p <> "" -> makedirs_error (fs st) p = None ->
                open_error (fs st) (String.append p "output.tosa") = Some e ->
                lower_node ep (Some p) node st
                = (Raise e, with_trace st (info ++ [Makedirs p])))
  /\ (forall e, p <> "" -> makedirs_error (fs st) p = None ->
                open_error (fs st) (String.append p "output.tosa") = None ->
                open_error (fs st) (String.append p "desc.json") = Some e ->
                lower_node ep (Some p) node st
                = (Raise e,
                   with_trace st
                     (info ++ [Makedirs p;
                               FileWritten (String.append p "output.tosa")
                                           (Serialized (tosa_fb st))]))).
Proof.
  intros Hk info. rewrite (lower_node_unhandled _ _ _ Hk). unfold info.
  destruct st as [fb v tr fsys]. cbn [fs TOSA_DBG_VERBOSE tosa_fb].
  unfold dbg_fail, dbg_tosa_dump, os_makedirs, write_file, with_trace.
  split; [|split; [|split]].
  - intros ->. destruct v; run_m; rewrite ?app_nil_r; reflexivity.
  - intros e Hp Hmk. apply String.eqb_neq in Hp.
    destruct v; run_m; rewrite Hp, Hmk; rewrite ?app_nil_r; reflexivity.
  - intros e Hp Hmk Ho1. apply String.eqb_neq in Hp.
    destruct v; run_m; rewrite Hp, Hmk; run_m; rewrite Ho1;
      rewrite <- ?app_assoc; reflexivity.
  - intros e Hp Hmk Ho1 Ho2. apply String.eqb_neq in Hp.
    destruct v; run_m; rewrite Hp, Hmk; run_m; rewrite Ho1; run_m; rewrite Ho2;
      rewrite <- ?app_assoc; reflexivity.
Qed.

(** Without a debug path the dump itself raises TypeError, before the
    report. *)
Lemma unhandled_node_without_path ep node st :
  ~ handled_kind node ->
  lower_node ep None node st
  = (Raise TypeError,
     {| tosa_fb := tosa_fb st;
        TOSA_DBG_VERBOSE := TOSA_DBG_VERBOSE st;
        trace := trace st
                 ++ (if TOSA_DBG_VERBOSE st
                     then [Logged INFO (EmittingDebugOutputTo None)] else []);
        fs := fs st |}).
Proof.
  intros Hk. rewrite (lower_node_unhandled _ _ _ Hk).
  destruct st as [fb v tr fsys]. unfold dbg_fail, dbg_tosa_dump, dbg_node.
  destruct v; run_m; rewrite ?app_nil_r; reflexivity.
Qed.

(** C8, counterexample.  A batch-norm node with momentum 0.2, lowered
    with a debug path and verbose logging: the assertion error is
    raised and the trace stays empty, so neither the node nor the
    module was reported. *)
Lemma momentum_violation_not_reported :
  is_node_supported (batch_norm float_0_2) = true
  /\ exists st',
       lower_node empty_program (Some "dbg/") (batch_norm float_0_2)
                  (fresh_state (Some "dbg/") true)
       = (Raise (AssertionError
                   "Expected 0.1 momentum, not currently encoded into TOSA"),
          st')
       /\ trace st' = [].
Proof.
  split; [reflexivity|]. eexists. split; [vm_compute; reflexivity | reflexivity].
Qed.

(** C8, amended.  An element-type mismatch in the 1:1 rule, an
    element-count mismatch in a shape promotion ([promote_shape]), a
    permutation of the wrong length or with a repeated axis given to
    the layout-transpose helper ([transpose_helper]), and a momentum
    other than 0.1 are fatal as assertion errors, raised before the
    rule or helper that makes the check has added anything; the
    permutation of a permute_copy node does not go through the helper
    and is lowered whatever it is.  Whatever happens
    while a call_function, placeholder or output node is processed,
    nothing is logged and nothing is dumped.  The dump of the module
    and the report of the node are made for a node of any other kind,
    given a debug path: when the path is not empty and the file system
    lets the directory be made and both files be opened, the module is
    dumped, the node reported (its fields and every entry of its
    metadata at level INFO, between two warnings) and RuntimeError
    raised; when the directory cannot be made (always so for the empty
    path: FileNotFoundError) or a file cannot be opened, what the file
    system raises is raised instead, the node is not reported and what
    had been written stays. *)
Theorem violations_raise_and_only_unhandled_nodes_are_dumped :
  (forall ep path node st,
      handled_kind node -> trace (lower_node ep path node st).2 = trace st)
  /\ (forall op attr a b outp st,
         dtype a <> dtype outp \/ dtype b <> dtype outp ->
         lower_mapped op attr [a; b] outp st = (Raise (AssertionError ""), st))
  /\ (forall (arg : TosaArg) s p d st,
         shape arg = Some s -> np_prod s <> np_prod p ->
         promote_shape arg p d st
         = (Raise (AssertionError "Incompatible promoted shape"), st))
  /\ (forall input s new_order d st,
         shape input = Some s -> length s <> length new_order ->
         transpose_helper input new_order d st
         = (Raise (AssertionError "Wrong shape order length"), st))
  /\ (forall input s new_order d st,
         shape input = Some s -> length s = length new_order ->
         ~ NoDup new_order ->
         transpose_helper input new_order d st
         = (Raise (AssertionError "Contain duplicated dim numbers"), st))
  /\ (forall ep path node x perm rest rest' st,
         node_op node = "call_function" ->
         node_target node = TargetFn aten_permute_copy_default ->
         node_args node = ArgNode x :: ArgList perm :: rest ->
         mapM TosaArg_new rest = Ok rest' ->
         exists st',
           lower_node ep path node st = (Ok tt, st')
           /\ operators (tosa_fb st')
              = operators (tosa_fb st)
                ++ [mk_op TRANSPOSE [NodeName (ref_name x)]
                          [NodeName (node_name node)]
                          (Some (TransposeAttribute (Some perm)))])
  /\ (forall node x w b mean var momentum eps outp st,
         eq_0_1 (number momentum) = false ->
         lower_batch_norm node [x; w; b; mean; var; momentum; eps] outp st
         = (Raise (AssertionError
                     "Expected 0.1 momentum, not currently encoded into TOSA"),
            st))
  /\ (forall ep p node st,
         ~ handled_kind node ->
         dump_allowed (fs st) p ->
         lower_node ep (Some p) node st
         = (Raise (RuntimeError
                     "TOSA Internal Error on node, enable logging for further info"),
            with_trace st
              (dbg_fail_trace (TOSA_DBG_VERBOSE st) p (tosa_fb st) node)))
  /\ (forall ep p node st,
         ~ handled_kind node ->
         let info := if TOSA_DBG_VERBOSE st
                     then [Logged INFO (EmittingDebugOutputTo (Some p))]
                     else [] in
         (p = "" ->
          lower_node ep (Some p) node st
          = (Raise FileNotFoundError, with_trace st info))
         /\ (forall e, p <> "" -> makedirs_error (fs st) p = Some e ->
                       lower_node ep (Some p) node st
                       = (Raise e, with_trace st info))
         /\ (forall e, p <> "" -> makedirs_error (fs st) p = None ->
                       open_error (fs st) (String.append p "output.tosa")
                       = Some e ->
                       lower_node ep (Some p) node st
                       = (Raise e, with_trace st (info ++ [Makedirs p])))
         /\ (forall e, p <> "" -> makedirs_error (fs st) p = None ->
                       open_error (fs st) (String.append p "output.tosa") = None ->
                       open_error (fs st) (String.append p "desc.json") = Some e ->
                       lower_node ep (Some p) node st
                       = (Raise e,
                          with_trace st
                            (info ++ [Makedirs p;
                                      FileWritten (String.append p "output.tosa")
                                                  (Serialized (tosa_fb st))])))).
Proof.
  split; [exact handled_node_is_quiet|].
  split; [exact dtype_mismatch_is_fatal|].
  split; [exact promote_shape_mismatch|].
  split; [exact transpose_helper_wrong_length|].
  split; [exact transpose_helper_duplicate|].
  split; [exact permute_copy_is_not_validated|].
  split; [exact momentum_other_than_0_1_is_fatal|].
  split; [exact unhandled_node_is_dumped|].
  exact unhandled_node_dump_fails.
Qed.

Lemma violations_raise_and_only_unhandled_nodes_are_dumped_witness :
  lower_node empty_program (Some "dbg/") get_attr_node
             (fresh_state (Some "dbg/") true)
  = (Raise (RuntimeError
              "TOSA Internal Error on node, enable logging for further info"),
     with_trace (fresh_state (Some "dbg/") true)
       [Logged INFO (EmittingDebugOutputTo (Some "dbg/"));
        Makedirs "dbg/";
        FileWritten "dbg/output.tosa"
                    (Serialized (TosaSerializer_new (Some "dbg/")));
        FileWritten "dbg/desc.json"
                    (DescJson (TosaSerializer_new (Some "dbg/")));
        Logged WARNING (Text "Internal error due to poorly handled node:");
        Logged INFO (Text "OP");
        Logged INFO (NodeOpIs "get_attr");
        Logged INFO (NodeNameIs "c");
        Logged INFO (NodeTargetIs (TargetStr "c"));
        Logged INFO (NodeArgsIs []);
        Logged INFO NodeKwargsIs;
        Logged INFO (Text "  node.meta = ");
        Logged INFO (NodeMetaItem "stack_trace"
                                  (MetaOther "File model.py, line 12"));
        Logged INFO (NodeMetaItem "source_fn_stack" (MetaList ["c"; "Linear"]));
        Logged INFO (NodeMetaListItem "c");
        Logged INFO (NodeMetaListItem "Linear");
        Logged INFO (NodeMetaItem "val" (MetaTensor FP32 [1]));
        Logged WARNING (DebugOutputCapturedIn (Some "dbg/"))])
  /\ lower_node empty_program (Some "") get_attr_node (fresh_state (Some "") false)
     = (Raise FileNotFoundError, with_trace (fresh_state (Some "") false) []).
Proof.
  assert (Hk : ~ handled_kind get_attr_node).
  { unfold handled_kind. cbn. intros [H | [H | H]]; discriminate H. }
  destruct violations_raise_and_only_unhandled_nodes_are_dumped
    as (_ & _ & _ & _ & _ & _ & _ & Hdump & Hfail).
  split.
  - apply (Hdump empty_program "dbg/" get_attr_node
             (fresh_state (Some "dbg/") true) Hk).
    split; [discriminate|]. split; [reflexivity|]. split; reflexivity.
  - apply (proj1 (Hfail empty_program "" get_attr_node
                           (fresh_state (Some "") false) Hk)).
    reflexivity.
Defined.

(** ** The whole run *)

Section WholeRun.

Variable vela : TosaSerializer -> Res npz.
Variable files : FileSystem.

Lemma vela_compile_no_divide :
  preserves (ops_extended not_a_divide) (vela_compile vela).
Proof.
  unfold vela_compile.
  apply preserves_bind; [typeclasses eauto | apply preserves_get_fb; typeclasses eauto |].
  intros fb. apply preserves_bind; [typeclasses eauto | |]; intros;
    apply preserves_lift; typeclasses eauto.
Qed.

(** [preprocess] up to the loop: the first log line, the debug path
    decoded from the compile specification, the new serializer. *)
Lemma preprocess_unfold verbose ep compile_spec :
  preprocess vela files verbose ep compile_spec
  = match debug_tosa_path compile_spec None with
    | Ok path =>
        (_ ← for_each (graph_nodes ep) (lower_node ep path);
         _ ← (if bool_decide (path <> None) then dbg_tosa_dump path
              else mret tt);
         vela_compile vela) (loop_start files path verbose)
    | Raise e => (Raise e, loop_start files None verbose)
    end.
Proof.
  unfold preprocess, preprocess_body, initial_state, loop_start.
  destruct verbose; destruct (debug_tosa_path compile_spec None); reflexivity.
Qed.

(** The module that [preprocess] hands to the external compiler holds
    no INTDIV operator. *)
Lemma preprocess_no_divide verbose ep compile_spec :
  Forall not_a_divide
         (operators (tosa_fb (preprocess vela files verbose ep compile_spec).2)).
Proof.
  rewrite preprocess_unfold.
  destruct (debug_tosa_path compile_spec None) as [path|e]; [|constructor].
  set (rest := (_ ← for_each (graph_nodes ep) (lower_node ep path);
                _ ← (if bool_decide (path <> None)
                     then dbg_tosa_dump path else mret tt);
                vela_compile vela) : M (list byte)).
  assert (Hrest : preserves (ops_extended not_a_divide) rest).
  { unfold rest.
    apply preserves_bind; [typeclasses eauto | |].
    - apply preserves_for_each; [typeclasses eauto|].
      intros node. apply lower_node_no_divide.
    - intros _. apply preserves_bind; [typeclasses eauto | |].
      + destruct (bool_decide (path <> None)).
        * apply preserves_dbg_tosa_dump; [typeclasses eauto|].
          apply ops_extended_emit.
        * apply preserves_ret; typeclasses eauto.
      + intros _. apply vela_compile_no_divide. }
  destruct (Hrest (loop_start files path verbose)) as [new [E F]].
  rewrite E. exact F.
Qed.

End WholeRun.

(** * Further properties of the code *)

(** ** The artifact packager: framing, blocks, scratch, names *)

Section PackagerLaws.

Import Packager.

Lemma length_name_field key : length (name_field key) = 16%nat.
Proof.
  unfold name_field. rewrite length_app, length_zero_bytes, length_take. lia.
Qed.

Lemma to_bytes_little_ok n len :
  0 <= n < 2 ^ (8 * Z.of_nat len) ->
  to_bytes_little n len
  = Ok (map (fun i => byte_of_Z (n / 256 ^ Z.of_nat i)) (seq 0 len)).
Proof.
  intros Hn. unfold to_bytes_little.
  destruct (Z.ltb_spec n 0); [lia|].
  destruct (Z.leb_spec (2 ^ (8 * Z.of_nat len)) n); [lia|]. reflexivity.
Qed.

Lemma to_bytes_little_length n len bs :
  to_bytes_little n len = Ok bs -> length bs = len /\ 0 <= n < 2 ^ (8 * Z.of_nat len).
Proof.
  unfold to_bytes_little.
  destruct (Z.ltb_spec n 0); [discriminate|].
  destruct (Z.leb_spec (2 ^ (8 * Z.of_nat len)) n); [discriminate|].
  cbn [orb]. intros E. injection E as <-. rewrite length_map, length_seq. lia.
Qed.

Lemma pad_block_data_divides block_data :
  (16 | Z.of_nat (length (pad_block_data block_data))).
Proof.
  rewrite pad_block_data_length.
  exists (Z.of_nat (length block_data) / 16 + 1). lia.
Qed.

Lemma npz_block_divides data key b :
  npz_block data key = Ok b -> (16 | Z.of_nat (length b)).
Proof.
  unfold npz_block. destruct (npz_get data key) as [arr|e]; [|discriminate].
  cbn [mbind Res_bind].
  destruct (to_bytes_little _ 16) as [lf|e] eqn:El; [|discriminate].
  cbn [mbind Res_bind mret Res_ret]. intros E. injection E as <-.
  destruct (to_bytes_little_length _ _ _ El) as [Hl _].
  rewrite !length_app, length_name_field, Hl, !Nat2Z.inj_add.
  destruct (pad_block_data_divides (tobytes arr)) as [q Hq]. rewrite Hq.
  exists (2 + q). lia.
Qed.

Lemma npz_blocks_divides data keys acc bs :
  npz_blocks data keys acc = Ok bs ->
  (16 | Z.of_nat (length acc)) -> (16 | Z.of_nat (length bs)).
Proof.
  revert acc. induction keys as [|k keys IH]; intros acc; cbn [npz_blocks].
  - intros E. injection E as <-. auto.
  - destruct (npz_block data k) as [b|e] eqn:Eb; [|discriminate].
    cbn [mbind Res_bind]. intros E Hacc. apply (IH _ E).
    rewrite length_app, Nat2Z.inj_add.
    apply Z.divide_add_r; [exact Hacc | exact (npz_block_divides _ _ _ Eb)].
Qed.

Lemma round_scratch_divides n : (16 | round_scratch n).
Proof.
  unfold round_scratch. exists ((n - 1) / 16 + 1).
  pose proof (Z.div_mod (n - 1) 16 ltac:(lia)). lia.
Qed.

Lemma zero_bytes_times_ok k bs :
  zero_bytes_times k = Ok bs -> bs = zero_bytes k /\ k <= sys_maxsize.
Proof.
  unfold zero_bytes_times. destruct (Z.ltb_spec sys_maxsize k); [discriminate|].
  intros E. injection E as <-. split; [reflexivity | assumption].
Qed.

Lemma zero_bytes_times_fits k :
  k <= sys_maxsize -> zero_bytes_times k = Ok (zero_bytes k).
Proof.
  intros Hk. unfold zero_bytes_times.
  destruct (Z.ltb_spec sys_maxsize k); [lia | reflexivity].
Qed.

Lemma scratch_block_divides data b :
  scratch_block data = Ok b -> (16 | Z.of_nat (length b)).
Proof.
  unfold scratch_block.
  generalize (length_name_field "scratch_data").
  generalize (name_field "scratch_data") as nf. intros nf Hnf.
  destruct (npz_get data "scratch_shape") as [arr|e]; [|discriminate].
  cbn [mbind Res_bind]. destruct (item0 arr) as [n|e]; [|discriminate].
  cbn [mbind Res_bind].
  destruct (zero_bytes_times (round_scratch n)) as [zb|e] eqn:Ez; [|discriminate].
  destruct (zero_bytes_times_ok _ _ Ez) as [-> _].
  cbn [mbind Res_bind].
  destruct (to_bytes_little _ 16) as [lf|e] eqn:El; [|discriminate].
  cbn [mbind Res_bind mret Res_ret]. intros E. injection E as <-.
  destruct (to_bytes_little_length _ _ _ El) as [Hl Hr].
  rewrite !length_app, Hnf, Hl, length_zero_bytes, !Nat2Z.inj_add.
  rewrite Z2Nat.id by lia. destruct (round_scratch_divides n) as [q Hq].
  rewrite Hq. exists (2 + q). lia.
Qed.

(** X1.  Whatever the archive, an artifact that the packager returns
    is the 16-byte header, a body whose length is a multiple of 16, and
    the 16-byte footer: every field of the stream starts on a 16-byte
    boundary. *)
Theorem packaged_artifact_is_framed_and_aligned data bs :
  package data = Ok bs ->
  exists body,
    bs = header ++ body ++ footer
    /\ Z.of_nat (length body) mod 16 = 0
    /\ Z.of_nat (length bs) mod 16 = 0
    /\ length header = 16%nat /\ length footer = 16%nat.
Proof.
  unfold package.
  destruct (npz_blocks data (npz_keys data) []) as [blocks|e] eqn:Eb;
    [|discriminate].
  cbn [mbind Res_bind].
  destruct (scratch_block data) as [sb|e] eqn:Es; [|discriminate].
  cbn [mbind Res_bind mret Res_ret]. intros E.
  change (Ok (header ++ (blocks ++ sb) ++ footer) = Ok bs) in E.
  assert (Hbs : bs = header ++ (blocks ++ sb) ++ footer) by congruence.
  subst bs. clear E. exists (blocks ++ sb).
  assert (Hbody : (16 | Z.of_nat (length (blocks ++ sb)))).
  { rewrite length_app, Nat2Z.inj_add. apply Z.divide_add_r.
    - apply (npz_blocks_divides _ _ _ _ Eb). exists 0. reflexivity.
    - exact (scratch_block_divides _ _ Es). }
  split; [reflexivity|]. split; [apply Z.mod_divide; [lia | exact Hbody]|].
  split; [|split; reflexivity].
  apply Z.mod_divide; [lia|].
  rewrite !length_app, !Nat2Z.inj_add.
  change (Z.of_nat (length header)) with 16.
  change (Z.of_nat (length footer)) with 16.
  destruct Hbody as [q Hq]. rewrite length_app, Nat2Z.inj_add in Hq.
  exists (q + 2). lia.
Qed.

Lemma packaged_artifact_is_framed_and_aligned_witness :
  exists body,
    packaged_a_b_scratch bytes_a bytes_b 8 = header ++ body ++ footer
    /\ Z.of_nat (length body) mod 16 = 0
    /\ Z.of_nat (length (packaged_a_b_scratch bytes_a bytes_b 8)) mod 16 = 0
    /\ length header = 16%nat /\ length footer = 16%nat.
Proof.
  apply (packaged_artifact_is_framed_and_aligned
           [("a", byte_array bytes_a); ("b", byte_array bytes_b);
            ("scratch_shape", {| itemsize := 8; items := [10] |})]).
  vm_compute. reflexivity.
Defined.

Lemma npz_get_of_entry (data : npz) k a :
  NoDup (npz_keys data) -> (k, a) ∈ data -> npz_get data k = Ok a.
Proof.
  unfold npz_keys. induction data as [|[k0 a0] data IH]; intros Hnd Hin.
  - inversion Hin.
  - cbn [map fst] in Hnd. apply NoDup_cons in Hnd. destruct Hnd as [Hnin Hnd].
    cbn [npz_get]. apply elem_of_cons in Hin. destruct Hin as [E | Hin].
    + injection E as -> ->. rewrite String.eqb_refl. reflexivity.
    + destruct (String.eqb_spec k0 k) as [-> | Hne].
      * exfalso. apply Hnin. apply list_elem_of_In, in_map_iff.
        exists (k, a). split; [reflexivity | apply list_elem_of_In; exact Hin].
      * apply IH; assumption.
Qed.

Lemma npz_blocks_concat (data : npz) (entries : list (string * ndarray)) acc :
  (forall k a, (k, a) ∈ entries ->
               npz_get data k = Ok a
               /\ Z.of_nat (length (tobytes a)) < 2 ^ 128) ->
  npz_blocks data (map fst entries) acc = Ok (acc ++ flat_map block_of entries).
Proof.
  revert acc. induction entries as [|[k a] entries IH]; intros acc Hall.
  - cbn. rewrite app_nil_r. reflexivity.
  - cbn [map fst npz_blocks flat_map].
    destruct (Hall k a) as [Hget Hlen]; [left|].
    unfold npz_block. rewrite Hget. cbn [mbind Res_bind].
    rewrite to_bytes_little_ok by (change (8 * Z.of_nat 16) with 128; lia).
    cbn [mbind Res_bind mret Res_ret].
    rewrite IH by (intros k' a' Hin; apply Hall; right; exact Hin).
    rewrite <- app_assoc. reflexivity.
Qed.

(** X2.  For an archive whose entry names are distinct (and whose
    entries are shorter than 2^128 bytes), the artifact is the header,
    then one block per entry in the order of the archive (name field,
    unpadded length on 16 bytes, padded data), then the scratch block,
    then the footer. *)
Theorem package_is_header_blocks_scratch_footer (data : npz) sb :
  NoDup (npz_keys data) ->
  (forall k a, (k, a) ∈ data -> Z.of_nat (length (tobytes a)) < 2 ^ 128) ->
  scratch_block data = Ok sb ->
  package data = Ok (header ++ (flat_map block_of data ++ sb) ++ footer).
Proof.
  intros Hnd Hlen Hsb. unfold package, npz_keys.
  rewrite (npz_blocks_concat data data []).
  - cbn [mbind Res_bind]. rewrite Hsb. reflexivity.
  - intros k a Hin. split; [apply npz_get_of_entry; assumption | eauto].
Qed.

Lemma package_is_header_blocks_scratch_footer_witness :
  package example_archive
  = Ok (header
        ++ (flat_map block_of example_archive
            ++ (name_field "scratch_data" ++ le16 16 ++ zero_bytes 16))
        ++ footer).
Proof.
  apply (package_is_header_blocks_scratch_footer example_archive).
  - apply NoDup_ListNoDup. repeat constructor; cbn; intuition discriminate.
  - intros k a Hin. apply list_elem_of_In in Hin. cbn in Hin.
    destruct Hin as [E | [E | [E | []]]]; injection E as <- <-;
      vm_compute; reflexivity.
  - vm_compute. reflexivity.
Defined.

(** X3.  The scratch block: for a scratch size n >= 0 read from the
    first element of "scratch_shape", the size is rounded up to the
    least multiple of 16 that is at least n.  When the rounded size
    fits a sequence length (at most [sys.maxsize]), the block is the
    name "scratch_data", a length field holding the rounded size (not n
    itself), and that many zero bytes; when it does not, building the
    zero bytes raises OverflowError and there is no block. *)
Theorem scratch_block_rounds_up (data : npz) arr n rest :
  npz_get data "scratch_shape" = Ok arr ->
  items arr = n :: rest ->
  0 <= n ->
  let size := round_scratch n in
  n <= size < n + 16 /\ size mod 16 = 0
  /\ (size <= sys_maxsize ->
      scratch_block data
      = Ok (name_field "scratch_data" ++ le16 size ++ zero_bytes size)
      /\ length (zero_bytes size) = Z.to_nat size)
  /\ (sys_maxsize < size -> scratch_block data = Raise OverflowError).
Proof.
  intros Hget Hitems Hn size.
  assert (Hsize : n <= size < n + 16 /\ size mod 16 = 0).
  { unfold size, round_scratch.
    pose proof (Z.mod_pos_bound (n - 1) 16 ltac:(lia)) as Hm.
    split; [lia|]. apply Z.mod_divide; [lia | apply round_scratch_divides]. }
  split; [tauto|]. split; [tauto|].
  unfold scratch_block, item0. rewrite Hget. cbn [mbind Res_bind].
  rewrite Hitems. cbn [lookup list_lookup from_option mbind Res_bind].
  fold size. split.
  - intros Hfit. split; [|apply length_zero_bytes].
    rewrite (zero_bytes_times_fits _ Hfit). cbn [mbind Res_bind].
    rewrite to_bytes_little_ok
      by (change (8 * Z.of_nat 16) with 128; unfold sys_maxsize in Hfit; lia).
    reflexivity.
  - intros Hbig. unfold zero_bytes_times.
    destruct (Z.ltb_spec sys_maxsize size); [reflexivity | lia].
Qed.

Lemma scratch_block_rounds_up_witness :
  (scratch_block example_archive
   = Ok (name_field "scratch_data" ++ le16 16 ++ zero_bytes 16)
   /\ length (zero_bytes 16) = Z.to_nat 16)
  /\ scratch_block huge_scratch_archive = Raise OverflowError.
Proof.
  split.
  - apply (scratch_block_rounds_up example_archive
             {| itemsize := 8; items := [10] |} 10 [] eq_refl eq_refl).
    + lia.
    + vm_compute. discriminate.
  - apply (scratch_block_rounds_up huge_scratch_archive
             {| itemsize := 8; items := [2 ^ 63] |} (2 ^ 63) []
             eq_refl eq_refl).
    + lia.
    + vm_compute. reflexivity.
Defined.

(** X4.  When packaging fails: an archive without a "scratch_shape"
    entry raises KeyError, one whose "scratch_shape" array is empty
    raises IndexError, and a scratch size below -15 raises
    OverflowError (its rounded size is negative); a size from -15 to 0
    gives a scratch block with length field 0 and no data.  In each
    failing case no artifact is returned. *)
Theorem package_scratch_errors (data : npz) :
  (forall k a, (k, a) ∈ data -> Z.of_nat (length (tobytes a)) < 2 ^ 128) ->
  NoDup (npz_keys data) ->
  (npz_get data "scratch_shape" = Raise KeyError ->
   package data = Raise KeyError)
  /\ (forall arr, npz_get data "scratch_shape" = Ok arr -> items arr = [] ->
                  package data = Raise IndexError)
  /\ (forall arr n rest,
         npz_get data "scratch_shape" = Ok arr -> items arr = n :: rest ->
         n < -15 -> package data = Raise OverflowError)
  /\ (forall arr n rest,
         npz_get data "scratch_shape" = Ok arr -> items arr = n :: rest ->
         -15 <= n <= 0 ->
         scratch_block data = Ok (name_field "scratch_data" ++ le16 0)).
Proof.
  intros Hlen Hnd.
  assert (Hblocks : npz_blocks data (npz_keys data) []
                    = Ok (flat_map block_of data)).
  { unfold npz_keys. rewrite (npz_blocks_concat data data []); [reflexivity|].
    intros k a Hin. split; [apply npz_get_of_entry; assumption | eauto]. }
  repeat split.
  - intros Hget. unfold package. rewrite Hblocks. cbn [mbind Res_bind].
    unfold scratch_block. rewrite Hget. reflexivity.
  - intros arr Hget Hitems. unfold package. rewrite Hblocks.
    cbn [mbind Res_bind]. unfold scratch_block, item0.
    rewrite Hget. cbn [mbind Res_bind]. rewrite Hitems. reflexivity.
  - intros arr n rest Hget Hitems Hn. unfold package. rewrite Hblocks.
    cbn [mbind Res_bind]. unfold scratch_block, item0.
    rewrite Hget. cbn [mbind Res_bind]. rewrite Hitems.
    cbn [lookup list_lookup from_option mbind Res_bind].
    assert (Hneg : round_scratch n < 0).
    { unfold round_scratch.
      pose proof (Z.mod_pos_bound (n - 1) 16 ltac:(lia)) as Hm.
      pose proof (Z.div_mod (n - 1) 16 ltac:(lia)) as Hd.
      destruct (round_scratch_divides n) as [q Hq]. unfold round_scratch in Hq.
      lia. }
    rewrite zero_bytes_times_fits by (unfold sys_maxsize; lia).
    cbn [mbind Res_bind].
    unfold to_bytes_little. destruct (Z.ltb_spec (round_scratch n) 0); [|lia].
    reflexivity.
  - intros arr n rest Hget Hitems Hn. unfold scratch_block, item0.
    rewrite Hget. cbn [mbind Res_bind]. rewrite Hitems.
    cbn [lookup list_lookup from_option mbind Res_bind].
    assert (Hz : round_scratch n = 0).
    { unfold round_scratch.
      pose proof (Z.mod_pos_bound (n - 1) 16 ltac:(lia)) as Hm.
      destruct (round_scratch_divides n) as [q Hq]. unfold round_scratch in Hq.
      lia. }
    rewrite Hz. vm_compute. reflexivity.
Qed.

Lemma package_scratch_errors_witness :
  package [("a", byte_array bytes_a)] = Raise KeyError.
Proof.
  apply (proj1 (package_scratch_errors [("a", byte_array bytes_a)]
                  ltac:(intros k a Hin; apply list_elem_of_In in Hin;
                        cbn in Hin; destruct Hin as [E | []];
                        injection E as <- <-; vm_compute; reflexivity)
                  ltac:(apply NoDup_ListNoDup; repeat constructor; cbn;
                        intuition discriminate))).
  reflexivity.
Defined.

Lemma utf8_app (s1 s2 : string) :
  utf8 (String.append s1 s2) = utf8 s1 ++ utf8 s2.
Proof.
  unfold utf8, list_byte_of_string.
  induction s1 as [|c s1 IH]; [reflexivity|].
  change (String.append (String c s1) s2) with (String c (String.append s1 s2)).
  cbn [list_ascii_of_string List.map app]. f_equal. exact IH.
Qed.

Lemma utf8_inj (s1 s2 : string) : utf8 s1 = utf8 s2 -> s1 = s2.
Proof.
  intros E. rewrite <- (string_of_list_byte_of_string s1),
              <- (string_of_list_byte_of_string s2).
  unfold utf8 in E. rewrite E. reflexivity.
Qed.

Lemma zero_padded_inj (b1 b2 : list byte) (n1 n2 : nat) :
  x00 ∉ b1 -> x00 ∉ b2 ->
  b1 ++ repeat x00 n1 = b2 ++ repeat x00 n2 -> b1 = b2.
Proof.
  revert b2. induction b1 as [|c1 b1 IH]; intros [|c2 b2] H1 H2 E.
  - reflexivity.
  - exfalso. destruct n1 as [|n1]; [discriminate E|].
    cbn in E. injection E as Ec _. apply H2. rewrite <- Ec. left.
  - exfalso. destruct n2 as [|n2]; [discriminate E|].
    cbn in E. injection E as Ec _. apply H1. rewrite Ec. left.
  - cbn in E. injection E as -> E. f_equal. apply (IH b2).
    + intros Hin. apply H1. right. exact Hin.
    + intros Hin. apply H2. right. exact Hin.
    + exact E.
Qed.

(** X5.  The name field of a block is always 16 bytes that end in a NUL
    byte.  Names of at most 15 bytes without a NUL byte are encoded
    injectively; names that share their first 15 bytes get the same
    name field, whatever follows. *)
Theorem name_field_law :
  (forall key,
      length (name_field key) = 16%nat /\ last (name_field key) = Some x00)
  /\ (forall k1 k2,
         (length (utf8 k1) <= 15)%nat -> (length (utf8 k2) <= 15)%nat ->
         x00 ∉ utf8 k1 -> x00 ∉ utf8 k2 ->
         name_field k1 = name_field k2 -> k1 = k2)
  /\ (forall k s1 s2,
         (15 <= length (utf8 k))%nat ->
         name_field (String.append k s1) = name_field (String.append k s2)).
Proof.
  split; [|split].
  - intros key. split; [apply length_name_field|].
    unfold name_field, zero_bytes.
    set (b := take 15 (utf8 key)).
    assert (Hb : (length b <= 15)%nat) by (unfold b; rewrite length_take; lia).
    replace (Z.to_nat (16 - Z.of_nat (length b)))
      with (S (15 - length b)) by lia.
    cbn [repeat]. rewrite repeat_cons, app_assoc. apply last_snoc.
  - intros k1 k2 H1 H2 N1 N2 E. apply utf8_inj.
    unfold name_field, zero_bytes in E.
    rewrite !take_ge in E by lia.
    exact (zero_padded_inj _ _ _ _ N1 N2 E).
  - intros k s1 s2 Hk. unfold name_field.
    rewrite !utf8_app, !take_app_le by lia. reflexivity.
Qed.

Lemma name_field_law_witness :
  name_field "scratch_shape_of_the_first_region"
  = name_field "scratch_shape_of_another_region".
Proof.
  exact (proj2 (proj2 name_field_law) "scratch_shape_o" "f_the_first_region"
               "f_another_region" ltac:(vm_compute; lia)).
Defined.

End PackagerLaws.

(** ** The helpers and the other lowering rules *)

Lemma remove_dups_NoDup (l : list Z) : NoDup l -> remove_dups l = l.
Proof.
  induction l as [|x l IH]; intros Hnd; [reflexivity|].
  apply NoDup_cons in Hnd. destruct Hnd as [Hnin Hnd].
  cbn [remove_dups]. destruct (decide_rel elem_of x l); [contradiction|].
  rewrite IH by assumption. reflexivity.
Qed.

Lemma py_index_in_range (l : list Z) (i : Z) :
  - Z.of_nat (length l) <= i < Z.of_nat (length l) ->
  py_index l i = Ok (py_get l i).
Proof.
  intros Hr. unfold py_index, py_get.
  assert (Hlk : forall k, (k < length l)%nat ->
                          from_option IndexError (l !! k) = Ok (default 0 (l !! k))).
  { intros k Hk. destruct (lookup_lt_is_Some_2 l k Hk) as [z Hz].
    rewrite Hz. reflexivity. }
  destruct (Z.leb_spec 0 i); destruct (Z.ltb_spec i (Z.of_nat (length l)));
    cbn [andb]; try lia.
  - rewrite Z.mod_small by lia. apply Hlk. lia.
  - destruct (Z.leb_spec (- Z.of_nat (length l)) i); destruct (Z.ltb_spec i 0);
      cbn [andb]; try lia.
    replace (i mod Z.of_nat (length l)) with (Z.of_nat (length l) + i)
      by (apply (Z.mod_unique_pos i _ (-1)); lia).
    apply Hlk. lia.
Qed.

Lemma mapM_py_index_in_range (l : list Z) (order : list Z) :
  Forall (fun i => - Z.of_nat (length l) <= i < Z.of_nat (length l)) order ->
  mapM (py_index l) order = Ok (map (py_get l) order).
Proof.
  induction 1 as [|i order Hi _ IH]; [reflexivity|].
  cbn [mapM map]. rewrite (py_index_in_range l i Hi). cbn [mbind Res_bind].
  rewrite IH. reflexivity.
Qed.

Lemma transpose_helper_ok input s new_order s' dt st :
  shape input = Some s -> length s = length new_order -> NoDup new_order ->
  mapM (py_index s) new_order = Ok s' ->
  transpose_helper input new_order dt st
  = (Ok (mk_tensor (layer st 0) (Some s') dt),
     after_intermediate_op st (Some s') dt TRANSPOSE [name input]
                           (Some (TransposeAttribute (Some new_order)))).
Proof.
  intros Hs Hlen Hnd Hmap. unfold transpose_helper. rewrite Hs.
  open_state st. run_m.
  rewrite (remove_dups_NoDup _ Hnd), Hlen, !Nat.eqb_refl, check_dims_nop, Hmap.
  reflexivity.
Qed.

(** X12.  The layout-transpose helper on a permutation of the right
    length, without repeated entry, whose entries index the shape
    (negative entries counted from the end): it declares one
    intermediate, whose shape is the input shape taken in the order of
    the permutation and so has the rank of the input, and appends one
    TRANSPOSE operator from the input to that intermediate with the
    permutation as given. *)
Theorem transpose_helper_permutes input s new_order dt st :
  shape input = Some s ->
  length s = length new_order ->
  NoDup new_order ->
  Forall (fun i => - Z.of_nat (length s) <= i < Z.of_nat (length s)) new_order ->
  let permuted := map (py_get s) new_order in
  exists t st',
    transpose_helper input new_order dt st = (Ok t, st')
    /\ t = mk_tensor (layer st 0) (Some permuted) dt
    /\ tensors (tosa_fb st') = tensors (tosa_fb st) ++ [t]
    /\ operators (tosa_fb st')
       = operators (tosa_fb st)
         ++ [mk_op TRANSPOSE [name input] [t_name t]
                   (Some (TransposeAttribute (Some new_order)))]
    /\ length permuted = length s.
Proof.
  intros Hs Hlen Hnd Hr permuted.
  rewrite (transpose_helper_ok input s new_order permuted dt st Hs Hlen Hnd
             (mapM_py_index_in_range s new_order Hr)).
  eexists _, _. split; [reflexivity|].
  split; [reflexivity|]. split; [reflexivity|]. split; [reflexivity|].
  unfold permuted. rewrite length_map. symmetry. exact Hlen.
Qed.

Lemma transpose_helper_permutes_witness :
  exists t st',
    transpose_helper x_2x3 [-1; 0] (Some FP32) (fresh_state None false)
    = (Ok t, st')
    /\ t = mk_tensor (LayerName 0) (Some [3; 2]) (Some FP32)
    /\ operators (tosa_fb st')
       = [mk_op TRANSPOSE [NodeName "x"] [LayerName 0]
                (Some (TransposeAttribute (Some [-1; 0])))].
Proof.
  destruct (transpose_helper_permutes x_2x3 [2; 3] [-1; 0] (Some FP32)
              (fresh_state None false) eq_refl eq_refl) as [t [st' H]].
  - apply NoDup_cons. split; [|apply NoDup_singleton].
    intros Hin. apply list_elem_of_singleton in Hin. discriminate Hin.
  - repeat constructor; cbn; lia.
  - destruct H as [Hrun [Ht [_ [Hops _]]]].
    exists t, st'. split; [exact Hrun|]. split; [exact Ht|].
    rewrite Hops, Ht. reflexivity.
Defined.

(** X6.  A convolution node over a rank-4 input, a rank-4 weight and a
    rank-4 output is lowered to four operators: TRANSPOSE of the input
    to channel-last (order 0,2,3,1); TRANSPOSE of the weight, by the
    order 2,3,0,1 when the group count exceeds 1 and by 0,2,3,1
    otherwise; DEPTHWISE_CONV2D when the group count exceeds 1 and
    CONV2D otherwise, over the two transposed operands and the bias,
    with each padding value doubled and the stride and dilation as
    given; TRANSPOSE back (order 0,3,1,2) into the output.  The
    transposed flag and the output padding are not read. *)
Theorem convolution_lowering ep path node x w bias stride pad dilation
    transposed output_padding g bias' transposed' output_padding'
    n c h wd w0 w1 w2 w3 on oc oh ow st :
  node_op node = "call_function" ->
  node_target node = TargetFn aten_convolution_default ->
  node_args node
  = [ArgNode x; ArgNode w; bias; ArgList stride; ArgList pad; ArgList dilation;
     transposed; output_padding; ArgInt g] ->
  TosaArg_new bias = Ok bias' ->
  TosaArg_new transposed = Ok transposed' ->
  TosaArg_new output_padding = Ok output_padding' ->
  ref_shape x = [n; c; h; wd] ->
  ref_shape w = [w0; w1; w2; w3] ->
  node_shape node = [on; oc; oh; ow] ->
  let depthwise := 1 <? g in
  let out := NodeName (node_name node) in
  let dt := Some (node_dtype node) in
  exists st',
    lower_node ep path node st = (Ok tt, st')
    /\ tensors (tosa_fb st')
       = tensors (tosa_fb st)
         ++ [mk_tensor out (Some [on; oc; oh; ow]) dt;
             mk_tensor (layer st 0) (Some [n; h; wd; c]) dt;
             mk_tensor (layer st 1)
                       (Some (if depthwise then [w2; w3; w0; w1]
                              else [w0; w2; w3; w1])) dt;
             mk_tensor (layer st 2) (Some [on; oh; ow; oc]) dt]
    /\ operators (tosa_fb st')
       = operators (tosa_fb st)
         ++ [mk_op TRANSPOSE [NodeName (ref_name x)] [layer st 0]
                   (Some (TransposeAttribute (Some [0; 2; 3; 1])));
             mk_op TRANSPOSE [NodeName (ref_name w)] [layer st 1]
                   (Some (TransposeAttribute
                            (Some (if depthwise then [2; 3; 0; 1]
                                   else [0; 2; 3; 1]))));
             mk_op (if depthwise then DEPTHWISE_CONV2D else CONV2D)
                   [layer st 0; layer st 1; name bias'] [layer st 2]
                   (Some (ConvAttribute (flat_map (fun v => [v; v]) pad)
                                        (Some stride) (Some dilation) 0 0));
             mk_op TRANSPOSE [layer st 2] [out]
                   (Some (TransposeAttribute (Some [0; 3; 1; 2])))].
Proof.
  intros Hop Ht Hargs Hb Htr Hopad Hx Hw Ho depthwise out dt.
  assert (Hnd1 : NoDup [0; 2; 3; 1])
    by (apply NoDup_ListNoDup; repeat constructor; cbn; intuition discriminate).
  assert (Hnd2 : NoDup [2; 3; 0; 1])
    by (apply NoDup_ListNoDup; repeat constructor; cbn; intuition discriminate).
  rewrite (lower_node_call_function _ _ _ Hop).
  unfold lower_call_function. rewrite Hargs, Ht. open_state st.
  cbn [mapM TosaArg_new tosa_mapping_op mbind Res_bind mret Res_ret].
  rewrite Hb, Htr, Hopad.
  cbn [mapM TosaArg_new tosa_mapping_op mbind Res_bind mret Res_ret].
  unfold lower_convolution, gather. run_m. run_res.
  cbn [unpack9 TosaArg_of_ref shape name dtype number special node_ref
       ref_name ref_shape ref_dtype gt_1].
  rewrite Ho.
  rewrite (transpose_helper_ok (TosaArg_of_ref x) [n; c; h; wd] [0; 2; 3; 1] [n; h; wd; c] _ _
             (f_equal Some Hx) eq_refl Hnd1 eq_refl).
  unfold after_intermediate_op, layer. run_m.
  unfold depthwise, out, dt, layer. destruct (1 <? g) eqn:Eg.
  - rewrite (transpose_helper_ok (TosaArg_of_ref w) [w0; w1; w2; w3] [2; 3; 0; 1]
               [w2; w3; w0; w1] _ _ (f_equal Some Hw) eq_refl Hnd2 eq_refl).
    unfold after_intermediate_op, layer. run_m.
    eexists. split; [reflexivity|].
    split; cbn; rewrite <- !app_assoc; reflexivity.
  - rewrite (transpose_helper_ok (TosaArg_of_ref w) [w0; w1; w2; w3] [0; 2; 3; 1]
               [w0; w2; w3; w1] _ _ (f_equal Some Hw) eq_refl Hnd1 eq_refl).
    unfold after_intermediate_op, layer. run_m.
    eexists. split; [reflexivity|].
    split; cbn; rewrite <- !app_assoc; reflexivity.
Qed.

Lemma convolution_lowering_witness :
  exists st',
    lower_node empty_program None (conv_3x8x8 3) (fresh_state None false)
    = (Ok tt, st')
    /\ map o_op (operators (tosa_fb st'))
       = [TRANSPOSE; TRANSPOSE; DEPTHWISE_CONV2D; TRANSPOSE]
    /\ map o_attr (operators (tosa_fb st'))
       = [Some (TransposeAttribute (Some [0; 2; 3; 1]));
          Some (TransposeAttribute (Some [2; 3; 0; 1]));
          Some (ConvAttribute [1; 1; 2; 2] (Some [1; 1]) (Some [1; 1]) 0 0);
          Some (TransposeAttribute (Some [0; 3; 1; 2]))].
Proof.
  destruct (convolution_lowering empty_program None (conv_3x8x8 3)
              (ref "x" FP32 [1; 3; 8; 8]) (ref "w" FP32 [4; 3; 3; 3])
              (ArgNode (ref "b" FP32 [4])) [1; 1] [1; 2] [1; 1] (ArgInt 0)
              (ArgList [0; 0]) 3 _ _ _ 1 3 8 8 4 3 3 3 1 4 8 10
              (fresh_state None false)
              eq_refl eq_refl eq_refl eq_refl eq_refl eq_refl eq_refl eq_refl
              eq_refl)
    as [st' [Hrun [_ Hops]]].
  exists st'. split; [exact Hrun|]. rewrite Hops. split; reflexivity.
Defined.

(** X7.  A convolution node whose input is not of rank 4 is fatal: the
    assertion on the permutation length fails in the transpose of the
    input, after the output tensor has been declared and before any
    operator is appended. *)
Theorem convolution_needs_rank_4 ep path node x rest inputs st :
  node_op node = "call_function" ->
  node_target node = TargetFn aten_convolution_default ->
  node_args node = ArgNode x :: rest ->
  mapM TosaArg_new rest = Ok inputs ->
  length inputs = 8%nat ->
  length (ref_shape x) <> 4%nat ->
  exists st',
    lower_node ep path node st
    = (Raise (AssertionError "Wrong shape order length"), st')
    /\ operators (tosa_fb st') = operators (tosa_fb st)
    /\ tensors (tosa_fb st')
       = tensors (tosa_fb st)
         ++ [mk_tensor (NodeName (node_name node)) (Some (node_shape node))
                       (Some (node_dtype node))].
Proof.
  intros Hop Ht Hargs Hrest Hlen Hrank.
  do 8 (destruct inputs as [|? inputs]; [discriminate Hlen|]).
  destruct inputs; [clear Hlen | discriminate Hlen].
  rewrite (lower_node_call_function _ _ _ Hop).
  unfold lower_call_function. rewrite Hargs, Ht. open_state st.
  cbn [mapM TosaArg_new tosa_mapping_op mbind Res_bind mret Res_ret].
  rewrite Hrest.
  cbn [mapM TosaArg_new tosa_mapping_op mbind Res_bind mret Res_ret].
  unfold lower_convolution. run_m. run_res. cbn [unpack9].
  rewrite (transpose_helper_wrong_length (TosaArg_of_ref x) (ref_shape x)
             [0; 2; 3; 1] _ _ eq_refl Hrank).
  eexists. split; [reflexivity|]. split; reflexivity.
Qed.

Lemma convolution_needs_rank_4_witness :
  exists st',
    lower_node empty_program None conv1d_node (fresh_state None false)
    = (Raise (AssertionError "Wrong shape order length"), st')
    /\ operators (tosa_fb st') = []
    /\ tensors (tosa_fb st')
       = [mk_tensor (NodeName "conv") (Some [1; 4; 6]) (Some FP32)].
Proof.
  apply (convolution_needs_rank_4 empty_program None conv1d_node
           (ref "x" FP32 [1; 3; 8]) _ _ (fresh_state None false)
           eq_refl eq_refl eq_refl eq_refl eq_refl).
  cbn. lia.
Defined.

Lemma py_index_third {A} (a b c : A) (l : list A) :
  py_index (a :: b :: c :: l) 2 = Ok c.
Proof.
  unfold py_index. cbn [length].
  destruct (Z.leb_spec 0 2); [|lia].
  destruct (Z.ltb_spec 2 (Z.of_nat (S (S (S (length l)))))); [|lia].
  reflexivity.
Qed.

Lemma py_index_fourth {A} (a b c : A) (l : list A) :
  py_index (a :: b :: c :: l) 3
  = match l with d :: _ => Ok d | [] => Raise IndexError end.
Proof.
  destruct l as [|d l]; [reflexivity|].
  unfold py_index. cbn [length].
  destruct (Z.leb_spec 0 3); [|lia].
  destruct (Z.ltb_spec 3 (Z.of_nat (S (S (S (S (length l))))))); [|lia].
  reflexivity.
Qed.

(** X8.  An avg_pool2d node over a rank-4 input and output is lowered
    to TRANSPOSE to channel-last, AVG_POOL2D, TRANSPOSE back.  The
    padding of the pooling attribute is the fourth operand when there
    is one, as it is given, and four zeros when there is none; the
    accumulator type is the constant 8; operands after the fourth are
    not read. *)
Theorem avg_pool2d_lowering ep path node x kernel stride more more'
    n c h wd on oc oh ow st :
  node_op node = "call_function" ->
  node_target node = TargetFn aten_avg_pool2d_default ->
  node_args node = ArgNode x :: ArgList kernel :: ArgList stride :: more ->
  mapM TosaArg_new more = Ok more' ->
  ref_shape x = [n; c; h; wd] ->
  node_shape node = [on; oc; oh; ow] ->
  let pad := match more' with
             | [] => Some [0; 0; 0; 0]
             | p :: _ => special p
             end in
  let out := NodeName (node_name node) in
  let dt := Some (node_dtype node) in
  exists st',
    lower_node ep path node st = (Ok tt, st')
    /\ tensors (tosa_fb st')
       = tensors (tosa_fb st)
         ++ [mk_tensor out (Some [on; oc; oh; ow]) dt;
             mk_tensor (layer st 0) (Some [n; h; wd; c]) dt;
             mk_tensor (layer st 1) (Some [on; oh; ow; oc]) dt]
    /\ operators (tosa_fb st')
       = operators (tosa_fb st)
         ++ [mk_op TRANSPOSE [NodeName (ref_name x)] [layer st 0]
                   (Some (TransposeAttribute (Some [0; 2; 3; 1])));
             mk_op AVG_POOL2D [layer st 0] [layer st 1]
                   (Some (PoolAttribute (Some kernel) (Some stride) pad 0 0 8));
             mk_op TRANSPOSE [layer st 1] [out]
                   (Some (TransposeAttribute (Some [0; 3; 1; 2])))].
Proof.
  intros Hop Ht Hargs Hmore Hx Ho pad out dt.
  assert (Hnd1 : NoDup [0; 2; 3; 1])
    by (apply NoDup_ListNoDup; repeat constructor; cbn; intuition discriminate).
  rewrite (lower_node_call_function _ _ _ Hop).
  unfold lower_call_function. rewrite Hargs, Ht. open_state st.
  cbn [mapM TosaArg_new tosa_mapping_op mbind Res_bind mret Res_ret].
  rewrite Hmore.
  cbn [mapM TosaArg_new tosa_mapping_op mbind Res_bind mret Res_ret].
  unfold lower_avg_pool2d, gather. run_m. run_res.
  rewrite py_index_head, py_index_second, py_index_third, py_index_fourth.
  run_m. run_res.
  cbn [TosaArg_of_ref shape name dtype number special node_ref
       ref_name ref_shape ref_dtype].
  rewrite Ho.
  rewrite (transpose_helper_ok (TosaArg_of_ref x) [n; c; h; wd] [0; 2; 3; 1]
             [n; h; wd; c] _ _ (f_equal Some Hx) eq_refl Hnd1 eq_refl).
  unfold after_intermediate_op, layer, pad, out, dt. run_m.
  eexists. split; [reflexivity|].
  destruct more' as [|p more']; split; cbn; rewrite <- !app_assoc; reflexivity.
Qed.

Lemma avg_pool2d_lowering_witness :
  exists st',
    lower_node empty_program None (avg_pool_2x2 []) (fresh_state None false)
    = (Ok tt, st')
    /\ map o_attr (operators (tosa_fb st'))
       = [Some (TransposeAttribute (Some [0; 2; 3; 1]));
          Some (PoolAttribute (Some [2; 2]) (Some [2; 2]) (Some [0; 0; 0; 0])
                              0 0 8);
          Some (TransposeAttribute (Some [0; 3; 1; 2]))].
Proof.
  destruct (avg_pool2d_lowering empty_program None (avg_pool_2x2 [])
              (ref "x" FP32 [1; 3; 8; 8]) [2; 2] [2; 2] [] [] 1 3 8 8 1 3 4 4
              (fresh_state None false)
              eq_refl eq_refl eq_refl eq_refl eq_refl eq_refl)
    as [st' [Hrun [_ Hops]]].
  exists st'. split; [exact Hrun|]. rewrite Hops. reflexivity.
Defined.

(** X9.  A hardtanh node with both bounds is lowered to one CLAMP whose
    attribute carries each bound twice: truncated toward zero as an
    integer, and as given; the output tensor is the only tensor
    declared.  A node that leaves the bounds out is fatal (IndexError),
    as is an infinite lower bound (OverflowError); in both cases the
    module is left with the output tensor declared and nothing else:
    no operator, no intermediate. *)
Theorem hardtanh_lowering ep path node x st :
  node_op node = "call_function" ->
  node_target node = TargetFn aten_hardtanh_default ->
  let declared_only :=
    with_tensor st (mk_tensor (NodeName (node_name node))
                              (Some (node_shape node)) (Some (node_dtype node)))
                false in
  (forall lo hi lo' hi' ilo ihi,
      node_args node = [ArgNode x; lo; hi] ->
      TosaArg_new lo = Ok lo' -> TosaArg_new hi = Ok hi' ->
      py_int (number lo') = Ok ilo -> py_int (number hi') = Ok ihi ->
      exists st',
        lower_node ep path node st = (Ok tt, st')
        /\ operators (tosa_fb st')
           = operators (tosa_fb st)
             ++ [mk_op CLAMP [NodeName (ref_name x)]
                       [NodeName (node_name node)]
                       (Some (ClampAttribute ilo ihi (number lo')
                                             (number hi')))]
        /\ tensors (tosa_fb st') = tensors (tosa_fb declared_only)
        /\ currResultIdx (tosa_fb st') = currResultIdx (tosa_fb st)
        /\ currInputIdx (tosa_fb st') = currInputIdx (tosa_fb st))
  /\ (node_args node = [ArgNode x] ->
      lower_node ep path node st = (Raise IndexError, declared_only))
  /\ (forall s rest rest',
         node_args node = ArgNode x :: ArgFloat (S754_infinity s) :: rest ->
         mapM TosaArg_new rest = Ok rest' ->
         lower_node ep path node st = (Raise OverflowError, declared_only)).
Proof.
  intros Hop Ht declared_only. unfold declared_only, with_tensor.
  rewrite (lower_node_call_function _ _ _ Hop).
  unfold lower_call_function. rewrite Ht. open_state st.
  split; [|split].
  - intros lo hi lo' hi' ilo ihi Hargs Hlo Hhi Hilo Hihi. rewrite Hargs.
    cbn [mapM TosaArg_new tosa_mapping_op mbind Res_bind mret Res_ret].
    rewrite Hlo, Hhi.
    cbn [mapM TosaArg_new tosa_mapping_op mbind Res_bind mret Res_ret].
    unfold lower_hardtanh. run_m. run_res.
    rewrite py_index_head, py_index_second, py_index_third. run_m.
    rewrite Hilo, Hihi. run_m.
    eexists. split; [reflexivity|]. repeat split; reflexivity.
  - intros Hargs. rewrite Hargs.
    cbn [mapM TosaArg_new tosa_mapping_op mbind Res_bind mret Res_ret].
    unfold lower_hardtanh. run_m. cbn. rewrite app_nil_r. reflexivity.
  - intros s rest rest' Hargs Hrest. rewrite Hargs.
    cbn [mapM TosaArg_new tosa_mapping_op mbind Res_bind mret Res_ret].
    rewrite Hrest.
    cbn [mapM TosaArg_new tosa_mapping_op mbind Res_bind mret Res_ret].
    unfold lower_hardtanh. run_m. run_res. rewrite py_index_second. run_m.
    cbn. rewrite app_nil_r. reflexivity.
Qed.

Lemma hardtanh_lowering_witness :
  (exists st',
     lower_node empty_program None hardtanh_half (fresh_state None false)
     = (Ok tt, st')
     /\ operators (tosa_fb st')
        = [mk_op CLAMP [NodeName "x"] [NodeName "clamp"]
                 (Some (ClampAttribute 0 0 (Some (PyFloat (float_half true)))
                                       (Some (PyFloat (float_half false)))))]
     /\ tensors (tosa_fb st')
        = [mk_tensor (NodeName "clamp") (Some [2; 3]) (Some FP32)])
  /\ lower_node empty_program None hardtanh_unbounded (fresh_state None false)
     = (Raise IndexError,
        with_tensor (fresh_state None false)
          (mk_tensor (NodeName "clamp") (Some [2; 3]) (Some FP32)) false).
Proof.
  split.
  - destruct (proj1 (hardtanh_lowering empty_program None hardtanh_half
                       (ref "x" FP32 [2; 3]) (fresh_state None false)
                       eq_refl eq_refl)
                (ArgFloat (float_half true)) (ArgFloat (float_half false))
                _ _ 0 0 eq_refl eq_refl eq_refl eq_refl eq_refl)
      as [st' [Hrun [Hops [Htens _]]]].
    exists st'. split; [exact Hrun|]. split; [exact Hops | exact Htens].
  - exact (proj1 (proj2 (hardtanh_lowering empty_program None hardtanh_unbounded
                           (ref "x" FP32 [2; 3]) (fresh_state None false)
                           eq_refl eq_refl)) eq_refl).
Defined.

(** X10.  A getitem node is lowered to one IDENTITY operator from its
    first operand to the output, whatever the index and the other
    operands are: the element that is selected plays no part. *)
Theorem getitem_lowering ep path node x rest rest' st :
  node_op node = "call_function" ->
  node_target node = TargetFn operator_getitem ->
  node_args node = ArgNode x :: rest ->
  mapM TosaArg_new rest = Ok rest' ->
  exists st',
    lower_node ep path node st = (Ok tt, st')
    /\ operators (tosa_fb st')
       = operators (tosa_fb st)
         ++ [mk_op IDENTITY [NodeName (ref_name x)] [NodeName (node_name node)]
                   None]
    /\ tensors (tosa_fb st')
       = tensors (tosa_fb st)
         ++ [mk_tensor (NodeName (node_name node)) (Some (node_shape node))
                       (Some (node_dtype node))].
Proof.
  intros Hop Ht Hargs Hrest.
  rewrite (lower_node_call_function _ _ _ Hop).
  unfold lower_call_function. rewrite Hargs, Ht. open_state st.
  cbn [mapM TosaArg_new tosa_mapping_op mbind Res_bind mret Res_ret].
  rewrite Hrest.
  cbn [mapM TosaArg_new tosa_mapping_op mbind Res_bind mret Res_ret].
  unfold lower_getitem. run_m. run_res. rewrite py_index_head. run_m.
  eexists. split; [reflexivity|]. split; reflexivity.
Qed.

Lemma getitem_lowering_witness :
  exists st',
    lower_node empty_program None (getitem_node 1) (fresh_state None false)
    = (Ok tt, st')
    /\ operators (tosa_fb st')
       = [mk_op IDENTITY [NodeName "bn"] [NodeName "item"] None]
    /\ tensors (tosa_fb st')
       = [mk_tensor (NodeName "item") (Some [1; 8; 4; 4]) (Some FP32)].
Proof.
  apply (getitem_lowering empty_program None (getitem_node 1)
           (ref "bn" FP32 [1; 8; 4; 4]) [ArgInt 1] _ (fresh_state None false)
           eq_refl eq_refl eq_refl eq_refl).
Defined.

(** X11.  A permute_copy node is lowered to one TRANSPOSE operator from
    its first operand to the output, carrying the permutation of the
    node as it is: no intermediate is declared and the permutation is
    not checked in any way (length, repeated or out-of-range axes). *)
Theorem permute_copy_lowering ep path node x perm rest rest' st :
  node_op node = "call_function" ->
  node_target node = TargetFn aten_permute_copy_default ->
  node_args node = ArgNode x :: ArgList perm :: rest ->
  mapM TosaArg_new rest = Ok rest' ->
  exists st',
    lower_node ep path node st = (Ok tt, st')
    /\ operators (tosa_fb st')
       = operators (tosa_fb st)
         ++ [mk_op TRANSPOSE [NodeName (ref_name x)]
                   [NodeName (node_name node)]
                   (Some (TransposeAttribute (Some perm)))]
    /\ tensors (tosa_fb st')
       = tensors (tosa_fb st)
         ++ [mk_tensor (NodeName (node_name node)) (Some (node_shape node))
                       (Some (node_dtype node))]
    /\ currResultIdx (tosa_fb st') = currResultIdx (tosa_fb st).
Proof.
  intros Hop Ht Hargs Hrest.
  rewrite (lower_node_call_function _ _ _ Hop).
  unfold lower_call_function. rewrite Hargs, Ht. open_state st.
  cbn [mapM TosaArg_new tosa_mapping_op mbind Res_bind mret Res_ret].
  rewrite Hrest.
  cbn [mapM TosaArg_new tosa_mapping_op mbind Res_bind mret Res_ret].
  unfold lower_permute_copy. run_m. run_res.
  rewrite py_index_head, py_index_second. run_m.
  eexists. split; [reflexivity|]. repeat split; reflexivity.
Qed.

Lemma permute_copy_lowering_witness :
  exists st',
    lower_node empty_program None (permute_node [0; 0; 7])
               (fresh_state None false)
    = (Ok tt, st')
    /\ operators (tosa_fb st')
       = [mk_op TRANSPOSE [NodeName "x"] [NodeName "permute"]
                (Some (TransposeAttribute (Some [0; 0; 7])))]
    /\ tensors (tosa_fb st')
       = [mk_tensor (NodeName "permute") (Some [3; 2]) (Some FP32)]
    /\ currResultIdx (tosa_fb st') = 0%nat.
Proof.
  apply (permute_copy_lowering empty_program None (permute_node [0; 0; 7])
           (ref "x" FP32 [2; 3]) [0; 0; 7] [] [] (fresh_state None false)
           eq_refl eq_refl eq_refl eq_refl).
Defined.

(** X25.  A softmax node whose axis cannot index the shape of its input
    is fatal before anything is lowered: an integer axis outside
    [-rank, rank) raises IndexError and an axis given as a float raises
    TypeError, when the reduced shape is written; the output tensor of
    the node has been declared by then, no intermediate is declared and
    no operator is appended. *)
Theorem softmax_axis_errors ep path node x dim rest rest' st :
  node_op node = "call_function" ->
  node_target node = TargetFn aten__softmax_default ->
  node_args node = ArgNode x :: dim :: rest ->
  mapM TosaArg_new rest = Ok rest' ->
  let declared_only :=
    with_tensor st (mk_tensor (NodeName (node_name node))
                              (Some (node_shape node)) (Some (node_dtype node)))
                false in
  (forall k, dim = ArgInt k ->
             k < - Z.of_nat (length (ref_shape x))
             \/ Z.of_nat (length (ref_shape x)) <= k ->
             lower_node ep path node st = (Raise IndexError, declared_only))
  /\ (forall f, dim = ArgFloat f ->
                lower_node ep path node st = (Raise TypeError, declared_only)).
Proof.
  intros Hop Ht Hargs Hrest declared_only.
  rewrite (lower_node_call_function _ _ _ Hop).
  unfold lower_call_function. rewrite Hargs, Ht. unfold declared_only.
  open_state st. split.
  - intros k -> Hr.
    cbn [mapM TosaArg_new tosa_mapping_op mbind Res_bind mret Res_ret].
    rewrite Hrest.
    cbn [mapM TosaArg_new tosa_mapping_op mbind Res_bind mret Res_ret].
    unfold lower_softmax. run_m. run_res.
    rewrite py_index_head, py_index_second. cbn -[py_setitem].
    unfold py_setitem.
    destruct (Z.leb_spec 0 k); destruct (Z.ltb_spec k (Z.of_nat (length (ref_shape x))));
      cbn [andb]; try lia;
      destruct (Z.leb_spec (- Z.of_nat (length (ref_shape x))) k);
      destruct (Z.ltb_spec k 0); cbn [andb]; try lia;
      unfold with_tensor; cbn; rewrite app_nil_r; reflexivity.
  - intros f ->.
    cbn [mapM TosaArg_new tosa_mapping_op mbind Res_bind mret Res_ret].
    rewrite Hrest.
    cbn [mapM TosaArg_new tosa_mapping_op mbind Res_bind mret Res_ret].
    unfold lower_softmax. run_m. run_res.
    rewrite py_index_head, py_index_second. cbn.
    unfold with_tensor; cbn; rewrite app_nil_r; reflexivity.
Qed.

Lemma softmax_axis_errors_witness :
  lower_node empty_program None (softmax_along (ArgInt 2)) (fresh_state None false)
  = (Raise IndexError,
     with_tensor (fresh_state None false)
       (mk_tensor (NodeName "sm") (Some [2; 3]) (Some FP32)) false)
  /\ lower_node empty_program None (softmax_along (ArgFloat (float_half false)))
       (fresh_state None false)
     = (Raise TypeError,
        with_tensor (fresh_state None false)
          (mk_tensor (NodeName "sm") (Some [2; 3]) (Some FP32)) false).
Proof.
  split.
  - apply (proj1 (softmax_axis_errors empty_program None
                    (softmax_along (ArgInt 2)) (ref "x" FP32 [2; 3]) (ArgInt 2)
                    [ArgInt 0] _ (fresh_state None false)
                    eq_refl eq_refl eq_refl eq_refl) 2 eq_refl).
    right. cbn. lia.
  - apply (proj2 (softmax_axis_errors empty_program None
                    (softmax_along (ArgFloat (float_half false)))
                    (ref "x" FP32 [2; 3]) (ArgFloat (float_half false))
                    [ArgInt 0] _ (fresh_state None false)
                    eq_refl eq_refl eq_refl eq_refl) (float_half false) eq_refl).
Defined.

(** ** Output and placeholder nodes *)

Lemma find_tensor_name l nm t : find_tensor l nm = Some t -> t_name t = nm.
Proof.
  induction l as [|t0 l IH]; cbn [find_tensor]; [discriminate|].
  destruct (find_tensor l nm) as [t'|].
  - intros E. injection E as <-. apply IH. reflexivity.
  - destruct (decide (t_name t0 = nm)); [|discriminate].
    intros E. injection E as <-. assumption.
Qed.

Lemma find_tensor_declared fb nm :
  declared fb nm <-> exists t, find_tensor (tensors fb) nm = Some t.
Proof.
  unfold declared. generalize (tensors fb) as l. intros l. split.
  - intros [t [Hin Hn]]. induction l as [|t0 l IH]; [inversion Hin|].
    cbn [find_tensor]. apply elem_of_cons in Hin.
    destruct (find_tensor l nm) as [t'|] eqn:E; [eauto|].
    destruct Hin as [<- | Hin].
    + destruct (decide (t_name t = nm)); [eauto | contradiction].
    + destruct (IH Hin) as [t' Ht']. discriminate Ht'.
  - intros [t Hf]. exists t. split; [|exact (find_tensor_name _ _ _ Hf)].
    induction l as [|t0 l IH]; [discriminate Hf|].
    cbn [find_tensor] in Hf. destruct (find_tensor l nm) as [t'|].
    + right. apply IH. exact Hf.
    + destruct (decide (t_name t0 = nm)); [|discriminate Hf].
      injection Hf as <-. left.
Qed.

Lemma with_outputs_nil st : with_outputs st [] = st.
Proof.
  destruct st as [[pp ts ops ins outs ri ci] v tr fsys]. unfold with_outputs.
  cbn. rewrite app_nil_r. reflexivity.
Qed.

Lemma with_outputs_app st a b :
  with_outputs (with_outputs st a) b = with_outputs st (a ++ b).
Proof. unfold with_outputs. cbn. rewrite app_assoc. reflexivity. Qed.

Lemma mark_output_declared st o :
  declared (tosa_fb st) (NodeName (ref_name o)) ->
  mark_output o st = (Ok tt, with_outputs st [NodeName (ref_name o)]).
Proof.
  intros Hd. apply find_tensor_declared in Hd. destruct Hd as [t Ht].
  pose proof (find_tensor_name _ _ _ Ht) as Hn.
  unfold mark_output. open_state st. cbn in Ht. run_m. rewrite Ht.
  destruct t as [tn tsh tdt tda tf]. cbn in Hn. subst tn. reflexivity.
Qed.

Lemma mark_output_undeclared st o :
  ~ declared (tosa_fb st) (NodeName (ref_name o)) ->
  mark_output o st = (Raise KeyError, st).
Proof.
  intros Hd. unfold mark_output. open_state st. run_m.
  destruct (find_tensor ts (NodeName (ref_name o))) as [t|] eqn:E;
    [|reflexivity].
  exfalso. apply Hd. apply find_tensor_declared. exists t. exact E.
Qed.

Lemma mark_outputs_declared outs st :
  Forall (fun o => declared (tosa_fb st) (NodeName (ref_name o))) outs ->
  for_each outs mark_output st
  = (Ok tt, with_outputs st (map (fun o => NodeName (ref_name o)) outs)).
Proof.
  revert st. induction outs as [|o outs IH]; intros st Hall.
  - cbn. rewrite with_outputs_nil. reflexivity.
  - apply Forall_cons in Hall. destruct Hall as [Ho Hall].
    cbn [for_each]. unfold mbind, M_bind. rewrite (mark_output_declared _ _ Ho).
    rewrite IH by exact Hall. rewrite with_outputs_app. reflexivity.
Qed.

Lemma lower_node_output ep path node :
  node_op node = "output" -> lower_node ep path node = lower_output node.
Proof. intros H. unfold lower_node. rewrite H. reflexivity. Qed.

Lemma declared_with_outputs st names nm :
  declared (tosa_fb (with_outputs st names)) nm <-> declared (tosa_fb st) nm.
Proof. reflexivity. Qed.

Lemma mark_outputs_stop pre o post st :
  Forall (fun o => declared (tosa_fb st) (NodeName (ref_name o))) pre ->
  ~ declared (tosa_fb st) (NodeName (ref_name o)) ->
  for_each (pre ++ o :: post) mark_output st
  = (Raise KeyError,
     with_outputs st (map (fun o => NodeName (ref_name o)) pre)).
Proof.
  revert st. induction pre as [|p pre IH]; intros st Hall Hno.
  - cbn [app for_each map]. unfold mbind, M_bind.
    rewrite (mark_output_undeclared _ _ Hno), with_outputs_nil. reflexivity.
  - apply Forall_cons in Hall. destruct Hall as [Hp Hall].
    cbn [app for_each map]. unfold mbind, M_bind.
    rewrite (mark_output_declared _ _ Hp).
    rewrite IH by assumption. rewrite with_outputs_app. reflexivity.
Qed.

(** X13.  An output node marks the tensors named by its first operand as
    outputs of the module, in the order of the operand, looking each up
    among the declared tensors; it declares no tensor and appends no
    operator.  When every name is declared, all are marked; at the first
    name that is not declared the step stops with KeyError, and the
    names before it stay marked. *)
Theorem output_node_marks_declared_tensors ep path node outs rest st :
  node_op node = "output" ->
  node_args node = ArgNodes outs :: rest ->
  let names := map (fun o => NodeName (ref_name o)) in
  let is_declared o := declared (tosa_fb st) (NodeName (ref_name o)) in
  (Forall is_declared outs ->
   lower_node ep path node st = (Ok tt, with_outputs st (names outs)))
  /\ (forall pre o post,
        outs = pre ++ o :: post -> Forall is_declared pre -> ~ is_declared o ->
        lower_node ep path node st
        = (Raise KeyError, with_outputs st (names pre))).
Proof.
  intros Hop Hargs names is_declared.
  rewrite (lower_node_output _ _ _ Hop). unfold lower_output. rewrite Hargs.
  rewrite py_index_head. split.
  - intros Hall.
    exact (mark_outputs_declared outs st Hall).
  - intros pre o post -> Hall Hno.
    exact (mark_outputs_stop pre o post st Hall Hno).
Qed.

Lemma output_node_marks_declared_tensors_witness :
  lower_node empty_program None (output_node [ref "y" FP32 [2]; ref "y" FP32 [2]])
    state_declaring_y
  = (Ok tt, with_outputs state_declaring_y [NodeName "y"; NodeName "y"])
  /\ lower_node empty_program None
       (output_node [ref "y" FP32 [2]; ref "z" FP32 [2]; ref "y" FP32 [2]])
       state_declaring_y
     = (Raise KeyError, with_outputs state_declaring_y [NodeName "y"]).
Proof.
  set (st := state_declaring_y).
  assert (Hy : declared (tosa_fb st) (NodeName "y")).
  { eexists. split; [left|reflexivity]. }
  assert (Hz : ~ declared (tosa_fb st) (NodeName "z")).
  { intros [t [Hin Hn]]. apply elem_of_cons in Hin.
    destruct Hin as [-> | Hin]; [discriminate Hn | inversion Hin]. }
  split.
  - apply (output_node_marks_declared_tensors empty_program None
             (output_node [ref "y" FP32 [2]; ref "y" FP32 [2]])
             [ref "y" FP32 [2]; ref "y" FP32 [2]] [] st);
      [reflexivity|reflexivity|].
    repeat constructor; exact Hy.
  - apply (output_node_marks_declared_tensors empty_program None
             (output_node [ref "y" FP32 [2]; ref "z" FP32 [2]; ref "y" FP32 [2]])
             [ref "y" FP32 [2]; ref "z" FP32 [2]; ref "y" FP32 [2]] [] st
             eq_refl eq_refl)
      with (pre := [ref "y" FP32 [2]]) (o := ref "z" FP32 [2])
           (post := [ref "y" FP32 [2]]);
      [reflexivity | repeat constructor; exact Hy | exact Hz].
Defined.

(** X14.  A placeholder node (name equal to target, no default value)
    declares exactly one tensor under the node's name, shape and element
    type and appends no operator.  When the name is the key of a
    parameter, or else of a buffer, of the exported program, the tensor
    is a constant holding the values stored in the state dictionary under
    the parameter's (buffer's) stored name, and it is not an input of the
    module; a parameter takes precedence over a buffer of the same name.
    Otherwise the tensor is an input of the module whose data file is
    the node's name followed by ".npy". *)
Theorem placeholder_lowering ep path node st :
  node_op node = "placeholder" ->
  node_target node = TargetStr (node_name node) ->
  node_args node = [] ->
  (forall p vals,
     stored_name ep (node_name node) = Some p ->
     state_dict ep !! p = Some (TorchTensor vals) ->
     lower_node ep path node st
     = (Ok tt, with_tensor st (const_tensor_of node vals) false))
  /\ (stored_name ep (node_name node) = None ->
      lower_node ep path node st
      = (Ok tt, with_tensor st (input_tensor_of node) true))
  /\ (forall p, inputs_to_parameters ep !! node_name node = Some p ->
                stored_name ep (node_name node) = Some p).
Proof.
  intros Hop Ht Ha. rewrite (lower_node_placeholder _ _ _ Hop).
  unfold lower_placeholder, stored_name. rewrite Ht, Ha.
  rewrite bool_decide_eq_true_2 by reflexivity.
  split; [|split].
  - intros p vals Hs Hv.
    assert (E : add_stored_const ep p (TosaArg_of_ref (node_ref node))
                  (node_name node) st
                = (Ok tt, with_tensor st (const_tensor_of node vals) false)).
    { unfold add_stored_const. open_state st. run_m. rewrite Hv.
      unfold with_tensor. cbn. rewrite app_nil_r. reflexivity. }
    destruct (inputs_to_parameters ep !! node_name node) as [q|].
    + injection Hs as ->. exact E.
    + rewrite Hs. exact E.
  - intros Hs.
    destruct (inputs_to_parameters ep !! node_name node) as [q|];
      [discriminate Hs|].
    rewrite Hs. reflexivity.
  - intros p ->. reflexivity.
Qed.

Lemma placeholder_lowering_witness :
  lower_node program_with_state None (placeholder_node "w" []) (fresh_state None false)
  = (Ok tt, with_tensor (fresh_state None false)
              (const_tensor_of (placeholder_node "w" [])
                 [PyInt 1; PyInt 2; PyInt 3; PyInt 4]) false)
  /\ lower_node program_with_state None (placeholder_node "m" [])
       (fresh_state None false)
     = (Ok tt, with_tensor (fresh_state None false)
                 (const_tensor_of (placeholder_node "m" [])
                    [PyInt 0; PyInt 0; PyInt 0; PyInt 0]) false)
  /\ lower_node program_with_state None (placeholder_node "x" [])
       (fresh_state None false)
     = (Ok tt, with_tensor (fresh_state None false)
                 (input_tensor_of (placeholder_node "x" [])) true).
Proof.
  split; [|split].
  - apply (placeholder_lowering program_with_state None (placeholder_node "w" [])
             (fresh_state None false) eq_refl eq_refl eq_refl)
      with (p := "fc.weight"); reflexivity.
  - apply (placeholder_lowering program_with_state None (placeholder_node "m" [])
             (fresh_state None false) eq_refl eq_refl eq_refl)
      with (p := "bn.mean"); reflexivity.
  - apply (placeholder_lowering program_with_state None (placeholder_node "x" [])
             (fresh_state None false) eq_refl eq_refl eq_refl); reflexivity.
Defined.

(** X15.  A placeholder that cannot be declared leaves the module as it
    was: a default value (any argument) raises AssertionError("Can't
    handle default input values"); a parameter or buffer whose stored
    name has no entry in the state dictionary raises KeyError; a stored
    value that is not a tensor raises AssertionError("Expect Attr to be
    tensor"). *)
Theorem placeholder_errors ep path node st :
  node_op node = "placeholder" ->
  node_target node = TargetStr (node_name node) ->
  (node_args node <> [] ->
   lower_node ep path node st
   = (Raise (AssertionError "Can't handle default input values"), st))
  /\ (forall p,
        node_args node = [] ->
        stored_name ep (node_name node) = Some p ->
        state_dict ep !! p = None ->
        lower_node ep path node st = (Raise KeyError, st))
  /\ (forall p,
        node_args node = [] ->
        stored_name ep (node_name node) = Some p ->
        state_dict ep !! p = Some NotATensor ->
        lower_node ep path node st
        = (Raise (AssertionError "Expect Attr to be tensor"), st)).
Proof.
  intros Hop Ht. rewrite (lower_node_placeholder _ _ _ Hop).
  unfold lower_placeholder, stored_name. rewrite Ht.
  rewrite bool_decide_eq_true_2 by reflexivity.
  split; [|split].
  - intros Ha. destruct (node_args node); [contradiction|]. reflexivity.
  - intros p Ha Hs Hv. rewrite Ha.
    assert (E : add_stored_const ep p (TosaArg_of_ref (node_ref node))
                  (node_name node) st = (Raise KeyError, st)).
    { unfold add_stored_const. run_m. rewrite Hv. reflexivity. }
    destruct (inputs_to_parameters ep !! node_name node) as [q|].
    + injection Hs as ->. exact E.
    + rewrite Hs. exact E.
  - intros p Ha Hs Hv. rewrite Ha.
    assert (E : add_stored_const ep p (TosaArg_of_ref (node_ref node))
                  (node_name node) st
                = (Raise (AssertionError "Expect Attr to be tensor"), st)).
    { unfold add_stored_const. run_m. rewrite Hv. reflexivity. }
    destruct (inputs_to_parameters ep !! node_name node) as [q|].
    + injection Hs as ->. exact E.
    + rewrite Hs. exact E.
Qed.

Lemma placeholder_errors_witness :
  lower_node program_with_state None (placeholder_node "x" [ArgInt 0])
    (fresh_state None false)
  = (Raise (AssertionError "Can't handle default input values"),
     fresh_state None false)
  /\ lower_node program_with_state None (placeholder_node "lost" [])
       (fresh_state None false)
     = (Raise KeyError, fresh_state None false)
  /\ lower_node program_with_state None (placeholder_node "odd" [])
       (fresh_state None false)
     = (Raise (AssertionError "Expect Attr to be tensor"), fresh_state None false).
Proof.
  split; [|split].
  - apply (placeholder_errors program_with_state None
             (placeholder_node "x" [ArgInt 0]) (fresh_state None false)
             eq_refl eq_refl).
    discriminate.
  - apply (placeholder_errors program_with_state None
             (placeholder_node "lost" []) (fresh_state None false)
             eq_refl eq_refl) with (p := "fc.lost"); reflexivity.
  - apply (placeholder_errors program_with_state None
             (placeholder_node "odd" []) (fresh_state None false)
             eq_refl eq_refl) with (p := "fc.odd"); reflexivity.
Defined.

(** ** Invariants of the loop: the module only grows *)

#[global] Instance only_appends_preorder : PreOrder only_appends.
Proof.
  split.
  - intros st. unfold only_appends. repeat split; reflexivity.
  - intros a b c (T1 & O1 & I1 & U1 & R1 & C1 & D1 & P1 & V1 & F1)
                 (T2 & O2 & I2 & U2 & R2 & C2 & D2 & P2 & V2 & F2).
    unfold only_appends.
    repeat split; try (etransitivity; eassumption); try lia; congruence.
Qed.

Ltac appends_step :=
  let st := fresh "st" in
  intros st; open_state st; unfold only_appends; run_m;
  repeat split;
  first [ reflexivity | apply prefix_app_r; reflexivity | lia
        | match goal with |- context [match ?x with _ => _ end] =>
            destruct x; first [reflexivity | lia] end ].

Lemma lower_node_only_appends ep path node :
  preserves only_appends (lower_node ep path node).
Proof.
  apply (preserves_lower_node only_appends).
  - intros nm shp dt _. appends_step.
  - intros shp dt. appends_step.
  - intros shp dt vals nm _. appends_step.
  - intros tens _. appends_step.
  - intros tens. appends_step.
  - intros op ins outs attr _. appends_step.
  - intros e. appends_step.
Qed.

(** X16.  Processing the nodes only ever appends: after any node, and
    after any run of the loop over a list of nodes, whether it returned
    or raised, the tensors, the operators, the inputs, the outputs and
    the trace of before are each a prefix of those of after, the two
    naming counters have not decreased, and the path prefix, the
    logging level and the file system are unchanged.  What a node that fails midway had
    already added stays in the module. *)
Theorem node_loop_only_appends ep path nodes st :
  only_appends st (for_each nodes (lower_node ep path) st).2.
Proof.
  apply (preserves_for_each only_appends nodes (lower_node ep path)).
  intros node. apply lower_node_only_appends.
Qed.

(** ** Invariants of the loop: the names of the intermediates *)

Lemma layers_distinct_extend (fb fb' : TosaSerializer) (t : Tensor) :
  tensors fb' = tensors fb ++ [t] ->
  (forall k, t_name t = LayerName k ->
             forall t', t' ∈ tensors fb -> t_name t' <> LayerName k) ->
  layers_distinct fb -> layers_distinct fb'.
Proof.
  intros Et Hnew Hinv i j t1 t2 k H1 H2 N1 N2. rewrite Et in H1, H2.
  apply lookup_app_Some in H1. apply lookup_app_Some in H2.
  destruct H1 as [H1 | [L1 H1]]; destruct H2 as [H2 | [L2 H2]].
  - exact (Hinv i j t1 t2 k H1 H2 N1 N2).
  - apply list_lookup_singleton_Some in H2. destruct H2 as [_ <-].
    exfalso. apply (Hnew k N2 t1); [|exact N1].
    apply list_elem_of_lookup. exists i. exact H1.
  - apply list_lookup_singleton_Some in H1. destruct H1 as [_ <-].
    exfalso. apply (Hnew k N1 t2); [|exact N2].
    apply list_elem_of_lookup. exists j. exact H2.
  - apply list_lookup_singleton_Some in H1, H2.
    destruct H1 as [E1 _]. destruct H2 as [E2 _]. lia.
Qed.

Lemma keeps_distinct_same_tensors {A} (m : M A) :
  (forall st, tensors (tosa_fb (m st).2) = tensors (tosa_fb st)
              /\ currResultIdx (tosa_fb (m st).2) = currResultIdx (tosa_fb st)) ->
  preserves keeps_layers_distinct m.
Proof.
  intros H st [Hb Hd]. destruct (H st) as [Et Ec]. split.
  - apply (keeps_layers_same_tensors m H st Hb).
  - unfold layers_distinct. rewrite Et. exact Hd.
Qed.

Lemma keeps_distinct_other_name (fb fb' : TosaSerializer) (t : Tensor) :
  (forall k, t_name t <> LayerName k) ->
  tensors fb' = tensors fb ++ [t] ->
  currResultIdx fb' = currResultIdx fb ->
  layers_below_counter fb /\ layers_distinct fb ->
  layers_below_counter fb' /\ layers_distinct fb'.
Proof.
  intros Hnm Et Ec [Hb Hd]. split.
  - refine (layers_below_extend _ _ [t] Et _ _ Hb); [rewrite Ec; reflexivity|].
    constructor; [|constructor]. intros k E. destruct (Hnm k E).
  - refine (layers_distinct_extend _ _ t Et _ Hd).
    intros k E. destruct (Hnm k E).
Qed.

#[global] Instance keeps_layers_distinct_preorder : PreOrder keeps_layers_distinct.
Proof.
  split; [intros st H; exact H|].
  intros a b c Hab Hbc H. exact (Hbc (Hab H)).
Qed.

Lemma lower_node_keeps_layers_distinct ep path node :
  preserves keeps_layers_distinct (lower_node ep path node).
Proof.
  apply (preserves_lower_node keeps_layers_distinct).
  - intros nm shp dt Hnm st.
    refine (keeps_distinct_other_name _ _ (mk_tensor nm shp dt) Hnm _ _);
      reflexivity.
  - intros shp dt st [Hb Hd]. split.
    + exact (keeps_layers_addIntermediate shp dt st Hb).
    + open_state st.
      refine (layers_distinct_extend _ _ (mk_tensor (LayerName ri) shp dt)
                _ _ Hd); [reflexivity|].
      intros k E t' Hin N. cbn in E. injection E as <-.
      specialize (Hb t' ri Hin N). cbn in Hb. lia.
  - intros shp dt vals nm Hnm st. open_state st. destruct nm as [n|].
    + refine (keeps_distinct_other_name _ _
                {| t_name := n; t_shape := shp; t_dtype := dt;
                   t_data := Some vals; t_placeholderFilename := None |} _ _ _);
        [|reflexivity|reflexivity].
      intros k E. cbn in E. subst n. destruct (Hnm k eq_refl).
    + refine (keeps_distinct_other_name _ _
                {| t_name := ConstName ci; t_shape := shp; t_dtype := dt;
                   t_data := Some vals; t_placeholderFilename := None |} _ _ _);
        [|reflexivity|reflexivity].
      intros k E. discriminate E.
  - intros tens Hnm st.
    refine (keeps_distinct_other_name _ _ tens Hnm _ _); reflexivity.
  - intros tens. apply keeps_distinct_same_tensors. intros st. split; reflexivity.
  - intros op ins outs attr _. apply keeps_distinct_same_tensors.
    intros st. split; reflexivity.
  - intros e. apply keeps_distinct_same_tensors. intros st. split; reflexivity.
Qed.

(** X17.  In every module that the loop builds from a new serializer,
    whatever the nodes and whether the loop returned or raised, no two
    declared tensors carry the name of the same intermediate: the
    intermediates declared by the lowering rules (the transposed and
    reshaped operands, the partial results) never overwrite one
    another. *)
Theorem intermediates_have_distinct_names ep path verbose nodes :
  layers_distinct
    (tosa_fb (for_each nodes (lower_node ep path) (fresh_state path verbose)).2).
Proof.
  apply (preserves_for_each keeps_layers_distinct nodes (lower_node ep path)).
  - intros node. apply lower_node_keeps_layers_distinct.
  - split.
    + apply fresh_module_layers_below.
    + intros i j t1 t2 k H1. destruct i; discriminate H1.
Qed.

(** ** The exceptions of the lowering rules *)

Section Raises.

Variable P : PyError -> Prop.

Lemma raises_ret {A} (a : A) : raises_in P (mret a).
Proof. intros st e H. discriminate H. Qed.

Lemma raises_raise {A} (e : PyError) : P e -> raises_in P (@raise A e).
Proof. intros HP st e' H. cbn in H. congruence. Qed.

Lemma raises_lift {A} (r : Res A) : res_raises_in P r -> raises_in P (lift r).
Proof. intros Hr st e H. exact (Hr e H). Qed.

Lemma raises_bind {A B} (m : M A) (k : A -> M B) :
  raises_in P m -> (forall a, raises_in P (k a)) -> raises_in P (m ≫= k).
Proof.
  intros Hm Hk st e. specialize (Hm st). unfold mbind, M_bind.
  destruct (m st) as [[a|e'] st1]; cbn [fst] in *.
  - apply Hk.
  - intros H. injection H as <-. apply Hm. reflexivity.
Qed.

Lemma raises_for_each {A} (l : list A) (body : A -> M unit) :
  (forall x, raises_in P (body x)) -> raises_in P (for_each l body).
Proof.
  intros Hb. induction l as [|x l IH]; cbn [for_each].
  - apply raises_ret.
  - apply raises_bind; [apply Hb | intros _; exact IH].
Qed.

Lemma res_raises_bind {A B} (r : Res A) (k : A -> Res B) :
  res_raises_in P r -> (forall a, res_raises_in P (k a)) ->
  res_raises_in P (r ≫= k).
Proof.
  intros Hr Hk e. destruct r as [a|e']; cbn.
  - apply Hk.
  - intros H. injection H as <-. apply Hr. reflexivity.
Qed.

Lemma res_raises_mapM {A B} (f : A -> Res B) (l : list A) :
  (forall a, res_raises_in P (f a)) -> res_raises_in P (mapM f l).
Proof.
  intros Hf. induction l as [|a l IH]; cbn [mapM]; [intros e H; discriminate H|].
  apply res_raises_bind; [apply Hf | intros b].
  apply res_raises_bind; [exact IH | intros bs e H; discriminate H].
Qed.

End Raises.

Lemma res_py_index {A} (l : list A) i : res_raises_in rule_error (py_index l i).
Proof.
  intros e. unfold py_index, from_option.
  repeat case_match; intros Hraise; try discriminate Hraise;
    injection Hraise as <-; exact I.
Qed.

Lemma res_py_setitem {A} (l : list A) i x :
  res_raises_in rule_error (py_setitem l i x).
Proof.
  intros e. unfold py_setitem.
  repeat case_match; intros Hraise; try discriminate Hraise;
    injection Hraise as <-; exact I.
Qed.

Lemma res_as_tuple s : res_raises_in rule_error (as_tuple s).
Proof. intros e. destruct s; intros H; [discriminate H | injection H as <-; exact I]. Qed.

Lemma res_unpack3 {A} (l : list A) : res_raises_in rule_error (unpack3 l).
Proof.
  intros e. unfold unpack3.
  repeat case_match; intros Hraise; try discriminate Hraise;
    injection Hraise as <-; exact I.
Qed.

Lemma res_unpack7 {A} (l : list A) : res_raises_in rule_error (unpack7 l).
Proof.
  intros e. unfold unpack7.
  repeat case_match; intros Hraise; try discriminate Hraise;
    injection Hraise as <-; exact I.
Qed.

Lemma res_unpack9 {A} (l : list A) : res_raises_in rule_error (unpack9 l).
Proof.
  intros e. unfold unpack9.
  repeat case_match; intros Hraise; try discriminate Hraise;
    injection Hraise as <-; exact I.
Qed.

Lemma res_py_int x : res_raises_in rule_error (py_int x).
Proof.
  intros e. unfold py_int.
  repeat case_match; intros Hraise; try discriminate Hraise;
    injection Hraise as <-; exact I.
Qed.

Lemma res_gt_1 x : res_raises_in rule_error (gt_1 x).
Proof.
  intros e. unfold gt_1.
  repeat case_match; intros Hraise; try discriminate Hraise;
    injection Hraise as <-; exact I.
Qed.

Lemma res_gather s order : res_raises_in rule_error (gather s order).
Proof.
  unfold gather. apply res_raises_bind; [apply res_as_tuple | intros l].
  apply res_raises_mapM. intros i. apply res_py_index.
Qed.

Lemma res_set_dim_to_1 l d : res_raises_in rule_error (set_dim_to_1 l d).
Proof.
  unfold set_dim_to_1. destruct d as [[z|f]|]; try apply res_py_setitem;
    intros e H; injection H as <-; exact I.
Qed.

Ltac rz_res :=
  lazymatch goal with
  | |- res_raises_in _ (py_index _ _) => apply res_py_index
  | |- res_raises_in _ (as_tuple _) => apply res_as_tuple
  | |- res_raises_in _ (unpack3 _) => apply res_unpack3
  | |- res_raises_in _ (unpack7 _) => apply res_unpack7
  | |- res_raises_in _ (unpack9 _) => apply res_unpack9
  | |- res_raises_in _ (py_int _) => apply res_py_int
  | |- res_raises_in _ (gt_1 _) => apply res_gt_1
  | |- res_raises_in _ (gather _ _) => apply res_gather
  | |- res_raises_in _ (set_dim_to_1 _ _) => apply res_set_dim_to_1
  | |- res_raises_in _ (mapM (py_index _) _) =>
      apply res_raises_mapM; intros ?; apply res_py_index
  end.

Ltac rz_never := let H := fresh in intros ? ? H; discriminate H.

Ltac rz_prim :=
  lazymatch goal with
  | |- raises_in _ (mret _) => apply raises_ret
  | |- raises_in _ (raise _) => apply raises_raise; exact I
  | |- raises_in _ (assert_ ?c _) =>
      destruct c; [apply raises_ret | apply raises_raise; exact I]
  | |- raises_in _ (lift _) => apply raises_lift; rz_res
  | |- raises_in _ (addOperator _ _ _ _) => rz_never
  | |- raises_in _ (addTensor _ _ _) => rz_never
  | |- raises_in _ (addIntermediate _ _) => rz_never
  | |- raises_in _ (addConst _ _ _ _) => rz_never
  | |- raises_in _ (mbind _ _) => apply raises_bind; [|intros ?]
  | |- raises_in _ (for_each _ _) => apply raises_for_each; intros ?
  | |- raises_in _ (match ?x with _ => _ end) => destruct x
  | |- raises_in _ (let _ := _ in _) => cbv zeta
  | |- raises_in _ ((fun _ => _) _) => cbv beta
  end.

Lemma raises_promote_shape {A} `{TensorLike A} (arg : A) p dt :
  raises_in rule_error (promote_shape arg p dt).
Proof. unfold promote_shape. repeat rz_prim. Qed.

Lemma raises_check_dims s order : raises_in rule_error (check_dims s order).
Proof. unfold check_dims. repeat rz_prim. Qed.

Lemma raises_transpose_helper input order dt :
  raises_in rule_error (transpose_helper input order dt).
Proof. unfold transpose_helper. repeat rz_prim. apply raises_check_dims. Qed.

Ltac rz_call :=
  lazymatch goal with
  | |- raises_in _ (promote_shape _ _ _) => apply raises_promote_shape
  | |- raises_in _ (check_dims _ _) => apply raises_check_dims
  | |- raises_in _ (transpose_helper _ _ _) => apply raises_transpose_helper
  | |- _ => rz_prim
  end.

Ltac rz := repeat rz_call.

Lemma raises_lower_mapped op attr inputs outp :
  raises_in rule_error (lower_mapped op attr inputs outp).
Proof. unfold lower_mapped. rz. Qed.

Lemma raises_lower_addmm node inputs outp :
  raises_in rule_error (lower_addmm node inputs outp).
Proof. unfold lower_addmm. rz. Qed.

Lemma raises_lower_permute_copy inputs outp :
  raises_in rule_error (lower_permute_copy inputs outp).
Proof. unfold lower_permute_copy. rz. Qed.

Lemma raises_lower_hardtanh inputs outp :
  raises_in rule_error (lower_hardtanh inputs outp).
Proof. unfold lower_hardtanh. rz. Qed.

Lemma raises_lower_convolution inputs outp :
  raises_in rule_error (lower_convolution inputs outp).
Proof. unfold lower_convolution. rz. Qed.

Lemma raises_lower_div inputs outp : raises_in rule_error (lower_div inputs outp).
Proof. unfold lower_div. rz. Qed.

Lemma raises_lower_batch_norm node inputs outp :
  raises_in rule_error (lower_batch_norm node inputs outp).
Proof. unfold lower_batch_norm. rz. Qed.

Lemma raises_lower_avg_pool2d inputs outp :
  raises_in rule_error (lower_avg_pool2d inputs outp).
Proof. unfold lower_avg_pool2d. rz. Qed.

Lemma raises_lower_softmax inputs outp :
  raises_in rule_error (lower_softmax inputs outp).
Proof. unfold lower_softmax. rz. Qed.

Lemma raises_lower_getitem inputs outp :
  raises_in rule_error (lower_getitem inputs outp).
Proof. unfold lower_getitem. rz. Qed.

Lemma supported_target node :
  is_node_supported node = true ->
  node_op node = "call_function"
  /\ exists f, node_target node = TargetFn f
               /\ forall qualname, f <> other_callable qualname.
Proof.
  unfold is_node_supported. intros H. apply andb_prop in H.
  destruct H as [Hop Hin]. apply String.eqb_eq in Hop.
  apply bool_decide_eq_true in Hin. split; [exact Hop|].
  cbn [map] in Hin.
  repeat (apply elem_of_cons in Hin; destruct Hin as [-> | Hin];
          [eexists; split; [reflexivity | discriminate]|]).
  inversion Hin.
Qed.

Lemma unsupported_target node :
  node_op node = "call_function" -> is_node_supported node = false ->
  tosa_mapping_op (node_target node) = None
  /\ (forall f, node_target node = TargetFn f ->
                exists qualname, f = other_callable qualname).
Proof.
  unfold is_node_supported. intros Hop H. rewrite Hop in H.
  cbn [String.eqb Ascii.eqb Bool.eqb andb] in H.
  apply bool_decide_eq_false in H. cbn [map] in H.
  destruct (node_target node) as [s|f]; [split; [reflexivity | discriminate]|].
  destruct f; try solve [exfalso; apply H; repeat first [left | right]].
  split; [reflexivity|]. intros f E. injection E as <-. eexists; reflexivity.
Qed.

(** X18.  The support check of the partitioner and the dispatch of the
    loop agree on call_function nodes whose operands resolve.  A node
    that [is_node_supported] accepts reaches a lowering rule: whatever
    it raises is an IndexError, TypeError, ValueError, OverflowError or
    AssertionError of that rule, never RuntimeError.  A node that it
    rejects has its output tensor declared and is then refused with
    RuntimeError("Unknown operator"); no operator is appended. *)
Theorem support_check_agrees_with_dispatch ep path node inputs st :
  node_op node = "call_function" ->
  mapM TosaArg_new (node_args node) = Ok inputs ->
  (is_node_supported node = true ->
   raises_in rule_error (lower_node ep path node))
  /\ (is_node_supported node = false ->
      lower_node ep path node st
      = (Raise (RuntimeError "Unknown operator"),
         with_tensor st
           (mk_tensor (NodeName (node_name node)) (Some (node_shape node))
                      (Some (node_dtype node))) false)).
Proof.
  intros Hop Hargs. rewrite (lower_node_call_function _ _ _ Hop).
  unfold lower_call_function. rewrite Hargs. split.
  - intros Hsup. destruct (supported_target node Hsup) as [_ [f [Et Hf]]].
    rewrite Et. apply raises_bind; [rz_never | intros inputs'].
    apply raises_bind; [rz_never | intros _]. cbv zeta.
    destruct f; cbn [tosa_mapping_op];
        first [ apply raises_lower_mapped | apply raises_lower_addmm
              | apply raises_lower_permute_copy | apply raises_lower_hardtanh
              | apply raises_lower_convolution | apply raises_lower_div
              | apply raises_lower_batch_norm | apply raises_lower_avg_pool2d
              | apply raises_lower_softmax | apply raises_lower_getitem
              | destruct (Hf qualname eq_refl) ].
  - intros Hsup. destruct (unsupported_target node Hop Hsup) as [Em Hf].
    open_state st. run_m. run_res. rewrite Em.
    unfold with_tensor, mk_tensor. cbn. rewrite app_nil_r.
    destruct (node_target node) as [s|f]; [reflexivity|].
    destruct (Hf f eq_refl) as [q ->]. reflexivity.
Qed.

Lemma support_check_agrees_with_dispatch_witness :
  rule_error (AssertionError "Wrong shape order length")
  /\ lower_node empty_program None unsupported_call (fresh_state None false)
     = (Raise (RuntimeError "Unknown operator"),
        with_tensor (fresh_state None false)
          (mk_tensor (NodeName "relu") (Some [4]) (Some FP32)) false).
Proof.
  split.
  - refine (proj1 (support_check_agrees_with_dispatch empty_program None
                     conv1d_node _ (fresh_state None false) eq_refl eq_refl)
                  eq_refl (fresh_state None false) _ _).
    vm_compute. reflexivity.
  - exact (proj2 (support_check_agrees_with_dispatch empty_program None
                    unsupported_call _ (fresh_state None false) eq_refl eq_refl)
                 eq_refl).
Defined.

(** ** The whole run *)

Lemma for_each_app {A} (l1 l2 : list A) (body : A -> M unit) st :
  for_each (l1 ++ l2) body st
  = match for_each l1 body st with
    | (Ok _, st1) => for_each l2 body st1
    | (Raise e, st1) => (Raise e, st1)
    end.
Proof.
  revert st. induction l1 as [|x l1 IH]; intros st; [reflexivity|].
  cbn [app for_each]. unfold mbind, M_bind.
  destruct (body x st) as [[[]|e] st1]; [apply IH | reflexivity].
Qed.

Lemma debug_tosa_path_without_entry l d :
  Forall (fun s => key s <> "debug_tosa_path") l -> debug_tosa_path l d = Ok d.
Proof.
  revert d. induction l as [|s l IH]; intros d Hall; [reflexivity|].
  apply Forall_cons in Hall. destruct Hall as [Hs Hall].
  cbn [debug_tosa_path]. apply String.eqb_neq in Hs. rewrite Hs.
  apply IH. exact Hall.
Qed.

Lemma debug_tosa_path_skips before rest d :
  Forall decodable before ->
  exists d', debug_tosa_path (before ++ rest) d = debug_tosa_path rest d'.
Proof.
  revert d. induction before as [|s before IH]; intros d Hall.
  - exists d. reflexivity.
  - apply Forall_cons in Hall. destruct Hall as [Hs Hall].
    cbn [app debug_tosa_path].
    destruct (String.eqb_spec (key s) "debug_tosa_path") as [Ek | Ek].
    + unfold bytes_decode. rewrite (Hs Ek). cbn [mbind Res_bind].
      apply IH. exact Hall.
    + apply IH. exact Hall.
Qed.

(** X19.  The debug path is taken from the compile specification by
    key, and every value under the key is decoded where it stands.
    Without an entry of key "debug_tosa_path" the path stays absent
    (the default is kept).  When the values of the entries of that key
    are well-formed UTF-8, the path is the decoded value of the last
    such entry, whatever stands before it.  The first entry of that key
    whose value is not well-formed UTF-8 raises UnicodeDecodeError,
    whatever stands after it. *)
Theorem debug_tosa_path_is_last_entry compile_spec default :
  (Forall (fun s => key s <> "debug_tosa_path") compile_spec ->
   debug_tosa_path compile_spec default = Ok default)
  /\ (forall before v after,
        compile_spec = before ++ debug_entry v :: after ->
        Forall decodable before ->
        well_formed_utf8 v = true ->
        Forall (fun s => key s <> "debug_tosa_path") after ->
        debug_tosa_path compile_spec default = Ok (Some (string_of_list_byte v)))
  /\ (forall before v after,
        compile_spec = before ++ debug_entry v :: after ->
        Forall decodable before ->
        well_formed_utf8 v = false ->
        debug_tosa_path compile_spec default = Raise UnicodeDecodeError).
Proof.
  split; [apply debug_tosa_path_without_entry|]. split.
  - intros before v after -> Hbefore Hv Hafter.
    destruct (debug_tosa_path_skips before (debug_entry v :: after) default
                Hbefore) as [d' ->].
    cbn [debug_tosa_path debug_entry key value]. rewrite String.eqb_refl.
    unfold bytes_decode. rewrite Hv. cbn [mbind Res_bind].
    apply debug_tosa_path_without_entry. exact Hafter.
  - intros before v after -> Hbefore Hv.
    destruct (debug_tosa_path_skips before (debug_entry v :: after) default
                Hbefore) as [d' ->].
    cbn [debug_tosa_path debug_entry key value]. rewrite String.eqb_refl.
    unfold bytes_decode. rewrite Hv. reflexivity.
Qed.

Lemma debug_tosa_path_is_last_entry_witness :
  debug_tosa_path [{| key := "other"; value := utf8 "v" |}] None = Ok None
  /\ debug_tosa_path
       [debug_entry (utf8 "first/"); {| key := "other"; value := [xff] |};
        debug_entry (utf8 "last/"); {| key := "other"; value := utf8 "w" |}] None
     = Ok (Some "last/")
  /\ debug_tosa_path
       [debug_entry (utf8 "first/"); debug_entry [xc3; x28];
        debug_entry (utf8 "last/")] None
     = Raise UnicodeDecodeError.
Proof.
  assert (Hfirst : Forall decodable [debug_entry (utf8 "first/")])
    by (repeat constructor).
  split; [|split].
  - apply (debug_tosa_path_is_last_entry
             [{| key := "other"; value := utf8 "v" |}] None).
    repeat constructor. discriminate.
  - apply (proj1 (proj2 (debug_tosa_path_is_last_entry _ None))
             [debug_entry (utf8 "first/"); {| key := "other"; value := [xff] |}]
             (utf8 "last/") [{| key := "other"; value := utf8 "w" |}] eq_refl).
    + repeat constructor. intros H; discriminate H.
    + reflexivity.
    + repeat constructor. discriminate.
  - apply (proj2 (proj2 (debug_tosa_path_is_last_entry _ None))
             [debug_entry (utf8 "first/")] [xc3; x28]
             [debug_entry (utf8 "last/")] eq_refl Hfirst).
    reflexivity.
Defined.

Section WholeRunFacts.

Variable vela : TosaSerializer -> Res npz.
Variable files : FileSystem.

Lemma node_loop_keeps_environment ep path nodes st :
  TOSA_DBG_VERBOSE (for_each nodes (lower_node ep path) st).2
  = TOSA_DBG_VERBOSE st
  /\ fs (for_each nodes (lower_node ep path) st).2 = fs st.
Proof.
  pose proof (preserves_for_each only_appends nodes (lower_node ep path)
                (lower_node_only_appends ep path) st) as H.
  split; apply H.
Qed.

(** X20.  [preprocess] stops at the first node that raises: the nodes
    after it are not processed, the final debug dump is not made, the
    external compiler is not started, and the exception of the node is
    the exception of [preprocess], with the module as the node left
    it. *)
Theorem preprocess_stops_at_first_failing_node verbose ep compile_spec path
    before node after st1 e st2 :
  debug_tosa_path compile_spec None = Ok path ->
  graph_nodes ep = before ++ node :: after ->
  for_each before (lower_node ep path) (loop_start files path verbose)
  = (Ok tt, st1) ->
  lower_node ep path node st1 = (Raise e, st2) ->
  preprocess vela files verbose ep compile_spec = (Raise e, st2).
Proof.
  intros Hpath Hnodes Hbefore Hnode. rewrite preprocess_unfold, Hpath.
  unfold mbind at 1. unfold M_bind.
  rewrite Hnodes, for_each_app, Hbefore. cbn [for_each].
  unfold mbind at 1. unfold M_bind. rewrite Hnode. reflexivity.
Qed.

(** The dump under a path, case by case. *)
Lemma dbg_tosa_dump_cases p st :
  let info := if TOSA_DBG_VERBOSE st
              then [Logged INFO (EmittingDebugOutputTo (Some p))] else [] in
  (dump_allowed (fs st) p ->
   dbg_tosa_dump (Some p) st
   = (Ok tt, with_trace st (dump_trace (TOSA_DBG_VERBOSE st) p (tosa_fb st))))
  /\ (p = "" ->
      dbg_tosa_dump (Some p) st = (Raise FileNotFoundError, with_trace st info))
  /\ (forall e, p <> "" -> makedirs_error (fs st) p = Some e ->
                dbg_tosa_dump (Some p) st = (Raise e, with_trace st info))
  /\ (forall e, p <> "" -> makedirs_error (fs st) p = None ->
                open_error (fs st) (String.append p "output.tosa") = Some e ->
                dbg_tosa_dump (Some p) st
                = (Raise e, with_trace st (info ++ [Makedirs p])))
  /\ (forall e, p <> "" -> makedirs_error (fs st) p = None ->
                open_error (fs st) (String.append p "output.tosa") = None ->
                open_error (fs st) (String.append p "desc.json") = Some e ->
                dbg_tosa_dump (Some p) st
                = (Raise e,
                   with_trace st
                     (info ++ [Makedirs p;
                               FileWritten (String.append p "output.tosa")
                                           (Serialized (tosa_fb st))]))).
Proof.
  intros info. unfold info. destruct st as [fb v tr fsys].
  cbn [fs TOSA_DBG_VERBOSE tosa_fb].
  unfold dbg_tosa_dump, os_makedirs, write_file, with_trace, dump_trace.
  split; [|split; [|split; [|split]]].
  - intros (Hp & Hmk & Ho1 & Ho2). apply String.eqb_neq in Hp.
    destruct v; run_m; rewrite Hp, Hmk; run_m; rewrite Ho1; run_m; rewrite Ho2;
      rewrite <- ?app_assoc; reflexivity.
  - intros ->. destruct v; run_m; rewrite ?app_nil_r; reflexivity.
  - intros e Hp Hmk. apply String.eqb_neq in Hp.
    destruct v; run_m; rewrite Hp, Hmk; rewrite ?app_nil_r; reflexivity.
  - intros e Hp Hmk Ho1. apply String.eqb_neq in Hp.
    destruct v; run_m; rewrite Hp, Hmk; run_m; rewrite Ho1;
      rewrite <- ?app_assoc; reflexivity.
  - intros e Hp Hmk Ho1 Ho2. apply String.eqb_neq in Hp.
    destruct v; run_m; rewrite Hp, Hmk; run_m; rewrite Ho1; run_m; rewrite Ho2;
      rewrite <- ?app_assoc; reflexivity.
Qed.

Lemma vela_compile_run st :
  vela_compile vela st
  = (data ← vela (tosa_fb st); Packager.package data, st).
Proof.
  unfold vela_compile. destruct st as [fb v tr fsys]. run_m.
  destruct (vela fb) as [data|e]; reflexivity.
Qed.

(** X21.  When the debug path is decoded and every node is lowered:
    without a debug path, [preprocess] hands the module the loop has
    built to the external compiler and returns the package of the
    archive that the compiler leaves, and nothing is dumped; a failure
    of the compiler or of the packaging is the failure of
    [preprocess].  With a debug path the same module is dumped first,
    to output.tosa and desc.json under that path, when the path is not
    empty and the file system lets the directory be made and both files
    be opened.  When the directory cannot be made (always so for the
    empty path: FileNotFoundError) or a file cannot be opened, what the
    file system raises is the failure of [preprocess] and the external
    compiler is not started. *)
Theorem preprocess_compiles_the_lowered_module verbose ep compile_spec path st1 :
  debug_tosa_path compile_spec None = Ok path ->
  for_each (graph_nodes ep) (lower_node ep path) (loop_start files path verbose)
  = (Ok tt, st1) ->
  let compiled := data ← vela (tosa_fb st1); Packager.package data in
  (path = None ->
   preprocess vela files verbose ep compile_spec = (compiled, st1))
  /\ (forall p,
        path = Some p ->
        let info := if verbose
                    then [Logged INFO (EmittingDebugOutputTo (Some p))]
                    else [] in
        (dump_allowed files p ->
         preprocess vela files verbose ep compile_spec
         = (compiled, with_trace st1 (dump_trace verbose p (tosa_fb st1))))
        /\ (p = "" ->
            preprocess vela files verbose ep compile_spec
            = (Raise FileNotFoundError, with_trace st1 info))
        /\ (forall e, p <> "" -> makedirs_error files p = Some e ->
                      preprocess vela files verbose ep compile_spec
                      = (Raise e, with_trace st1 info))
        /\ (forall e, p <> "" -> makedirs_error files p = None ->
                      open_error files (String.append p "output.tosa") = Some e ->
                      preprocess vela files verbose ep compile_spec
                      = (Raise e, with_trace st1 (info ++ [Makedirs p])))
        /\ (forall e, p <> "" -> makedirs_error files p = None ->
                      open_error files (String.append p "output.tosa") = None ->
                      open_error files (String.append p "desc.json") = Some e ->
                      preprocess vela files verbose ep compile_spec
                      = (Raise e,
                         with_trace st1
                           (info ++ [Makedirs p;
                                     FileWritten (String.append p "output.tosa")
                                                 (Serialized (tosa_fb st1))])))).
Proof.
  intros Hpath Hloop compiled.
  destruct (node_loop_keeps_environment ep path (graph_nodes ep)
              (loop_start files path verbose)) as [Hv Hfs].
  rewrite Hloop in Hv, Hfs. cbn [snd loop_start TOSA_DBG_VERBOSE fs] in Hv, Hfs.
  assert (Hrun : preprocess vela files verbose ep compile_spec
                 = match (if bool_decide (path <> None) then dbg_tosa_dump path
                          else mret tt) st1 with
                   | (Ok _, st2) => vela_compile vela st2
                   | (Raise e, st2) => (Raise e, st2)
                   end).
  { rewrite preprocess_unfold, Hpath. unfold mbind, M_bind. rewrite Hloop.
    reflexivity. }
  rewrite Hrun. clear Hrun. split.
  - intros ->. rewrite bool_decide_eq_false_2 by (intros H; apply H; reflexivity).
    cbn [mret M_ret]. apply vela_compile_run.
  - intros p ->. cbv zeta.
    rewrite bool_decide_eq_true_2 by discriminate.
    destruct (dbg_tosa_dump_cases p st1) as (Hok & Hempty & Hmk & Ho1 & Ho2).
    rewrite Hv, Hfs in *.
    split; [|split; [|split; [|split]]].
    + intros Hallowed. rewrite (Hok Hallowed). rewrite vela_compile_run.
      reflexivity.
    + intros E. rewrite (Hempty E). reflexivity.
    + intros e Hp He. rewrite (Hmk e Hp He). reflexivity.
    + intros e Hp Hm He. rewrite (Ho1 e Hp Hm He). reflexivity.
    + intros e Hp Hm Ho He. rewrite (Ho2 e Hp Hm Ho He). reflexivity.
Qed.

Lemma lower_node_info_logs_only ep node st :
  info_logs_only st -> info_logs_only (lower_node ep None node st).2.
Proof.
  intros [Hall Hquiet].
  assert (Hdec : handled_kind node \/ ~ handled_kind node).
  { unfold handled_kind.
    destruct (String.eqb_spec (node_op node) "call_function"); [tauto|].
    destruct (String.eqb_spec (node_op node) "placeholder"); [tauto|].
    destruct (String.eqb_spec (node_op node) "output"); tauto. }
  destruct Hdec as [Hk | Hk].
  - pose proof (handled_node_is_quiet ep None node st Hk) as Ht.
    pose proof (lower_node_only_appends ep None node st) as Ha.
    destruct Ha as (_ & _ & _ & _ & _ & _ & _ & _ & Hv & _).
    unfold info_logs_only. rewrite Ht, Hv. split; assumption.
  - rewrite (unhandled_node_without_path ep node st Hk).
    unfold info_logs_only. cbn [trace TOSA_DBG_VERBOSE snd]. split.
    + apply Forall_app. split; [exact Hall|].
      destruct (TOSA_DBG_VERBOSE st); repeat constructor.
    + intros Hv. rewrite Hv, app_nil_r. exact (Hquiet Hv).
Qed.

Lemma node_loop_info_logs_only ep nodes st :
  info_logs_only st ->
  info_logs_only (for_each nodes (lower_node ep None) st).2.
Proof.
  revert st. induction nodes as [|node nodes IH]; intros st Hst; [exact Hst|].
  cbn [for_each]. unfold mbind, M_bind.
  pose proof (lower_node_info_logs_only ep node st Hst) as Hn.
  destruct (lower_node ep None node st) as [[[]|e] st1]; cbn [snd] in *.
  - apply IH. exact Hn.
  - exact Hn.
Qed.

(** X22.  Without an entry "debug_tosa_path" in the compile
    specification, [preprocess] makes no debug directory and writes no
    dump file, whatever the graph, the file system and the compiler,
    and whether it returns or raises: the trace holds log lines of
    level INFO only, and nothing at all when logging is not verbose.  A
    node of an unhandled kind is then not reported either. *)
Theorem preprocess_without_debug_path_dumps_nothing verbose ep compile_spec :
  debug_tosa_path compile_spec None = Ok None ->
  info_logs_only (preprocess vela files verbose ep compile_spec).2.
Proof.
  intros Hpath. rewrite preprocess_unfold, Hpath.
  rewrite bool_decide_eq_false_2 by (intros H; apply H; reflexivity).
  assert (Hstart : info_logs_only (loop_start files None verbose)).
  { unfold info_logs_only, loop_start. cbn [trace TOSA_DBG_VERBOSE].
    destruct verbose; split; try repeat constructor; try discriminate. }
  pose proof (node_loop_info_logs_only ep (graph_nodes ep) _ Hstart) as Hloop.
  unfold mbind at 1. unfold M_bind.
  destruct (for_each (graph_nodes ep) (lower_node ep None)
              (loop_start files None verbose)) as [[[]|e] st1]; cbn [snd] in *;
    [|exact Hloop].
  unfold mbind at 1. unfold M_bind. cbn [mret M_ret].
  rewrite vela_compile_run. exact Hloop.
Qed.

End WholeRunFacts.

Lemma preprocess_stops_at_first_failing_node_witness :
  preprocess vela_stub writable_fs false program_with_get_attr []
  = (Raise TypeError,
     with_tensor (fresh_state None false)
       (input_tensor_of (placeholder_node "x" [])) true).
Proof.
  refine (preprocess_stops_at_first_failing_node vela_stub writable_fs false
            program_with_get_attr [] None [placeholder_node "x" []]
            get_attr_node [output_node [ref "x" FP32 [4]]] _ TypeError _
            eq_refl eq_refl _ _);
    vm_compute; reflexivity.
Defined.

Lemma preprocess_compiles_the_lowered_module_witness :
  preprocess vela_stub writable_fs true div_program [debug_entry (utf8 "dbg/")]
  = (Packager.package [("scratch_shape", {| itemsize := 8; items := [10] |})],
     with_trace div_program_lowered
       (dump_trace true "dbg/" (tosa_fb div_program_lowered)))
  /\ preprocess vela_failing writable_fs false div_program []
     = (Raise CalledProcessError,
        (for_each (graph_nodes div_program) (lower_node div_program None)
           (loop_start writable_fs None false)).2)
  /\ preprocess vela_stub writable_fs false div_program [debug_entry []]
     = (Raise FileNotFoundError,
        (for_each (graph_nodes div_program) (lower_node div_program (Some ""))
           (loop_start writable_fs (Some "") false)).2)
  /\ preprocess vela_stub read_only_fs false div_program
       [debug_entry (utf8 "dbg/")]
     = (Raise (OSError "PermissionError"),
        (for_each (graph_nodes div_program) (lower_node div_program (Some "dbg/"))
           (loop_start read_only_fs (Some "dbg/") false)).2).
Proof.
  split; [|split; [|split]].
  - refine (proj1 (proj2 (preprocess_compiles_the_lowered_module vela_stub
                            writable_fs true div_program
                            [debug_entry (utf8 "dbg/")] (Some "dbg/")
                            div_program_lowered eq_refl _) "dbg/" eq_refl) _).
    + vm_compute. reflexivity.
    + split; [discriminate|]. split; [reflexivity|]. split; reflexivity.
  - refine (proj1 (preprocess_compiles_the_lowered_module vela_failing
                     writable_fs false div_program [] None _ eq_refl _) eq_refl).
    vm_compute. reflexivity.
  - refine (eq_trans
              (proj1 (proj2 (proj2 (preprocess_compiles_the_lowered_module
                                      vela_stub writable_fs false div_program
                                      [debug_entry []] (Some "") _ eq_refl _)
                                   "" eq_refl)) eq_refl) _).
    + vm_compute. reflexivity.
    + vm_compute. reflexivity.
  - refine (eq_trans
              (proj1 (proj2 (proj2 (proj2
                 (preprocess_compiles_the_lowered_module vela_stub read_only_fs
                    false div_program [debug_entry (utf8 "dbg/")] (Some "dbg/")
                    _ eq_refl _) "dbg/" eq_refl)))
                 (OSError "PermissionError") _ eq_refl) _).
    + vm_compute. reflexivity.
    + discriminate.
    + vm_compute. reflexivity.
Defined.

Lemma preprocess_without_debug_path_dumps_nothing_witness :
  info_logs_only
    (preprocess vela_stub read_only_fs true program_with_get_attr
       [{| key := "other"; value := utf8 "dbg/" |}]).2.
Proof.
  apply (preprocess_without_debug_path_dumps_nothing vela_stub read_only_fs true
           program_with_get_attr [{| key := "other"; value := utf8 "dbg/" |}]).
  reflexivity.
Defined.

(** ** The partitioner *)

Section PartitionFacts.

Variable spec : DelegationSpec.

Lemma tag_nodes_tags tag nodes acc :
  partition_tags (fold_left (tag_node spec tag) nodes acc)
  = match nodes with
    | [] => partition_tags acc
    | _ :: _ => <[tag := spec]> (partition_tags acc)
    end.
Proof.
  revert acc. induction nodes as [|n nodes IH]; intros acc; [reflexivity|].
  cbn [fold_left]. rewrite IH. destruct nodes; [reflexivity|].
  cbn [tag_node partition_tags]. apply insert_insert_eq.
Qed.

Lemma tag_nodes_meta tag nodes acc n :
  delegation_tag (fold_left (tag_node spec tag) nodes acc) !! n
  = if bool_decide (n ∈ nodes) then Some tag else delegation_tag acc !! n.
Proof.
  revert acc. induction nodes as [|m nodes IH]; intros acc.
  - rewrite bool_decide_eq_false_2 by (intros H; inversion H). reflexivity.
  - cbn [fold_left]. rewrite IH. cbn [tag_node delegation_tag].
    destruct (decide (n ∈ nodes)) as [Hin | Hnin].
    + rewrite !bool_decide_eq_true_2; [reflexivity | right; exact Hin | exact Hin].
    + rewrite (bool_decide_eq_false_2 _ Hnin).
      destruct (decide (n = m)) as [-> | Hne].
      * rewrite lookup_insert_eq, bool_decide_eq_true_2 by left. reflexivity.
      * rewrite lookup_insert_ne by congruence.
        rewrite bool_decide_eq_false_2; [reflexivity|].
        intros H. apply elem_of_cons in H. tauto.
Qed.

Lemma partition_snoc verbose meta l p :
  (partition spec verbose meta (l ++ [p])).2
  = tag_partition spec (partition spec verbose meta l).2 p.
Proof. unfold partition. cbn [snd]. rewrite fold_left_app. reflexivity. Qed.

Lemma tag_of_inj p q : tag_of p = tag_of q -> partition_id p = partition_id q.
Proof.
  unfold tag_of. intros H. cbn in H. injection H as H.
  exact (pretty_Z_inj _ _ H).
Qed.

Lemma partition_tags_lookup verbose meta partition_list tag s :
  partition_tags (partition spec verbose meta partition_list).2 !! tag = Some s
  <-> s = spec
      /\ exists p, p ∈ partition_list /\ partition_nodes p <> []
                   /\ tag_of p = tag.
Proof.
  induction partition_list as [|p l IH] using rev_ind.
  - cbn. rewrite lookup_empty. split; [discriminate|].
    intros [_ [p [Hin _]]]. inversion Hin.
  - rewrite partition_snoc. unfold tag_partition. rewrite tag_nodes_tags.
    assert (Hold : (exists q, q ∈ l /\ partition_nodes q <> [] /\ tag_of q = tag)
                   -> exists q, q ∈ l ++ [p] /\ partition_nodes q <> []
                                /\ tag_of q = tag).
    { intros [q [Hin Hq]]. exists q.
      split; [apply elem_of_app; left; exact Hin | exact Hq]. }
    destruct (partition_nodes p) as [|n ns] eqn:En.
    + rewrite IH. split; intros [Hs Hex]; (split; [exact Hs|]).
      * exact (Hold Hex).
      * destruct Hex as [q [Hin [Hne Ht]]]. exists q.
        apply elem_of_app in Hin. destruct Hin as [Hin | Hin]; [tauto|].
        apply list_elem_of_singleton in Hin. subst q. contradiction.
    + destruct (decide (tag_of p = tag)) as [<- | Hne].
      * rewrite lookup_insert_eq. split.
        -- intros E. injection E as <-. split; [reflexivity|].
           exists p. split; [apply elem_of_app; right; left|].
           split; [rewrite En; discriminate | reflexivity].
        -- intros [-> _]. reflexivity.
      * rewrite lookup_insert_ne by exact Hne. rewrite IH.
        split; intros [Hs Hex]; (split; [exact Hs|]).
        -- exact (Hold Hex).
        -- destruct Hex as [q [Hin [Hq Ht]]]. exists q.
           apply elem_of_app in Hin. destruct Hin as [Hin | Hin]; [tauto|].
           apply list_elem_of_singleton in Hin. subst q. contradiction.
Qed.

Lemma untouched_node_keeps_tag l acc n :
  Forall (fun q => n ∉ partition_nodes q) l ->
  delegation_tag (fold_left (tag_partition spec) l acc) !! n
  = delegation_tag acc !! n.
Proof.
  revert acc. induction l as [|q l IH]; intros acc Hall; [reflexivity|].
  apply Forall_cons in Hall. destruct Hall as [Hq Hall].
  cbn [fold_left]. rewrite (IH _ Hall). unfold tag_partition.
  rewrite tag_nodes_meta, bool_decide_eq_false_2 by exact Hq. reflexivity.
Qed.

(** X23.  The tags of the partitioner.  The result maps exactly the
    tags "tag<id>" of the proposed partitions that hold at least one
    node, each to the delegation specification of the partitioner (the
    backend "ArmBackend" with its compile specification); a partition
    without nodes adds no tag, and partitions of different ids have
    different tags. *)
Theorem partition_tags_of_nonempty_partitions verbose meta partition_list :
  (forall tag s,
     partition_tags (partition spec verbose meta partition_list).2 !! tag = Some s
     <-> s = spec
         /\ exists p, p ∈ partition_list /\ partition_nodes p <> []
                      /\ tag_of p = tag)
  /\ (forall p q, tag_of p = tag_of q -> partition_id p = partition_id q).
Proof.
  split; [|exact tag_of_inj]. intros tag s. apply partition_tags_lookup.
Qed.

(** X24.  The nodes of the partitioner.  A node of a proposed partition
    ends with the metadata entry "delegation_tag" set to the tag of the
    last partition of the list that holds it, and that tag is one of
    the tags of the result; the entry of a node that is in no
    partition is left as it was. *)
Theorem partitioned_nodes_carry_a_declared_tag verbose meta partition_list n :
  (Forall (fun q => n ∉ partition_nodes q) partition_list ->
   delegation_tag (partition spec verbose meta partition_list).2 !! n
   = meta !! n)
  /\ (forall before p after,
        partition_list = before ++ p :: after ->
        n ∈ partition_nodes p ->
        Forall (fun q => n ∉ partition_nodes q) after ->
        delegation_tag (partition spec verbose meta partition_list).2 !! n
        = Some (tag_of p)
        /\ partition_tags (partition spec verbose meta partition_list).2
             !! tag_of p = Some spec).
Proof.
  split.
  - intros Hall. unfold partition. cbn [snd].
    rewrite (untouched_node_keeps_tag _ _ _ Hall). reflexivity.
  - intros before p after -> Hin Hafter. split.
    + unfold partition. cbn [snd]. rewrite fold_left_app. cbn [fold_left].
      rewrite (untouched_node_keeps_tag _ _ _ Hafter). unfold tag_partition.
      rewrite tag_nodes_meta, bool_decide_eq_true_2 by exact Hin. reflexivity.
    + apply partition_tags_lookup. split; [reflexivity|]. exists p.
      split; [apply elem_of_app; right; left|].
      split; [|reflexivity]. intros E. rewrite E in Hin. inversion Hin.
Qed.

End PartitionFacts.

Lemma partition_tags_of_nonempty_partitions_witness :
  partition_tags
    (partition (ArmPartitioner_delegation_spec []) false ∅ sample_partitions).2
  !! "tag12" = Some (ArmPartitioner_delegation_spec [])
  /\ partition_tags
       (partition (ArmPartitioner_delegation_spec []) false ∅ sample_partitions).2
     !! "tag1" = None.
Proof.
  split.
  - apply (proj1 (partition_tags_of_nonempty_partitions
                    (ArmPartitioner_delegation_spec []) false ∅ sample_partitions)).
    split; [reflexivity|].
    exists {| partition_id := 12; partition_nodes := ["softmax"; "add"] |}.
    split; [right; right; left|]. split; [discriminate | reflexivity].
  - destruct (partition_tags
                (partition (ArmPartitioner_delegation_spec []) false ∅
                   sample_partitions).2 !! "tag1") as [s|] eqn:E; [|reflexivity].
    apply (proj1 (partition_tags_of_nonempty_partitions
                    (ArmPartitioner_delegation_spec []) false ∅ sample_partitions))
      in E.
    destruct E as [_ [p [Hin [Hne Ht]]]]. exfalso.
    repeat (apply elem_of_cons in Hin; destruct Hin as [-> | Hin]);
      [discriminate Ht | apply Hne; reflexivity | discriminate Ht | inversion Hin].
Defined.

Lemma partitioned_nodes_carry_a_declared_tag_witness :
  delegation_tag
    (partition (ArmPartitioner_delegation_spec []) false
       {["relu" := "mine"]} sample_partitions).2 !! "add" = Some "tag12"
  /\ delegation_tag
       (partition (ArmPartitioner_delegation_spec []) false
          {["relu" := "mine"]} sample_partitions).2 !! "relu" = Some "mine".
Proof.
  split.
  - apply (proj2 (partitioned_nodes_carry_a_declared_tag
                    (ArmPartitioner_delegation_spec []) false {["relu" := "mine"]}
                    sample_partitions "add")
             [{| partition_id := 0; partition_nodes := ["add"; "div"] |};
              {| partition_id := 1; partition_nodes := [] |}]
             {| partition_id := 12; partition_nodes := ["softmax"; "add"] |} []
             eq_refl).
    + right; left.
    + constructor.
  - etransitivity; [|apply (lookup_singleton_eq (M := gmap string))].
    apply (proj1 (partitioned_nodes_carry_a_declared_tag
                    (ArmPartitioner_delegation_spec []) false {["relu" := "mine"]}
                    sample_partitions "relu")).
    repeat constructor; intros H;
      repeat (apply elem_of_cons in H; destruct H as [H | H];
              [discriminate H|]); inversion H.
Defined.
